(** * Ledger and daily-balance reconciliation engine (flexio-api)

    A shallow embedding of [DailyBalanceService] and [TransactionService]
    with the Prisma store they run against, and the properties of the
    reconciliation engine stated over it.

    Conventions of the embedding.
    - A [Decimal(15,2)] column holds an integer number of hundredths ([Z]);
      [Decimal.plus] and [Decimal.minus] are exact.
    - A JavaScript [number] is an IEEE-754 binary64 value ([float]).
      [Number(d)] of a Decimal is the double nearest to it.
    - Writing a [number] into a Decimal column goes through the coercion
      [toDecimal] of the ORM and the database, which is not part of the
      repository: it is a parameter of the development.
    - A calendar date is a day number ([Z]); the clock reading [new Date()]
      truncated to midnight is the explicit parameter [today].
    - [prisma.$transaction] either commits the store its callback produced
      or, when the callback throws, leaves the store as it was.
    - Primary keys ([cuid()]) are drawn from a counter. Foreign keys are not
      checked on insert; a Prisma [update] of a missing row throws.
    - Columns the properties never read (timestamps, referenceNumber, the
      account's bank and branch) are left out.
    - The process's local time is UTC, so that [setHours(0, 0, 0, 0)]
      leaves a stored date, a UTC midnight, where it is. Under another
      local time [updateTransaction] and [deleteTransaction] look the daily
      balance up under the day before the row's.
    - [findMany] without [orderBy] returns the rows in insertion order, an
      update leaving a row in its place; the database does not promise
      this, and a sum of numbers depends on the order.
    - Values fit their columns: amounts are whole hundredths within
      Decimal(15,2), times are ISO-8601 texts, the category and user ids a
      row names exist. What the store does with other values is outside
      the model. *)

From Stdlib Require Import ZArith List Bool Lia String.
From Stdlib Require Import Floats.PrimFloat Floats.SpecFloat Floats.FloatOps.
From Stdlib Require Import Numbers.Cyclic.Int63.Uint63.
From stdpp Require Import gmap list strings sorting.

Local Open Scope Z_scope.

(** ** Numbers *)

Abbreviation decimal := Z (only parsing).
Abbreviation number := float (only parsing).

(** [Number(d)] for a Decimal [d] (given in hundredths): both the magnitude
    and 100 are exact doubles, so the correctly rounded quotient is the
    double nearest to the decimal value. A Decimal(15,2) magnitude is below
    10^15, well inside the exact range of [of_uint63]. *)
Definition Number (d : decimal) : number :=
  if d <? 0
  then (- (of_uint63 (Uint63.of_Z (- d)) / 100))%float
  else (of_uint63 (Uint63.of_Z d) / 100)%float.

(** The store coercion on concrete inputs. A number reaches a Decimal
    column as its decimal text, the shortest decimal that reads back as the
    same double (the text JavaScript prints), and a Decimal(15,2) column
    keeps that text rounded to two places, halves away from zero.

    For a positive finite double [m * 2^e], [readsBack m e s p] tells
    whether the decimal [s * 10^p] lies in the rounding interval of the
    double, so that reading it gives the double back; the bounds belong to
    the interval when [m] is even. The comparison is between numerators
    over a common denominator. *)
Definition readsBack (m : positive) (e : Z) (s p : Z) : bool :=
  let sh := if e <? 2 then 2 - e else 0 in
  let b := 2 ^ (e - 2 + sh) in
  let up := if p <? 0 then 10 ^ (- p) else 1 in
  let c := s * (if p <? 0 then 1 else 10 ^ p) * 2 ^ sh in
  let hi := (4 * Z.pos m + 2) * b * up in
  let lo := (if (Z.pos m =? 2 ^ 52) && (-1074 <? e)
             then 4 * Z.pos m - 1 else 4 * Z.pos m - 2) * b * up in
  if Z.even (Z.pos m) then (lo <=? c) && (c <=? hi) else (lo <? c) && (c <? hi).

(** The distance of [s * 10^p] from the double, over the same denominator. *)
Definition distance (m : positive) (e : Z) (s p : Z) : Z :=
  let sh := if e <? 2 then 2 - e else 0 in
  let b := 2 ^ (e - 2 + sh) in
  let up := if p <? 0 then 10 ^ (- p) else 1 in
  let c := s * (if p <? 0 then 1 else 10 ^ p) * 2 ^ sh in
  Z.abs (c - 4 * Z.pos m * b * up).

(** The double in units of [10^p], rounded down. *)
Definition floorAt (m : positive) (e : Z) (p : Z) : Z :=
  let num := Z.pos m * (if e <? 0 then 1 else 2 ^ e)
             * (if p <? 0 then 10 ^ (- p) else 1) in
  let den := (if e <? 0 then 2 ^ (- e) else 1) * (if p <? 0 then 1 else 10 ^ p) in
  num / den.

(** From the coarsest unit [10^p] down: the first unit at which a
    neighbouring multiple reads back gives the shortest text; of two that
    do, the nearer one, the even one when equally near. *)
Fixpoint shortest (fuel : nat) (m : positive) (e : Z) (p : Z) : Z * Z :=
  match fuel with
  | O => (floorAt m e p, p)
  | S fuel' =>
      let s := floorAt m e p in
      let okLo := (0 <? s) && readsBack m e s p in
      let okHi := readsBack m e (s + 1) p in
      if okLo && okHi then
        let dLo := distance m e s p in
        let dHi := distance m e (s + 1) p in
        if dLo <? dHi then (s, p)
        else if dHi <? dLo then (s + 1, p)
        else if Z.even s then (s, p) else (s + 1, p)
      else if okLo then (s, p)
      else if okHi then (s + 1, p)
      else shortest fuel' m e (p - 1)
  end.

(** Digits and exponent of the text; the search starts above the decimal
    order of magnitude, estimated from the binary one. *)
Definition toText (m : positive) (e : Z) : Z * Z :=
  let l := Z.log2 (Z.pos m) + e in
  shortest 800 m e ((l + 1) * 30103 / 100000 + 2).

(** NaN and the infinities, which the store refuses, are sent to 0, and the
    fifteen digits of the column are not enforced. *)
Definition round2 (x : number) : decimal :=
  match Prim2SF x with
  | S754_finite sg m e =>
      let '(s, p) := toText m e in
      let q := if 0 <=? p + 2 then s * 10 ^ (p + 2)
               else (2 * s + 10 ^ (- (p + 2))) / (2 * 10 ^ (- (p + 2))) in
      if sg then - q else q
  | _ => 0
  end.

(** ** Data model (prisma/schema.prisma) *)

Inductive TransactionType := DEPOSIT | WITHDRAWAL | EXPENSE | TRANSFER.

Definition TransactionType_eqb (a b : TransactionType) : bool :=
  match a, b with
  | DEPOSIT, DEPOSIT | WITHDRAWAL, WITHDRAWAL
  | EXPENSE, EXPENSE | TRANSFER, TRANSFER => true
  | _, _ => false
  end.

Record BankAccount := mkBankAccount {
  accountNumber : string;
  currentBalance : decimal
}.

Record Transaction := mkTransaction {
  id : positive;
  transactionDate : Z;
  transactionTime : string;
  type : TransactionType;
  amount : decimal;
  balanceAfter : decimal;
  note : option string;
  bankAccountId : string;
  categoryId : option string;
  createdBy : string;
  relatedTransactionId : option positive
}.

Record DailyBalance := mkDailyBalance {
  openingBalance : decimal;
  closingBalance : decimal;
  actualBalance : decimal;
  totalDeposits : decimal;
  totalWithdrawals : decimal;
  totalExpenses : decimal;
  totalTransfers : decimal;
  unknownDeposits : decimal;
  profit : decimal;
  isClosed : bool;
  closedBy : option string
}.

(** The store: one table per model. [transactions] keeps insertion order,
    which is the order [findMany] without [orderBy] returns; [dailyBalances]
    is keyed by the compound unique key (balanceDate, bankAccountId);
    [nextId] stands for the generator of fresh primary keys. *)
Record Store := mkStore {
  bankAccounts : gmap string BankAccount;
  transactions : list Transaction;
  dailyBalances : gmap (Z * string) DailyBalance;
  nextId : positive
}.

(** ** Errors and the unit of work *)

Inductive Error :=
| ACCOUNT_NOT_FOUND
| TARGET_ACCOUNT_NOT_FOUND
| ALREADY_CLOSED
| DAILY_BALANCE_NOT_CLOSED
| INSUFFICIENT_BALANCE
| TRANSACTION_NOT_FOUND
| RECORD_NOT_FOUND.

Inductive Result (A : Type) :=
| Ok (a : A) (st : Store)
| Err (e : Error).
Arguments Ok {A} a st.
Arguments Err {A} e.

Definition Tx (A : Type) := Store -> Result A.

Definition ret {A} (a : A) : Tx A := fun st => Ok a st.
Definition throw {A} (e : Error) : Tx A := fun _ => Err e.
Definition bind {A B} (m : Tx A) (k : A -> Tx B) : Tx B :=
  fun st => match m st with
            | Ok a st' => k a st'
            | Err e => Err e
            end.
Definition gets {A} (f : Store -> A) : Tx A := fun st => Ok (f st) st.
Definition modify (f : Store -> Store) : Tx unit := fun st => Ok tt (f st).

Declare Scope tx_scope.
Delimit Scope tx_scope with tx.
Notation "x <- m ;; k" := (bind m (fun x => k))
  (at level 100, m at next level, right associativity) : tx_scope.
Notation "m ;;; k" := (bind m (fun _ => k))
  (at level 100, right associativity) : tx_scope.

(** The store after [prisma.$transaction(m)]: committed on success, rolled
    back (unchanged) when [m] throws. *)
Definition commit {A} (m : Tx A) (st : Store) : Store :=
  match m st with
  | Ok _ st' => st'
  | Err _ => st
  end.

Definition failsWith {A} (m : Tx A) (st : Store) (e : Error) : bool :=
  match m st with
  | Err e' => match e, e' with
              | ACCOUNT_NOT_FOUND, ACCOUNT_NOT_FOUND
              | TARGET_ACCOUNT_NOT_FOUND, TARGET_ACCOUNT_NOT_FOUND
              | ALREADY_CLOSED, ALREADY_CLOSED
              | DAILY_BALANCE_NOT_CLOSED, DAILY_BALANCE_NOT_CLOSED
              | INSUFFICIENT_BALANCE, INSUFFICIENT_BALANCE
              | TRANSACTION_NOT_FOUND, TRANSACTION_NOT_FOUND
              | RECORD_NOT_FOUND, RECORD_NOT_FOUND => true
              | _, _ => false
              end
  | Ok _ _ => false
  end.

(** ** Store primitives (the Prisma client calls the services make) *)

Definition setBankAccounts (f : gmap string BankAccount -> gmap string BankAccount)
    (st : Store) : Store :=
  mkStore (f (bankAccounts st)) (transactions st) (dailyBalances st) (nextId st).

Definition setTransactions (f : list Transaction -> list Transaction)
    (st : Store) : Store :=
  mkStore (bankAccounts st) (f (transactions st)) (dailyBalances st) (nextId st).

Definition setDailyBalances
    (f : gmap (Z * string) DailyBalance -> gmap (Z * string) DailyBalance)
    (st : Store) : Store :=
  mkStore (bankAccounts st) (transactions st) (f (dailyBalances st)) (nextId st).

(** [bankAccount.findUnique({ where: { id } })] *)
Definition bankAccount_findUnique (accId : string) : Tx (option BankAccount) :=
  gets (fun st => bankAccounts st !! accId).

(** [bankAccount.update({ where: { id }, data: { currentBalance } })]:
    Prisma throws when no row has that id. *)
Definition bankAccount_update (accId : string) (balance : decimal) : Tx unit :=
  fun st =>
    match bankAccounts st !! accId with
    | Some a =>
        Ok tt (setBankAccounts
                 (insert accId (mkBankAccount (accountNumber a) balance)) st)
    | None => Err RECORD_NOT_FOUND
    end.

(** [dailyBalance.findUnique({ where: { balanceDate_bankAccountId } })] *)
Definition dailyBalance_findUnique (date : Z) (accId : string)
    : Tx (option DailyBalance) :=
  gets (fun st => dailyBalances st !! (date, accId)).

(** [dailyBalance.update({ where, data: { isClosed: false, closedBy: null } })],
    the only update of a daily balance the services issue besides upsert. *)
Definition reopened (r : DailyBalance) : DailyBalance :=
  mkDailyBalance (openingBalance r) (closingBalance r) (actualBalance r)
    (totalDeposits r) (totalWithdrawals r) (totalExpenses r)
    (totalTransfers r) (unknownDeposits r) (profit r) false None.

Definition dailyBalance_reopen (date : Z) (accId : string) : Tx unit :=
  fun st =>
    match dailyBalances st !! (date, accId) with
    | Some r => Ok tt (setDailyBalances (insert (date, accId) (reopened r)) st)
    | None => Err RECORD_NOT_FOUND
    end.

(** [transaction.findMany({ where: { bankAccountId, transactionDate } })] *)
Definition onDay (accId : string) (date : Z) (t : Transaction) : bool :=
  String.eqb (bankAccountId t) accId && (transactionDate t =? date).

Definition transaction_findMany (accId : string) (date : Z)
    : Tx (list Transaction) :=
  gets (fun st => List.filter (onDay accId date) (transactions st)).

(** [transaction.findUnique({ where: { id } })] *)
Definition findRow (i : positive) (rows : list Transaction) : option Transaction :=
  List.find (fun t => Pos.eqb (id t) i) rows.

Definition transaction_findUnique (i : positive) : Tx (option Transaction) :=
  gets (fun st => findRow i (transactions st)).

(** ** DailyBalanceService *)

(** The value [calculateDailyBalance] returns: JavaScript numbers. *)
Record Calculation := mkCalculation {
  calc_openingBalance : number;
  calc_closingBalance : number;
  calc_totalDeposits : number;
  calc_totalWithdrawals : number;
  calc_totalExpenses : number;
  calc_totalTransfers : number;
  transactionCount : nat
}.

(** The accumulator of the [reduce] over the day's transactions. *)
Record Totals := mkTotals {
  acc_totalDeposits : number;
  acc_totalWithdrawals : number;
  acc_totalExpenses : number;
  acc_totalTransfers : number
}.

Definition addTransaction (acc : Totals) (transaction : Transaction) : Totals :=
  let amount := Number (amount transaction) in
  match type transaction with
  | DEPOSIT =>
      mkTotals (acc_totalDeposits acc + amount)%float (acc_totalWithdrawals acc)
        (acc_totalExpenses acc) (acc_totalTransfers acc)
  | WITHDRAWAL =>
      mkTotals (acc_totalDeposits acc) (acc_totalWithdrawals acc + amount)%float
        (acc_totalExpenses acc) (acc_totalTransfers acc)
  | EXPENSE =>
      mkTotals (acc_totalDeposits acc) (acc_totalWithdrawals acc)
        (acc_totalExpenses acc + amount)%float (acc_totalTransfers acc)
  | TRANSFER =>
      mkTotals (acc_totalDeposits acc) (acc_totalWithdrawals acc)
        (acc_totalExpenses acc) (acc_totalTransfers acc + amount)%float
  end.

Definition calculateDailyBalance (accId : string) (date : Z) : Tx Calculation :=
  (let previousDay := date - 1 in
   previousBalance <- dailyBalance_findUnique previousDay accId ;;
   let openingBalance :=
     match previousBalance with
     | Some p => actualBalance p
     | None => 0
     end in
   transactions <- transaction_findMany accId date ;;
   let totals := fold_left addTransaction transactions (mkTotals 0 0 0 0) in
   let closingBalance :=
     (Number openingBalance + acc_totalDeposits totals
      - acc_totalWithdrawals totals - acc_totalExpenses totals
      - acc_totalTransfers totals)%float in
   ret (mkCalculation (Number openingBalance) closingBalance
          (acc_totalDeposits totals) (acc_totalWithdrawals totals)
          (acc_totalExpenses totals) (acc_totalTransfers totals)
          (length transactions)))%tx.

Section Services.

(** The coercion applied when a JavaScript number is written to a
    Decimal(15,2) column. *)
Variable toDecimal : number -> decimal.

(** [dailyBalance.upsert({ where, update, create })] as both [close] paths
    call it: the [update] branch leaves [openingBalance] and
    [closingBalance] of an existing row as they are. *)
Definition upsertRow (existing : option DailyBalance)
    (calculation : Calculation) (actualBalance unknownDeposits profit : number)
    (userId : string) : DailyBalance :=
  match existing with
  | Some r =>
      mkDailyBalance (openingBalance r) (closingBalance r)
        (toDecimal actualBalance)
        (toDecimal (calc_totalDeposits calculation))
        (toDecimal (calc_totalWithdrawals calculation))
        (toDecimal (calc_totalExpenses calculation))
        (toDecimal (calc_totalTransfers calculation))
        (toDecimal unknownDeposits) (toDecimal profit)
        true (Some userId)
  | None =>
      mkDailyBalance
        (toDecimal (calc_openingBalance calculation))
        (toDecimal (calc_closingBalance calculation))
        (toDecimal actualBalance)
        (toDecimal (calc_totalDeposits calculation))
        (toDecimal (calc_totalWithdrawals calculation))
        (toDecimal (calc_totalExpenses calculation))
        (toDecimal (calc_totalTransfers calculation))
        (toDecimal unknownDeposits) (toDecimal profit)
        true (Some userId)
  end.

Definition dailyBalance_upsert (date : Z) (accId : string)
    (calculation : Calculation) (actualBalance unknownDeposits profit : number)
    (userId : string) : Tx DailyBalance :=
  fun st =>
    let row :=
      upsertRow (dailyBalances st !! (date, accId)) calculation actualBalance
        unknownDeposits profit userId in
    Ok row (setDailyBalances (insert (date, accId) row) st).

Definition closeDailyBalance (accId : string) (date : Z)
    (actualBalance : number) (userId : string) : Tx DailyBalance :=
  (existingBalance <- dailyBalance_findUnique date accId ;;
   match existingBalance with
   | Some e => if isClosed e then throw ALREADY_CLOSED else ret tt
   | None => ret tt
   end ;;;
   calculation <- calculateDailyBalance accId date ;;
   let totalOutflow :=
     (calc_totalWithdrawals calculation + calc_totalExpenses calculation
      + calc_totalTransfers calculation)%float in
   let totalKnownDeposits := calc_totalDeposits calculation in
   let balanceChange := (actualBalance - calc_openingBalance calculation)%float in
   let totalAllDeposits := (totalOutflow + balanceChange)%float in
   let unknownDeposits := (totalAllDeposits - totalKnownDeposits)%float in
   let profit :=
     (unknownDeposits
      - (calc_totalWithdrawals calculation + calc_totalExpenses calculation))%float in
   dailyBalance <- dailyBalance_upsert date accId calculation actualBalance
                     unknownDeposits profit userId ;;
   bankAccount_update accId (toDecimal actualBalance) ;;;
   ret dailyBalance)%tx.

Definition reopenDailyBalance (accId : string) (date : Z) (userId : string)
    : Tx bool :=
  (dailyBalance <- dailyBalance_findUnique date accId ;;
   match dailyBalance with
   | Some d => if isClosed d then ret tt else throw DAILY_BALANCE_NOT_CLOSED
   | None => throw DAILY_BALANCE_NOT_CLOSED
   end ;;;
   dailyBalance_reopen date accId ;;;
   ret true)%tx.

(** Same as [closeDailyBalance] without the ALREADY_CLOSED check. *)
Definition autoCloseDailyBalance (accId : string) (date : Z)
    (actualBalance : number) (userId : string) : Tx DailyBalance :=
  (calculation <- calculateDailyBalance accId date ;;
   let totalOutflow :=
     (calc_totalWithdrawals calculation + calc_totalExpenses calculation
      + calc_totalTransfers calculation)%float in
   let totalKnownDeposits := calc_totalDeposits calculation in
   let balanceChange := (actualBalance - calc_openingBalance calculation)%float in
   let totalAllDeposits := (totalOutflow + balanceChange)%float in
   let unknownDeposits := (totalAllDeposits - totalKnownDeposits)%float in
   let profit :=
     (unknownDeposits
      - (calc_totalWithdrawals calculation + calc_totalExpenses calculation))%float in
   dailyBalance <- dailyBalance_upsert date accId calculation actualBalance
                     unknownDeposits profit userId ;;
   bankAccount_update accId (toDecimal actualBalance) ;;;
   ret dailyBalance)%tx.


(** ** TransactionService *)

(** [amount] arrives as a JSON number and is only ever used as a Decimal
    operand or column value on the create path; it is carried by its
    decimal value. *)
Record CreateTransactionInput := mkCreateTransactionInput {
  in_transactionDate : Z;
  in_transactionTime : string;
  in_type : TransactionType;
  in_amount : decimal;
  in_bankAccountId : string;
  in_categoryId : option string;
  in_note : option string;
  in_transferToBankAccountId : option string;
  in_createdBy : string
}.

Record UpdateTransactionInput := mkUpdateTransactionInput {
  upd_amount : option decimal;
  upd_note : option string;
  upd_categoryId : option string
}.

Record CreateResult := mkCreateResult {
  res_transaction : Transaction;
  res_relatedTransaction : option Transaction;
  res_reopenedDailyBalance : bool
}.

Record UpdateResult := mkUpdateResult {
  upd_transaction : option Transaction;
  isHistoricalUpdate : bool;
  upd_reopenedDailyBalance : bool
}.

Record DeleteResult := mkDeleteResult {
  success : bool;
  isHistoricalDeletion : bool;
  del_reopenedDailyBalance : bool
}.

Record BulkResult := mkBulkResult {
  updatedTransactions : nat;
  affectedDates : list Z;
  affectedBankAccounts : list string
}.

(** JavaScript truthiness of an optional string: [undefined] and the empty
    string are falsy. *)
Definition truthy (s : option string) : option string :=
  match s with
  | Some x => if String.eqb x EmptyString then None else Some x
  | None => None
  end.

(** [transaction.create({ data })]: the row gets a fresh primary key. *)
Definition transaction_create (data : positive -> Transaction) : Tx Transaction :=
  fun st =>
    let row := data (nextId st) in
    Ok row (mkStore (bankAccounts st) (transactions st ++ [row])
              (dailyBalances st) (Pos.succ (nextId st))).

Definition withRelated (rel : option positive) (t : Transaction) : Transaction :=
  mkTransaction (id t) (transactionDate t) (transactionTime t) (type t)
    (amount t) (balanceAfter t) (note t) (bankAccountId t) (categoryId t)
    (createdBy t) rel.

(** [transaction.update({ where: { id }, data: { relatedTransactionId } })] *)
Definition transaction_setRelated (i rel : positive) : Tx unit :=
  modify (setTransactions
            (map (fun t => if Pos.eqb (id t) i then withRelated (Some rel) t else t))).

(** [{ ...updates }]: a field that is [undefined] leaves the column alone. *)
Definition applyUpdates (u : UpdateTransactionInput) (t : Transaction) : Transaction :=
  mkTransaction (id t) (transactionDate t) (transactionTime t) (type t)
    (default (amount t) (upd_amount u)) (balanceAfter t)
    (match upd_note u with Some n => Some n | None => note t end)
    (bankAccountId t)
    (match upd_categoryId u with Some c => Some c | None => categoryId t end)
    (createdBy t) (relatedTransactionId t).

(** [transaction.update({ where: { id }, data: updates })], returning the
    updated row. *)
Definition transaction_update (i : positive) (u : UpdateTransactionInput)
    : Tx (option Transaction) :=
  (modify (setTransactions
             (map (fun t => if Pos.eqb (id t) i then applyUpdates u t else t))) ;;;
   transaction_findUnique i)%tx.

(** [transaction.delete({ where: { id } })]. The self-relation declares no
    [onDelete], so a row that referenced the deleted one has its optional
    foreign key set to null. *)
Definition clearRelated (i : positive) (t : Transaction) : Transaction :=
  match relatedTransactionId t with
  | Some r => if Pos.eqb r i then withRelated None t else t
  | None => t
  end.

Definition transaction_delete (i : positive) : Tx unit :=
  modify (setTransactions
            (fun rows =>
               map (clearRelated i)
                   (List.filter (fun t => negb (Pos.eqb (id t) i)) rows))).

(** The recurring "if that day is closed, reopen it" step. *)
Definition reopenIfClosed (date : Z) (accId : string) : Tx unit :=
  (dailyBalance <- dailyBalance_findUnique date accId ;;
   match dailyBalance with
   | Some d => if isClosed d then dailyBalance_reopen date accId else ret tt
   | None => ret tt
   end)%tx.

Definition createTransaction (today : Z) (input : CreateTransactionInput)
    : Tx CreateResult :=
  (bankAccount <- bankAccount_findUnique (in_bankAccountId input) ;;
   match bankAccount with
   | None => throw ACCOUNT_NOT_FOUND
   | Some bankAccount =>
     let transactionDate := in_transactionDate input in
     existingDailyBalance <-
       dailyBalance_findUnique transactionDate (in_bankAccountId input) ;;
     match existingDailyBalance with
     | Some e =>
         if isClosed e
         then dailyBalance_reopen transactionDate (in_bankAccountId input)
         else ret tt
     | None => ret tt
     end ;;;
     let newBalance :=
       match in_type input with
       | DEPOSIT => currentBalance bankAccount + in_amount input
       | _ => currentBalance bankAccount - in_amount input
       end in
     transaction <-
       transaction_create (fun i =>
         mkTransaction i (in_transactionDate input) (in_transactionTime input)
           (in_type input) (in_amount input) newBalance (in_note input)
           (in_bankAccountId input) (in_categoryId input) (in_createdBy input)
           None) ;;
     (if transactionDate =? today
      then bankAccount_update (in_bankAccountId input) newBalance
      else ret tt) ;;;
     relatedTransaction <-
       match in_type input, truthy (in_transferToBankAccountId input) with
       | TRANSFER, Some transferTo =>
           targetAccount <- bankAccount_findUnique transferTo ;;
           match targetAccount with
           | None => throw TARGET_ACCOUNT_NOT_FOUND
           | Some targetAccount =>
             let targetNewBalance :=
               currentBalance targetAccount + in_amount input in
             relatedTransaction <-
               transaction_create (fun i =>
                 mkTransaction i (in_transactionDate input)
                   (in_transactionTime input) DEPOSIT (in_amount input)
                   targetNewBalance
                   (Some ("Transfer from " ++ accountNumber bankAccount)%string)
                   transferTo None (in_createdBy input)
                   (Some (id transaction))) ;;
             transaction_setRelated (id transaction) (id relatedTransaction) ;;;
             (if transactionDate =? today
              then bankAccount_update transferTo targetNewBalance
              else ret tt) ;;;
             ret (Some relatedTransaction)
           end
       | _, _ => ret None
       end ;;
     ret (mkCreateResult transaction relatedTransaction
            (match existingDailyBalance with
             | Some e => isClosed e
             | None => false
             end))
   end)%tx.

Definition updateTransaction (today : Z) (transactionId : positive)
    (updates : UpdateTransactionInput) (userId : string) : Tx UpdateResult :=
  (existingTransaction <- transaction_findUnique transactionId ;;
   match existingTransaction with
   | None => throw TRANSACTION_NOT_FOUND
   | Some existingTransaction =>
     let transactionDate := transactionDate existingTransaction in
     let isHistoricalTransaction := transactionDate <? today in
     let isTodayTransaction := transactionDate =? today in
     (if isHistoricalTransaction
      then reopenIfClosed transactionDate (bankAccountId existingTransaction)
      else ret tt) ;;;
     match upd_amount updates with
     | Some newAmount =>
         let amountDifference :=
           (Number newAmount - Number (amount existingTransaction))%float in
         if isTodayTransaction
         then
           bankAccount <-
             bankAccount_findUnique (bankAccountId existingTransaction) ;;
           match bankAccount with
           | None => throw RECORD_NOT_FOUND
           | Some bankAccount =>
             let newBalance :=
               match type existingTransaction with
               | DEPOSIT => currentBalance bankAccount + toDecimal amountDifference
               | _ => currentBalance bankAccount - toDecimal amountDifference
               end in
             if newBalance <? 0
             then throw INSUFFICIENT_BALANCE
             else bankAccount_update (bankAccountId existingTransaction) newBalance
           end
         else ret tt
     | None => ret tt
     end ;;;
     updatedTransaction <- transaction_update transactionId updates ;;
     ret (mkUpdateResult updatedTransaction isHistoricalTransaction
            isHistoricalTransaction)
   end)%tx.

Definition deleteTransaction (today : Z) (transactionId : positive)
    (userId : string) : Tx DeleteResult :=
  (transaction <- transaction_findUnique transactionId ;;
   match transaction with
   | None => throw TRANSACTION_NOT_FOUND
   | Some transaction =>
     relatedTransaction <-
       gets (fun st =>
               match relatedTransactionId transaction with
               | Some r => findRow r (transactions st)
               | None => None
               end) ;;
     let transactionDate := transactionDate transaction in
     let isHistoricalTransaction := transactionDate <? today in
     let isTodayTransaction := transactionDate =? today in
     (if isHistoricalTransaction
      then reopenIfClosed transactionDate (bankAccountId transaction)
      else ret tt) ;;;
     (if isTodayTransaction
      then
        bankAccount <- bankAccount_findUnique (bankAccountId transaction) ;;
        match bankAccount with
        | None => throw RECORD_NOT_FOUND
        | Some bankAccount =>
          let newBalance :=
            match type transaction with
            | DEPOSIT => currentBalance bankAccount - amount transaction
            | _ => currentBalance bankAccount + amount transaction
            end in
          if newBalance <? 0
          then throw INSUFFICIENT_BALANCE
          else bankAccount_update (bankAccountId transaction) newBalance
        end
      else ret tt) ;;;
     match relatedTransaction with
     | Some r => transaction_delete (id r)
     | None => ret tt
     end ;;;
     transaction_delete transactionId ;;;
     ret (mkDeleteResult true isHistoricalTransaction isHistoricalTransaction)
   end)%tx.

(** [Set.prototype.add]: insertion order, no duplicates. *)
Definition setAdd {A} (eqb : A -> A -> bool) (x : A) (s : list A) : list A :=
  if existsb (eqb x) s then s else s ++ [x].

Fixpoint forEach {A} (l : list A) (body : A -> Tx unit) : Tx unit :=
  match l with
  | [] => ret tt
  | x :: l' => (body x ;;; forEach l' body)%tx
  end.

(** The first loop of [bulkUpdateHistoricalTransactions]: update each row
    that exists and record its date and its account in two separate sets. *)
Fixpoint bulkApply (updates : list (positive * UpdateTransactionInput))
    (affectedDates : list Z) (affectedBankAccounts : list string)
    : Tx (list Z * list string) :=
  match updates with
  | [] => ret (affectedDates, affectedBankAccounts)
  | (transactionId, transactionUpdates) :: rest =>
      (transaction <- transaction_findUnique transactionId ;;
       match transaction with
       | Some t =>
           transaction_update transactionId transactionUpdates ;;;
           bulkApply rest
             (setAdd Z.eqb (transactionDate t) affectedDates)
             (setAdd String.eqb (bankAccountId t) affectedBankAccounts)
       | None => bulkApply rest affectedDates affectedBankAccounts
       end)%tx
  end.

Definition bulkUpdateHistoricalTransactions
    (updates : list (positive * UpdateTransactionInput)) (userId : string)
    : Tx BulkResult :=
  (affected <- bulkApply updates [] [] ;;
   let affectedDates := fst affected in
   let affectedBankAccounts := snd affected in
   forEach affectedBankAccounts (fun bankAccountId =>
     forEach affectedDates (fun date =>
       reopenIfClosed date bankAccountId)) ;;;
   ret (mkBulkResult (length updates) affectedDates affectedBankAccounts))%tx.

End Services.

(** ** Notions used to state the properties *)

(** What [calculateDailyBalance] returns on a store. *)
Definition calculationOf (accId : string) (date : Z) (st : Store) : Calculation :=
  match calculateDailyBalance accId date st with
  | Ok c _ => c
  | Err _ => mkCalculation 0 0 0 0 0 0 0
  end.

(** The day's transactions of one type, and the JavaScript sum of their
    amounts in table order. *)
Definition ofType (ty : TransactionType) (t : Transaction) : bool :=
  TransactionType_eqb (type t) ty.

Definition sumOfType (ty : TransactionType) (rows : list Transaction) : number :=
  fold_left (fun s t => (s + Number (amount t))%float)
            (List.filter (ofType ty) rows) 0%float.

(** The reconciliation formula as section 4.4 of the specification writes
    it, over JavaScript numbers. *)
Record Reconciliation := mkReconciliation {
  rec_totalOutflow : number;
  rec_balanceChange : number;
  rec_totalAllDeposits : number;
  rec_unknownDeposits : number;
  rec_profit : number
}.

Definition reconciliation
    (opening totalDeposits totalWithdrawals totalExpenses totalTransfers
     actualBalance : number) : Reconciliation :=
  let totalOutflow := (totalWithdrawals + totalExpenses + totalTransfers)%float in
  let balanceChange := (actualBalance - opening)%float in
  let totalAllDeposits := (totalOutflow + balanceChange)%float in
  let unknownDeposits := (totalAllDeposits - totalDeposits)%float in
  let profit := (unknownDeposits - (totalWithdrawals + totalExpenses))%float in
  mkReconciliation totalOutflow balanceChange totalAllDeposits unknownDeposits profit.

Definition reconcile (c : Calculation) (actualBalance : number) : Reconciliation :=
  reconciliation (calc_openingBalance c) (calc_totalDeposits c)
    (calc_totalWithdrawals c) (calc_totalExpenses c) (calc_totalTransfers c)
    actualBalance.

(** The closing balance read as exact decimal arithmetic on the stored
    amounts (in hundredths), as the specification words it. *)
Definition decimalSum (ty : TransactionType) (rows : list Transaction) : decimal :=
  fold_left (fun s t => s + amount t) (List.filter (ofType ty) rows) 0.

Definition closing_exact_decimal (accId : string) (date : Z) (st : Store) : decimal :=
  let rows := List.filter (onDay accId date) (transactions st) in
  match dailyBalances st !! (date - 1, accId) with
  | Some p => actualBalance p
  | None => 0
  end
  + decimalSum DEPOSIT rows - decimalSum WITHDRAWAL rows
  - decimalSum EXPENSE rows - decimalSum TRANSFER rows.

Definition isClosedDay (accId : string) (date : Z) (st : Store) : bool :=
  match dailyBalances st !! (date, accId) with
  | Some r => isClosed r
  | None => false
  end.

Definition balanceOf (accId : string) (st : Store) : option decimal :=
  currentBalance <$> bankAccounts st !! accId.

(** The row a close writes for (date, accId), and the store it leaves. *)
Definition closedRow (toDecimal : number -> decimal) (accId : string) (date : Z)
    (actualBalance : number) (userId : string) (st : Store) : DailyBalance :=
  let c := calculationOf accId date st in
  let r := reconcile c actualBalance in
  upsertRow toDecimal (dailyBalances st !! (date, accId)) c actualBalance
    (rec_unknownDeposits r) (rec_profit r) userId.

Definition closedStore (toDecimal : number -> decimal) (accId : string) (date : Z)
    (actualBalance : number) (userId : string) (a : BankAccount) (st : Store)
    : Store :=
  mkStore
    (<[accId := mkBankAccount (accountNumber a) (toDecimal actualBalance)]>
       (bankAccounts st))
    (transactions st)
    (<[(date, accId) := closedRow toDecimal accId date actualBalance userId st]>
       (dailyBalances st))
    (nextId st).

(** The daily-balance table after the "reopen if closed" step. *)
Definition reopenDay (date : Z) (accId : string)
    (dbs : gmap (Z * string) DailyBalance) : gmap (Z * string) DailyBalance :=
  match dbs !! (date, accId) with
  | Some r => if isClosed r then <[(date, accId) := reopened r]> dbs else dbs
  | None => dbs
  end.

(** The row [createTransaction] inserts for its input, and the balance it
    computes for the account. *)
Definition newBalanceOf (input : CreateTransactionInput) (a : BankAccount) : decimal :=
  match in_type input with
  | DEPOSIT => currentBalance a + in_amount input
  | _ => currentBalance a - in_amount input
  end.

Definition mainRow (input : CreateTransactionInput) (a : BankAccount)
    (i : positive) : Transaction :=
  mkTransaction i (in_transactionDate input) (in_transactionTime input)
    (in_type input) (in_amount input) (newBalanceOf input a) (in_note input)
    (in_bankAccountId input) (in_categoryId input) (in_createdBy input) None.

Definition pairedRow (input : CreateTransactionInput) (a target : BankAccount)
    (transferTo : string) (i mainId : positive) : Transaction :=
  mkTransaction i (in_transactionDate input) (in_transactionTime input) DEPOSIT
    (in_amount input) (currentBalance target + in_amount input)
    (Some ("Transfer from " ++ accountNumber a)%string)
    transferTo None (in_createdBy input) (Some mainId).

Definition writeBalance (today date : Z) (accId : string) (balance : decimal)
    (accs : gmap string BankAccount) : gmap string BankAccount :=
  if date =? today
  then match accs !! accId with
       | Some a => <[accId := mkBankAccount (accountNumber a) balance]> accs
       | None => accs
       end
  else accs.

(** [keeps f m]: whenever [m] succeeds, the component [f] of the store is
    what it was. *)
Definition keeps {A B} (f : Store -> B) (m : Tx A) : Prop :=
  forall st a st', m st = Ok a st' -> f st' = f st.

(** ** Example stores *)

Definition row (i : positive) (date : Z) (ty : TransactionType) (a : decimal)
    (accId : string) : Transaction :=
  mkTransaction i date "1970-01-01T09:00:00.000Z" ty a 0 None accId None "u1"
    None.

(** Scenario B: 2024-01-10 is day 10; day 9 was closed at 1000.00. *)
Definition scenarioB : Store :=
  mkStore {[ "A" := mkBankAccount "001" 50000 ]}
    [row 1 10 DEPOSIT 30000 "A"; row 2 10 WITHDRAWAL 10000 "A";
     row 3 10 EXPENSE 5000 "A"; row 4 9 DEPOSIT 777 "A"]
    {[ (9, "A") := mkDailyBalance 0 0 100000 0 0 0 0 0 0 true (Some "u1") ]}
    5.

(** Two deposits of 0.10 and 0.20 on day 10, no earlier record. *)
Definition dimes : Store :=
  mkStore {[ "A" := mkBankAccount "001" 0 ]}
    [row 1 10 DEPOSIT 10 "A"; row 2 10 DEPOSIT 20 "A"] ∅ 3.

(** Day 9 was closed at 500.00 and reopened since. *)
Definition reopenedYesterday : Store :=
  mkStore {[ "A" := mkBankAccount "001" 50000 ]} []
    {[ (9, "A") := mkDailyBalance 0 0 50000 0 0 0 0 0 0 false None ]} 1.

(** Two accounts; day 9 of account A is closed. Today is day 10. *)
Definition twoAccounts : Store :=
  mkStore {[ "A" := mkBankAccount "001" 100000; "B" := mkBankAccount "002" 10000 ]}
    []
    {[ (9, "A") := mkDailyBalance 0 0 50000 0 0 0 0 0 0 true (Some "u1") ]} 1.

Definition request (date : Z) (ty : TransactionType) (a : decimal)
    (transferTo : option string) : CreateTransactionInput :=
  mkCreateTransactionInput date "1970-01-01T09:00:00.000Z" ty a "A" None None
    transferTo "u1".

(** Account A has a transaction on day 8 only, account B on day 9 only;
    days (8, A), (9, A) and (9, B) are closed. *)
Definition crossed : Store :=
  mkStore {[ "A" := mkBankAccount "001" 100000; "B" := mkBankAccount "002" 10000 ]}
    [row 1 8 DEPOSIT 100 "A"; row 2 9 DEPOSIT 100 "B"]
    {[ (8, "A") := mkDailyBalance 0 0 50000 0 0 0 0 0 0 true (Some "u1");
       (9, "A") := mkDailyBalance 0 0 50000 0 0 0 0 0 0 true (Some "u1");
       (9, "B") := mkDailyBalance 0 0 50000 0 0 0 0 0 0 true (Some "u1") ]} 3.

Definition corrections : list (positive * UpdateTransactionInput) :=
  [(1%positive, mkUpdateTransactionInput (Some 200) None None);
   (2%positive, mkUpdateTransactionInput None (Some "fixed"%string) None)].




(** ** DailyBalanceService, continued *)

(** The days the loop [for (d = fromDate; d <= today; d.setDate(d + 1))]
    collects; [n] bounds the number of iterations. *)
Fixpoint daysLoop (n : nat) (d today : Z) : list Z :=
  match n with
  | O => []
  | S n' => if d <=? today then d :: daysLoop n' (d + 1) today else []
  end.

Definition daysToRecalculate (fromDate today : Z) : list Z :=
  daysLoop (Z.to_nat (today - fromDate + 1)) fromDate today.

(** The [message] of the result (two formatted dates) is left out. *)
Record RecalculateResult := mkRecalculateResult {
  affectedDays : nat
}.

Definition recalculateDailyBalancesFromDate (today : Z) (accId : string)
    (fromDate : Z) (userId : string) : Tx RecalculateResult :=
  (let daysToRecalculate := daysToRecalculate fromDate today in
   forEach daysToRecalculate (fun date => reopenIfClosed date accId) ;;;
   ret (mkRecalculateResult (length daysToRecalculate)))%tx.

(** [getUnclosedDailyBalances]: the open records of the account dated
    before [cutoff], the day bound that [lt: new Date()] denotes on the
    date column, by ascending date. *)
Definition isUnclosed (accId : string) (cutoff : Z)
    (entry : Z * string * DailyBalance) : bool :=
  String.eqb (snd (fst entry)) accId
  && negb (isClosed (snd entry))
  && (fst (fst entry) <? cutoff).

Definition byBalanceDate (x y : Z * string * DailyBalance) : Prop :=
  fst (fst x) <= fst (fst y).

#[global] Instance byBalanceDate_dec x y : Decision (byBalanceDate x y) :=
  Z_le_dec _ _.

Definition getUnclosedDailyBalances (cutoff : Z) (accId : string)
    : Tx (list (Z * string * DailyBalance)) :=
  gets (fun st =>
    merge_sort byBalanceDate
      (List.filter (isUnclosed accId cutoff) (map_to_list (dailyBalances st)))).

(** ** Store invariants *)

(** Primary keys: every id, and every id a row refers to, was handed out by
    the generator, and no two rows share an id. *)
Definition wfStore (st : Store) : Prop :=
  Forall (fun t => (id t < nextId st)%positive) (transactions st) /\
  NoDup (map id (transactions st)) /\
  Forall (fun t => forall r, relatedTransactionId t = Some r ->
                             (r < nextId st)%positive)
         (transactions st).

(** [maintains P m]: whenever [m] succeeds from a store satisfying [P], the
    store it leaves satisfies [P]. *)
Definition maintains {A} (P : Store -> Prop) (m : Tx A) : Prop :=
  forall st a st', P st -> m st = Ok a st' -> P st'.

(** ** Further notions *)

(** The record of a day after "reopen if closed". *)
Definition openedRow (r : DailyBalance) : DailyBalance :=
  if isClosed r then reopened r else r.

(** The balance a same-day amount update computes. *)
Definition updatedBalance (toDecimal : float -> Z) (e : Transaction)
    (newAmount : Z) (a : BankAccount) : Z :=
  let amountDifference := (Number newAmount - Number (amount e))%float in
  match type e with
  | DEPOSIT => currentBalance a + toDecimal amountDifference
  | _ => currentBalance a - toDecimal amountDifference
  end.

(** The balance a same-day delete computes. *)
Definition reversedBalance (t : Transaction) (a : BankAccount) : Z :=
  match type t with
  | DEPOSIT => currentBalance a - amount t
  | _ => currentBalance a + amount t
  end.

Definition rowsAfterDelete (i : positive) (t : Transaction)
    (rows : list Transaction) : list Transaction :=
  map (clearRelated i)
    (List.filter (fun x => negb (Pos.eqb (id x) i))
       (match relatedTransactionId t with
        | Some j =>
            match findRow j rows with
            | Some _ =>
                map (clearRelated j)
                  (List.filter (fun x => negb (Pos.eqb (id x) j)) rows)
            | None => rows
            end
        | None => rows
        end)).

(** The daily-balance table after an edit of a row dated [date] on [acc]. *)
Definition afterEdit (today date : Z) (acc : string)
    (dbs : gmap (Z * string) DailyBalance) : gmap (Z * string) DailyBalance :=
  if date <? today then reopenDay date acc dbs else dbs.

(** The calculation after one more row [t] has landed on (accId, date). *)
Definition withRow (c : Calculation) (t : Transaction) : Calculation :=
  let totals :=
    addTransaction
      (mkTotals (calc_totalDeposits c) (calc_totalWithdrawals c)
         (calc_totalExpenses c) (calc_totalTransfers c)) t in
  mkCalculation (calc_openingBalance c)
    (calc_openingBalance c + acc_totalDeposits totals - acc_totalWithdrawals totals
     - acc_totalExpenses totals - acc_totalTransfers totals)%float
    (acc_totalDeposits totals) (acc_totalWithdrawals totals)
    (acc_totalExpenses totals) (acc_totalTransfers totals)
    (S (transactionCount c)).

(** ** Primary keys *)

Definition wfRows (n : positive) (rows : list Transaction) : Prop :=
  Forall (fun t => (id t < n)%positive) rows /\
  NoDup (map id rows) /\
  Forall (fun t => forall r, relatedTransactionId t = Some r -> (r < n)%positive) rows.

(** ** Bulk correction, in general *)

Definition rowKey (t : Transaction) : positive * Z * string :=
  (id t, transactionDate t, bankAccountId t).

(** ** Controllers *)

Inductive UserRole := OWNER | BRANCH_MANAGER | BRANCH_USER.

(** [req.user], as the authentication middleware leaves it. *)
Record AuthUser := mkAuthUser {
  user_id : string;
  role : UserRole
}.

(** What the handler sends: [sendSuccess(res, data, message, statusCode)]
    or [sendError(res, code, message, statusCode)]. *)
Inductive Response (A : Type) :=
| sendSuccess (data : A) (message : string) (statusCode : nat)
| sendError (code : string) (message : string) (statusCode : nat).
Arguments sendSuccess {A} data message statusCode.
Arguments sendError {A} code message statusCode.

(** [haystack.includes(needle)] *)
Fixpoint includes (haystack needle : string) : bool :=
  if String.prefix needle haystack then true
  else match haystack with
       | EmptyString => false
       | String _ rest => includes rest needle
       end.

(** [error.message] of what the services throw. The text Prisma gives a
    storage error is not in the repository; the two INSUFFICIENT_BALANCE
    texts differ after the tag ("Update would ..." / "Deletion would ..."),
    which no handler reads. *)
Definition message (prismaMessage : string) (e : Error) : string :=
  match e with
  | ACCOUNT_NOT_FOUND => "ACCOUNT_NOT_FOUND: Bank account not found"
  | TARGET_ACCOUNT_NOT_FOUND =>
      "TARGET_ACCOUNT_NOT_FOUND: Target bank account not found"
  | ALREADY_CLOSED =>
      "ALREADY_CLOSED: Daily balance for this date is already closed"
  | DAILY_BALANCE_NOT_CLOSED =>
      "DAILY_BALANCE_NOT_CLOSED: Daily balance is not closed or does not exist"
  | INSUFFICIENT_BALANCE =>
      "INSUFFICIENT_BALANCE: Update would result in negative balance"
  | TRANSACTION_NOT_FOUND => "Transaction not found"
  | RECORD_NOT_FOUND => prismaMessage
  end.

Record TransactionCategory := mkTransactionCategory {
  cat_transactionType : TransactionType;
  cat_isActive : bool
}.

Definition typeName (ty : TransactionType) : string :=
  match ty with
  | DEPOSIT => "DEPOSIT"
  | WITHDRAWAL => "WITHDRAWAL"
  | EXPENSE => "EXPENSE"
  | TRANSFER => "TRANSFER"
  end.

(** [validateTransactionCategory]: the message it throws, if any. *)
Definition validateTransactionCategory
    (categories : gmap string TransactionCategory)
    (categoryId : string) (transactionType : TransactionType) : option string :=
  match categories !! categoryId with
  | None => Some "CATEGORY_NOT_FOUND: Transaction category not found"%string
  | Some category =>
      if negb (cat_isActive category)
      then Some "CATEGORY_INACTIVE: Transaction category is inactive"%string
      else if negb (TransactionType_eqb (cat_transactionType category) transactionType)
      then Some ("CATEGORY_TYPE_MISMATCH: Category is for "
                 ++ typeName (cat_transactionType category)
                 ++ " but transaction type is " ++ typeName transactionType)%string
      else None
  end.

Module Controllers.
Section Handlers.

Variable toDecimal : float -> Z.
Variable prismaMessage : string.
Variable today : Z.

Definition closeDailyBalance (user : option AuthUser) (bank_account_id : string)
    (date : Z) (actual_balance : float) (st : Store)
    : Response DailyBalance * Store :=
  match user with
  | None => (sendError "UNAUTHORIZED" "User not authenticated" 401, st)
  | Some user =>
      match closeDailyBalance toDecimal bank_account_id date actual_balance
              (user_id user) st with
      | Ok dailyBalance st' =>
          (sendSuccess dailyBalance "Daily balance closed successfully" 200, st')
      | Err error =>
          if includes (message prismaMessage error) "ALREADY_CLOSED"
          then (sendError "DAILY_BALANCE_CLOSED" (message prismaMessage error) 400, st)
          else (sendError "INTERNAL_ERROR" "Failed to close daily balance" 500, st)
      end
  end.

Definition reopenDailyBalance (user : option AuthUser) (bank_account_id : string)
    (date : Z) (st : Store) : Response string * Store :=
  match user with
  | None => (sendError "UNAUTHORIZED" "User not authenticated" 401, st)
  | Some user =>
      match role user with
      | OWNER | BRANCH_MANAGER =>
          match reopenDailyBalance bank_account_id date (user_id user) st with
          | Ok _ st' =>
              (sendSuccess
                 "Daily balance reopened successfully. You can now modify transactions and reclose."%string
                 "Daily balance reopened successfully" 200, st')
          | Err error =>
              if includes (message prismaMessage error) "DAILY_BALANCE_NOT_CLOSED"
              then (sendError "DAILY_BALANCE_NOT_CLOSED"
                      (message prismaMessage error) 400, st)
              else (sendError "INTERNAL_ERROR" "Failed to reopen daily balance" 500, st)
          end
      | BRANCH_USER =>
          (sendError "FORBIDDEN"
             "Insufficient permissions to reopen daily balance" 403, st)
      end
  end.

Definition recalculateDailyBalances (user : option AuthUser)
    (bank_account_id : option string) (fromDate : option Z) (st : Store)
    : Response RecalculateResult * Store :=
  match user with
  | None => (sendError "UNAUTHORIZED" "User not authenticated" 401, st)
  | Some user =>
      match role user with
      | OWNER | BRANCH_MANAGER =>
          match truthy bank_account_id, fromDate with
          | Some bank_account_id, Some fromDate =>
              match recalculateDailyBalancesFromDate today bank_account_id fromDate
                      (user_id user) st with
              | Ok result st' =>
                  (sendSuccess result "Daily balances recalculated successfully" 200, st')
              | Err _ =>
                  (sendError "INTERNAL_ERROR"
                     "Failed to recalculate daily balances" 500, st)
              end
          | _, _ =>
              (sendError "VALIDATION_ERROR"
                 "Bank account ID and from date are required" 400, st)
          end
      | BRANCH_USER =>
          (sendError "FORBIDDEN"
             "Insufficient permissions to recalculate daily balances" 403, st)
      end
  end.

Definition autoCloseDailyBalance (user : option AuthUser) (bank_account_id : string)
    (date : Z) (actual_balance : float) (st : Store)
    : Response DailyBalance * Store :=
  match user with
  | None => (sendError "UNAUTHORIZED" "User not authenticated" 401, st)
  | Some user =>
      match role user with
      | OWNER =>
          match autoCloseDailyBalance toDecimal bank_account_id date actual_balance
                  (user_id user) st with
          | Ok dailyBalance st' =>
              (sendSuccess dailyBalance "Daily balance auto-closed successfully" 200, st')
          | Err _ =>
              (sendError "INTERNAL_ERROR" "Failed to auto close daily balance" 500, st)
          end
      | _ =>
          (sendError "FORBIDDEN" "Only admin can use auto close feature" 403, st)
      end
  end.

Definition createTransaction (categories : gmap string TransactionCategory)
    (user : option AuthUser) (transaction_date : Z) (transaction_time : string)
    (type : TransactionType) (amount : Z) (bank_account_id : string)
    (category_id note transfer_to_bank_account_id : option string) (st : Store)
    : Response CreateResult * Store :=
  match user with
  | None => (sendError "UNAUTHORIZED" "User not authenticated" 401, st)
  | Some user =>
      let thrown :=
        match truthy category_id with
        | Some category_id => validateTransactionCategory categories category_id type
        | None => None
        end in
      match thrown with
      | Some text =>
          if includes text "CATEGORY_NOT_FOUND"
          then (sendError "CATEGORY_NOT_FOUND" "Transaction category not found" 404, st)
          else if includes text "CATEGORY_INACTIVE"
          then (sendError "CATEGORY_INACTIVE" "Transaction category is inactive" 400, st)
          else if includes text "CATEGORY_TYPE_MISMATCH"
          then (sendError "CATEGORY_TYPE_MISMATCH" text 400, st)
          else if includes text "INSUFFICIENT_BALANCE"
          then (sendError "INSUFFICIENT_BALANCE" text 400, st)
          else if includes text "ACCOUNT_NOT_FOUND"
          then (sendError "ACCOUNT_NOT_FOUND" text 404, st)
          else (sendError "INTERNAL_ERROR" "Failed to create transaction" 500, st)
      | None =>
          match createTransaction today
                  (mkCreateTransactionInput transaction_date transaction_time type
                     amount bank_account_id category_id note
                     transfer_to_bank_account_id (user_id user)) st with
          | Ok result st' =>
              (sendSuccess result
                 (if res_reopenedDailyBalance result
                  then "Transaction created successfully. Daily balance for this date has been reopened for recalculation."
                  else "Transaction created successfully")%string
                 201, st')
          | Err error =>
              if includes (message prismaMessage error) "INSUFFICIENT_BALANCE"
              then (sendError "INSUFFICIENT_BALANCE" (message prismaMessage error) 400, st)
              else if includes (message prismaMessage error) "ACCOUNT_NOT_FOUND"
              then (sendError "ACCOUNT_NOT_FOUND" (message prismaMessage error) 404, st)
              else (sendError "INTERNAL_ERROR" "Failed to create transaction" 500, st)
          end
      end
  end.

(** [amount ? parseFloat(amount) : undefined], for a numeric [amount]. *)
Definition truthyAmount (amount : option Z) : option Z :=
  match amount with
  | Some a => if a =? 0 then None else Some a
  | None => None
  end.

Definition updateTransaction (user : option AuthUser) (id : positive)
    (amount : option Z) (note category_id : option string) (st : Store)
    : Response UpdateResult * Store :=
  match user with
  | None => (sendError "UNAUTHORIZED" "User not authenticated" 401, st)
  | Some user =>
      match updateTransaction toDecimal today id
              (mkUpdateTransactionInput (truthyAmount amount) note category_id)
              (user_id user) st with
      | Ok result st' =>
          (sendSuccess result
             ("Transaction updated successfully"
              ++ (if isHistoricalUpdate result
                  then ". This is a historical transaction update." else "")
              ++ (if upd_reopenedDailyBalance result
                  then " Daily balance has been reopened for recalculation." else ""))%string
             200, st')
      | Err _ => (sendError "INTERNAL_ERROR" "Failed to update transaction" 500, st)
      end
  end.

Definition deleteTransaction (user : option AuthUser) (id : positive) (st : Store)
    : Response DeleteResult * Store :=
  match user with
  | None => (sendError "UNAUTHORIZED" "User not authenticated" 401, st)
  | Some user =>
      match deleteTransaction today id (user_id user) st with
      | Ok result st' =>
          (sendSuccess result
             ("Transaction deleted successfully"
              ++ (if isHistoricalDeletion result
                  then ". This was a historical transaction deletion." else "")
              ++ (if del_reopenedDailyBalance result
                  then " Daily balance has been reopened for recalculation." else ""))%string
             200, st')
      | Err _ => (sendError "INTERNAL_ERROR" "Failed to delete transaction" 500, st)
      end
  end.

Definition bulkUpdateHistoricalTransactions (user : option AuthUser)
    (updates : list (positive * UpdateTransactionInput)) (st : Store)
    : Response BulkResult * Store :=
  match user with
  | None => (sendError "UNAUTHORIZED" "User not authenticated" 401, st)
  | Some user =>
      match role user with
      | OWNER | BRANCH_MANAGER =>
          match updates with
          | [] =>
              (sendError "VALIDATION_ERROR"
                 "Updates array is required and cannot be empty" 400, st)
          | _ =>
              match bulkUpdateHistoricalTransactions updates (user_id user) st with
              | Ok result st' =>
                  (sendSuccess result "Bulk update completed successfully" 200, st')
              | Err _ =>
                  (sendError "INTERNAL_ERROR"
                     "Failed to bulk update transactions" 500, st)
              end
          end
      | BRANCH_USER =>
          (sendError "FORBIDDEN" "Insufficient permissions for bulk updates" 403, st)
      end
  end.

End Handlers.
End Controllers.

(** ** What the handlers answer *)

(** What a response carries besides its payload and text. *)

Definition answer {A} (r : Response A) : option string * nat :=
  match r with
  | sendSuccess _ _ statusCode => (None, statusCode)
  | sendError code _ statusCode => (Some code, statusCode)
  end.

(** * Properties *)

(** ** The calculator *)

Lemma calculateDailyBalance_ok (accId : string) (date : Z) (st : Store) :
  calculateDailyBalance accId date st = Ok (calculationOf accId date st) st.
Proof. reflexivity. Qed.

(** The calculator reads the previous day's record and the transaction
    table, nothing else. *)
Lemma calculationOf_frame (accId : string) (date : Z) (st1 st2 : Store) :
  dailyBalances st1 !! (date - 1, accId) = dailyBalances st2 !! (date - 1, accId) ->
  transactions st1 = transactions st2 ->
  calculationOf accId date st1 = calculationOf accId date st2.
Proof.
  intros Hd Ht.
  unfold calculationOf, calculateDailyBalance, bind, dailyBalance_findUnique,
    transaction_findMany, gets, ret.
  cbn beta iota. rewrite Hd, Ht. reflexivity.
Qed.

Section Totals.

(** The four-field accumulator of the [reduce] is four independent sums. *)
Let step (s : number) (t : Transaction) : number := (s + Number (amount t))%float.

Lemma fold_addTransaction (rows : list Transaction) (acc : Totals) :
  fold_left addTransaction rows acc =
  mkTotals
    (fold_left step (List.filter (ofType DEPOSIT) rows) (acc_totalDeposits acc))
    (fold_left step (List.filter (ofType WITHDRAWAL) rows) (acc_totalWithdrawals acc))
    (fold_left step (List.filter (ofType EXPENSE) rows) (acc_totalExpenses acc))
    (fold_left step (List.filter (ofType TRANSFER) rows) (acc_totalTransfers acc)).
Proof.
  revert acc. induction rows as [|t rows IH]; intros acc.
  - destruct acc; reflexivity.
  - cbn [fold_left List.filter]. rewrite IH.
    unfold addTransaction, ofType. destruct (type t); reflexivity.
Qed.

End Totals.

(** C2 (as amended): [calculateDailyBalance] always returns, without
    writing; its closing balance is opening + deposits - withdrawals -
    expenses - transfers evaluated left to right in JavaScript number
    arithmetic; opening is [Number] of the previous day's record's
    actualBalance when such a record exists and 0 otherwise; each total is
    the JavaScript sum, in table order, of the [Number]-converted amounts
    of the day's transactions of that type on that account; transactionCount
    is the number of the day's transactions. *)
Theorem calculateDailyBalance_spec (accId : string) (date : Z) (st : Store) :
  let rows := List.filter (onDay accId date) (transactions st) in
  let c := calculationOf accId date st in
  calculateDailyBalance accId date st = Ok c st /\
  calc_closingBalance c =
    (calc_openingBalance c + calc_totalDeposits c - calc_totalWithdrawals c
     - calc_totalExpenses c - calc_totalTransfers c)%float /\
  calc_openingBalance c =
    Number (match dailyBalances st !! (date - 1, accId) with
            | Some p => actualBalance p
            | None => 0
            end) /\
  calc_totalDeposits c = sumOfType DEPOSIT rows /\
  calc_totalWithdrawals c = sumOfType WITHDRAWAL rows /\
  calc_totalExpenses c = sumOfType EXPENSE rows /\
  calc_totalTransfers c = sumOfType TRANSFER rows /\
  transactionCount c = length rows.
Proof.
  intros rows c. split; [reflexivity|].
  subst c. unfold calculationOf, calculateDailyBalance, bind,
    dailyBalance_findUnique, transaction_findMany, gets, ret.
  cbn beta iota. fold rows.
  rewrite (fold_addTransaction rows). cbn [calc_closingBalance calc_openingBalance
    calc_totalDeposits calc_totalWithdrawals calc_totalExpenses
    calc_totalTransfers transactionCount acc_totalDeposits acc_totalWithdrawals
    acc_totalExpenses acc_totalTransfers].
  repeat split.
Qed.

(** C2, counterexample: two deposits of 0.10 and 0.20 give a closing
    balance of 0.30000000000000004, which is not the number 0.30 that exact
    decimal arithmetic on the stored amounts yields. *)
Lemma calculateDailyBalance_float_drift :
  closing_exact_decimal "A" 10 dimes = 30 /\
  (calc_closingBalance (calculationOf "A" 10 dimes)
   =? Number (closing_exact_decimal "A" 10 dimes))%float = false /\
  (Number 10 + Number 20 =? Number 30)%float = false.
Proof. repeat split; vm_compute; reflexivity. Qed.

(** C5 (as amended): the opening balance used for a date is [Number] of the
    previous day's record's actualBalance whenever a record exists for the
    previous day, whether that record is closed or open; it is 0 only when
    there is no such record. *)
Theorem opening_ignores_isClosed (accId : string) (date : Z) (st : Store) :
  calc_openingBalance (calculationOf accId date st) =
  match dailyBalances st !! (date - 1, accId) with
  | Some p => Number (actualBalance p)
  | None => 0%float
  end.
Proof.
  unfold calculationOf, calculateDailyBalance, bind, dailyBalance_findUnique,
    transaction_findMany, gets, ret. cbn.
  destruct (dailyBalances st !! (date - 1, accId)); reflexivity.
Qed.

(** C5, counterexample: day 9 has an open (reopened) record holding
    actualBalance 500.00; the opening balance computed for day 10 is 500,
    not 0. *)
Lemma opening_from_reopened_day :
  isClosedDay "A" 9 reopenedYesterday = false /\
  calc_openingBalance (calculationOf "A" 10 reopenedYesterday) = 500%float /\
  (calc_openingBalance (calculationOf "A" 10 reopenedYesterday) =? 0)%float = false.
Proof. repeat split; vm_compute; reflexivity. Qed.

(** ** Close, auto-close, reopen *)

Section CloseReopen.

Variable toDecimal : number -> decimal.

Lemma autoClose_unfold accId date actual userId st :
  autoCloseDailyBalance toDecimal accId date actual userId st =
  match bankAccounts st !! accId with
  | Some a =>
      Ok (closedRow toDecimal accId date actual userId st)
         (closedStore toDecimal accId date actual userId a st)
  | None => Err RECORD_NOT_FOUND
  end.
Proof.
  unfold autoCloseDailyBalance, bind. rewrite calculateDailyBalance_ok.
  unfold dailyBalance_upsert, bankAccount_update, ret. cbn.
  destruct (bankAccounts st !! accId); reflexivity.
Qed.

Lemma close_unfold accId date actual userId st :
  closeDailyBalance toDecimal accId date actual userId st =
  if isClosedDay accId date st then Err ALREADY_CLOSED
  else autoCloseDailyBalance toDecimal accId date actual userId st.
Proof.
  unfold closeDailyBalance, autoCloseDailyBalance, isClosedDay, bind,
    dailyBalance_findUnique, gets, throw, ret.
  destruct (dailyBalances st !! (date, accId)) as [e|]; [destruct (isClosed e)|];
    reflexivity.
Qed.

Lemma closedRow_fields accId date actual userId st :
  let c := calculationOf accId date st in
  let r := reconcile c actual in
  let d := closedRow toDecimal accId date actual userId st in
  isClosed d = true /\ closedBy d = Some userId /\
  actualBalance d = toDecimal actual /\
  totalDeposits d = toDecimal (calc_totalDeposits c) /\
  totalWithdrawals d = toDecimal (calc_totalWithdrawals c) /\
  totalExpenses d = toDecimal (calc_totalExpenses c) /\
  totalTransfers d = toDecimal (calc_totalTransfers c) /\
  unknownDeposits d = toDecimal (rec_unknownDeposits r) /\
  profit d = toDecimal (rec_profit r).
Proof.
  cbv zeta. unfold closedRow, upsertRow.
  destruct (dailyBalances st !! (date, accId)); cbn; repeat split.
Qed.

Lemma close_inv accId date actual userId st d st' :
  closeDailyBalance toDecimal accId date actual userId st = Ok d st' \/
  autoCloseDailyBalance toDecimal accId date actual userId st = Ok d st' ->
  exists a, bankAccounts st !! accId = Some a /\
    d = closedRow toDecimal accId date actual userId st /\
    st' = closedStore toDecimal accId date actual userId a st.
Proof.
  intros H.
  assert (Ha : autoCloseDailyBalance toDecimal accId date actual userId st = Ok d st').
  { destruct H as [H|H]; [|exact H]. rewrite close_unfold in H.
    destruct (isClosedDay accId date st); [discriminate|exact H]. }
  rewrite autoClose_unfold in Ha.
  destruct (bankAccounts st !! accId) as [a|]; [|discriminate].
  injection Ha as <- <-. eauto.
Qed.


(** C3: [closeDailyBalance] fails ALREADY_CLOSED exactly when a record for
    (date, account) exists with isClosed = true, and then the store is left
    as it was; otherwise (the account row being there) it succeeds, the
    record under (date, account) becomes a closed one with closedBy = actor
    and the computed totals, Account.currentBalance becomes the actual
    balance, and the transaction table is untouched. *)
Theorem closeDailyBalance_spec accId date actual userId st :
  (closeDailyBalance toDecimal accId date actual userId st = Err ALREADY_CLOSED
   <-> exists r, dailyBalances st !! (date, accId) = Some r /\ isClosed r = true) /\
  (closeDailyBalance toDecimal accId date actual userId st = Err ALREADY_CLOSED ->
   commit (closeDailyBalance toDecimal accId date actual userId) st = st) /\
  (forall a, isClosedDay accId date st = false ->
     bankAccounts st !! accId = Some a ->
     exists d st',
       closeDailyBalance toDecimal accId date actual userId st = Ok d st' /\
       let c := calculationOf accId date st in
       dailyBalances st' = <[(date, accId) := d]> (dailyBalances st) /\
       isClosed d = true /\ closedBy d = Some userId /\
       actualBalance d = toDecimal actual /\
       totalDeposits d = toDecimal (calc_totalDeposits c) /\
       totalWithdrawals d = toDecimal (calc_totalWithdrawals c) /\
       totalExpenses d = toDecimal (calc_totalExpenses c) /\
       totalTransfers d = toDecimal (calc_totalTransfers c) /\
       unknownDeposits d = toDecimal (rec_unknownDeposits (reconcile c actual)) /\
       profit d = toDecimal (rec_profit (reconcile c actual)) /\
       balanceOf accId st' = Some (toDecimal actual) /\
       (forall other, other <> accId ->
          bankAccounts st' !! other = bankAccounts st !! other) /\
       transactions st' = transactions st).
Proof.
  rewrite close_unfold, autoClose_unfold. unfold commit.
  rewrite close_unfold, autoClose_unfold. unfold isClosedDay.
  split; [|split].
  - destruct (dailyBalances st !! (date, accId)) as [r|] eqn:E.
    + destruct (isClosed r) eqn:C.
      * split; eauto.
      * split.
        -- destruct (bankAccounts st !! accId); discriminate.
        -- intros (r' & [= <-] & C'). congruence.
    + split.
      * destruct (bankAccounts st !! accId); discriminate.
      * intros (r' & [=] & _).
  - destruct (dailyBalances st !! (date, accId)) as [r|]; [destruct (isClosed r)|];
      try reflexivity; destruct (bankAccounts st !! accId); discriminate.
  - intros a Hopen Ha. rewrite Hopen, Ha.
    eexists _, _. split; [reflexivity|]. cbv zeta.
    pose proof (closedRow_fields accId date actual userId st) as F.
    cbv zeta in F. destruct F as (F1 & F2 & F3 & F4 & F5 & F6 & F7 & F8 & F9).
    repeat split; try assumption.
    + unfold balanceOf, closedStore. cbn. rewrite lookup_insert_eq. reflexivity.
    + intros other Hne. unfold closedStore. cbn.
      apply lookup_insert_ne. congruence.
Qed.

(** C4: [reopenDailyBalance] fails DAILY_BALANCE_NOT_CLOSED exactly when no
    record exists for (date, account) or its isClosed is false; otherwise it
    succeeds and only sets isClosed = false and closedBy = null on that
    record: its stored figures, every other record, the accounts and the
    transactions are as before. *)
Theorem reopenDailyBalance_spec accId date userId st :
  (reopenDailyBalance accId date userId st = Err DAILY_BALANCE_NOT_CLOSED
   <-> dailyBalances st !! (date, accId) = None \/
       exists r, dailyBalances st !! (date, accId) = Some r /\ isClosed r = false) /\
  (forall r, dailyBalances st !! (date, accId) = Some r -> isClosed r = true ->
     exists r' st',
       reopenDailyBalance accId date userId st = Ok true st' /\
       dailyBalances st' = <[(date, accId) := r']> (dailyBalances st) /\
       isClosed r' = false /\ closedBy r' = None /\
       openingBalance r' = openingBalance r /\
       closingBalance r' = closingBalance r /\
       actualBalance r' = actualBalance r /\
       totalDeposits r' = totalDeposits r /\
       totalWithdrawals r' = totalWithdrawals r /\
       totalExpenses r' = totalExpenses r /\
       totalTransfers r' = totalTransfers r /\
       unknownDeposits r' = unknownDeposits r /\
       profit r' = profit r /\
       bankAccounts st' = bankAccounts st /\
       transactions st' = transactions st).
Proof.
  unfold reopenDailyBalance, bind, dailyBalance_findUnique, dailyBalance_reopen,
    gets, throw, ret.
  split.
  - destruct (dailyBalances st !! (date, accId)) as [r|] eqn:E; cbn.
    + destruct (isClosed r) eqn:C; cbn; rewrite ?E.
      * split; [discriminate|]. intros [[=]|(r' & [= <-] & C')]. congruence.
      * split; eauto.
    + split; eauto.
  - intros r E C. rewrite E. cbn. rewrite C. cbn. rewrite E.
    eexists _, _. split; [reflexivity|]. cbn. repeat split.
Qed.

(** A second close of the same day writes the row a first close would
    have written: the calculator does not read the day's own record, and the
    update branch keeps the opening and closing balances the create branch
    of the earlier call computed from the same calculation. *)
Lemma closedRow_after_close accId date a1 u1 a2 u2 a st :
  closedRow toDecimal accId date a2 u2
    (closedStore toDecimal accId date a1 u1 a st)
  = closedRow toDecimal accId date a2 u2 st.
Proof.
  unfold closedRow at 1.
  rewrite (calculationOf_frame accId date
             (closedStore toDecimal accId date a1 u1 a st) st).
  - unfold closedStore at 1. cbn [dailyBalances]. rewrite lookup_insert_eq.
    unfold closedRow, upsertRow.
    destruct (dailyBalances st !! (date, accId)); reflexivity.
  - unfold closedStore. cbn [dailyBalances]. apply lookup_insert_ne.
    intros [= H]. lia.
  - reflexivity.
Qed.

Lemma closedStore_after_close accId date a1 u1 a2 u2 a st :
  closedStore toDecimal accId date a2 u2
    (mkBankAccount (accountNumber a) (toDecimal a1))
    (closedStore toDecimal accId date a1 u1 a st)
  = closedStore toDecimal accId date a2 u2 a st.
Proof.
  unfold closedStore at 1. rewrite closedRow_after_close.
  unfold closedStore. cbn. rewrite !insert_insert_eq. reflexivity.
Qed.

(** C8: [autoCloseDailyBalance] never fails ALREADY_CLOSED, and on a day
    that is not closed it is [closeDailyBalance]. Two consecutive calls on
    the same (account, date) with any two actual balances both succeed (the
    account row being there); the store after the second call, and so every
    figure of the record, is exactly the store a single call with the second
    actual balance leaves, and Account.currentBalance is the second actual
    balance. *)
Theorem autoClose_twice accId date a1 a2 u1 u2 st :
  failsWith (autoCloseDailyBalance toDecimal accId date a1 u1) st ALREADY_CLOSED
    = false /\
  (isClosedDay accId date st = false ->
   closeDailyBalance toDecimal accId date a2 u2 st =
   autoCloseDailyBalance toDecimal accId date a2 u2 st) /\
  (forall a, bankAccounts st !! accId = Some a ->
     exists d1 st1 d2 st2,
       autoCloseDailyBalance toDecimal accId date a1 u1 st = Ok d1 st1 /\
       autoCloseDailyBalance toDecimal accId date a2 u2 st1 = Ok d2 st2 /\
       autoCloseDailyBalance toDecimal accId date a2 u2 st = Ok d2 st2 /\
       dailyBalances st2 !! (date, accId) = Some d2 /\
       d2 = closedRow toDecimal accId date a2 u2 st /\
       actualBalance d2 = toDecimal a2 /\
       closedBy d2 = Some u2 /\
       balanceOf accId st2 = Some (toDecimal a2)).
Proof.
  split; [|split].
  - unfold failsWith. rewrite autoClose_unfold.
    destruct (bankAccounts st !! accId); reflexivity.
  - intros H. rewrite close_unfold, H. reflexivity.
  - intros a Ha.
    exists (closedRow toDecimal accId date a1 u1 st),
           (closedStore toDecimal accId date a1 u1 a st),
           (closedRow toDecimal accId date a2 u2 st),
           (closedStore toDecimal accId date a2 u2 a st).
    split; [rewrite autoClose_unfold, Ha; reflexivity|].
    split.
    { rewrite autoClose_unfold.
      replace (bankAccounts (closedStore toDecimal accId date a1 u1 a st) !! accId)
        with (Some (mkBankAccount (accountNumber a) (toDecimal a1)))
        by (unfold closedStore; cbn; rewrite lookup_insert_eq; reflexivity).
      rewrite closedRow_after_close, closedStore_after_close. reflexivity. }
    split; [rewrite autoClose_unfold, Ha; reflexivity|].
    split; [unfold closedStore; cbn; apply lookup_insert_eq|].
    split; [reflexivity|].
    pose proof (closedRow_fields accId date a2 u2 st) as F. cbv zeta in F.
    destruct F as (_ & F2 & F3 & _).
    repeat split; try assumption.
    unfold balanceOf, closedStore. cbn. rewrite lookup_insert_eq. reflexivity.
Qed.

End CloseReopen.

(** Runs on concrete stores. *)



Lemma closeDailyBalance_scenarioB :
  exists d st',
    closeDailyBalance round2 "A" 10 2000 "u1" scenarioB = Ok d st' /\
    isClosed d = true /\ closedBy d = Some "u1"%string /\
    balanceOf "A" st' = Some (round2 2000).
Proof.
  destruct (proj2 (proj2 (closeDailyBalance_spec round2 "A" 10 2000%float
                            "u1"%string scenarioB))
              (mkBankAccount "001" 50000) eq_refl eq_refl)
    as (d & st' & H & H').
  cbv zeta in H'. exists d, st'. split; [exact H|].
  destruct H' as (_ & H1 & H2 & _ & _ & _ & _ & _ & _ & _ & H3 & _).
  split; [exact H1|]. split; [exact H2|exact H3].
Defined.

Lemma reopenDailyBalance_day9 :
  exists r' st',
    reopenDailyBalance "A" 9 "u1" scenarioB = Ok true st' /\
    dailyBalances st' !! (9, "A") = Some r' /\
    isClosed r' = false /\ actualBalance r' = 100000 /\
    bankAccounts st' = bankAccounts scenarioB.
Proof.
  destruct (proj2 (reopenDailyBalance_spec "A" 9 "u1" scenarioB)
              (mkDailyBalance 0 0 100000 0 0 0 0 0 0 true (Some "u1"%string))
              eq_refl eq_refl)
    as (r' & st' & H & Hd & H1 & _ & _ & _ & H2 & _ & _ & _ & _ & _ & _ & H3 & _).
  exists r', st'. split; [exact H|].
  split; [rewrite Hd; apply lookup_insert_eq|].
  split; [exact H1|]. split; [exact H2|exact H3].
Defined.

Lemma autoClose_twice_scenarioB :
  exists d1 st1 d2 st2,
    autoCloseDailyBalance round2 "A" 10 2000 "u1" scenarioB = Ok d1 st1 /\
    autoCloseDailyBalance round2 "A" 10 1500 "u2" st1 = Ok d2 st2 /\
    autoCloseDailyBalance round2 "A" 10 1500 "u2" scenarioB = Ok d2 st2 /\
    actualBalance d2 = round2 1500 /\
    balanceOf "A" st2 = Some (round2 1500).
Proof.
  destruct (proj2 (proj2 (autoClose_twice round2 "A" 10 2000%float 1500%float
                            "u1"%string "u2"%string scenarioB))
              (mkBankAccount "001" 50000) eq_refl)
    as (d1 & st1 & d2 & st2 & H1 & H2 & H3 & _ & _ & H4 & _ & H5).
  exists d1, st1, d2, st2. repeat split; assumption.
Defined.

(** ** Frame reasoning for units of work *)

Section Keeps.

Context {B : Type} (f : Store -> B).

Lemma keeps_ret {A} (a : A) : keeps f (ret a).
Proof. intros st a' st' [= _ <-]. reflexivity. Qed.

Lemma keeps_throw {A} (e : Error) : keeps f (@throw A e).
Proof. intros st a st' [=]. Qed.

Lemma keeps_gets {A} (g : Store -> A) : keeps f (gets g).
Proof. intros st a st' [= _ <-]. reflexivity. Qed.

Lemma keeps_bind {A C} (m : Tx A) (k : A -> Tx C) :
  keeps f m -> (forall a, keeps f (k a)) -> keeps f (bind m k).
Proof.
  intros Hm Hk st c st' H. unfold bind in H.
  destruct (m st) as [a st1|e] eqn:E; [|discriminate].
  rewrite (Hk a _ _ _ H). exact (Hm _ _ _ E).
Qed.

Lemma keeps_modify (g : Store -> Store) :
  (forall st, f (g st) = f st) -> keeps f (modify g).
Proof. intros Hg st a st' [= _ <-]. apply Hg. Qed.

End Keeps.

Lemma keeps_accounts_reopen date accId :
  keeps bankAccounts (dailyBalance_reopen date accId).
Proof.
  intros st a st' H. unfold dailyBalance_reopen in H.
  destruct (dailyBalances st !! (date, accId)); [|discriminate].
  injection H as _ <-. reflexivity.
Qed.

Lemma keeps_accounts_create data : keeps bankAccounts (transaction_create data).
Proof. intros st a st' [= _ <-]. reflexivity. Qed.

Ltac keeps_step :=
  first
    [ apply keeps_ret | apply keeps_throw | apply keeps_gets
    | apply keeps_accounts_reopen | apply keeps_accounts_create
    | apply keeps_modify; intros; reflexivity
    | apply keeps_bind; [|intros ?]
    | match goal with
      | |- keeps _ (match ?x with _ => _ end) => destruct x
      end ].

Ltac keeps_auto :=
  unfold bankAccount_findUnique, dailyBalance_findUnique, transaction_findUnique,
    transaction_setRelated, transaction_update, transaction_delete,
    reopenIfClosed;
  repeat keeps_step.

Lemma create_keeps_accounts today input :
  in_transactionDate input <> today ->
  keeps bankAccounts (createTransaction today input).
Proof.
  intros Hd. apply Z.eqb_neq in Hd.
  unfold createTransaction. rewrite Hd. keeps_auto.
Qed.

Ltac by_keeps H :=
  match type of H with
  | ?m ?st = Ok _ _ =>
      let K := fresh "K" in
      assert (K : keeps bankAccounts m); [keeps_auto | exact (K _ _ _ H)]
  end.

Lemma update_keeps_accounts toDecimal today e i updates userId st res st' :
  findRow i (transactions st) = Some e ->
  transactionDate e <> today ->
  updateTransaction toDecimal today i updates userId st = Ok res st' ->
  bankAccounts st' = bankAccounts st.
Proof.
  intros He Hd. apply Z.eqb_neq in Hd.
  unfold updateTransaction, bind at 1, transaction_findUnique at 1, gets at 1.
  rewrite He. cbv zeta. rewrite Hd. intros H. by_keeps H.
Qed.

Lemma delete_keeps_accounts today e i userId st res st' :
  findRow i (transactions st) = Some e ->
  transactionDate e <> today ->
  deleteTransaction today i userId st = Ok res st' ->
  bankAccounts st' = bankAccounts st.
Proof.
  intros He Hd. apply Z.eqb_neq in Hd.
  unfold deleteTransaction, bind at 1, transaction_findUnique at 1, gets at 1.
  rewrite He. cbv zeta. rewrite Hd. intros H. by_keeps H.
Qed.

Lemma bulkApply_keeps_accounts updates ds accs :
  keeps bankAccounts (bulkApply updates ds accs).
Proof.
  revert ds accs. induction updates as [|[i u] rest IH]; intros ds accs; cbn.
  - apply keeps_ret.
  - keeps_auto; apply IH.
Qed.

Lemma forEach_keeps {A B} (f : Store -> B) (l : list A) (body : A -> Tx unit) :
  (forall x, keeps f (body x)) -> keeps f (forEach l body).
Proof.
  intros Hb. induction l as [|x l IH]; cbn.
  - apply keeps_ret.
  - apply keeps_bind; [apply Hb | intros _; exact IH].
Qed.

Lemma bulk_keeps_accounts updates userId :
  keeps bankAccounts (bulkUpdateHistoricalTransactions updates userId).
Proof.
  unfold bulkUpdateHistoricalTransactions.
  apply keeps_bind; [apply bulkApply_keeps_accounts|intros [ds accs]].
  apply keeps_bind; [|intros _; apply keeps_ret].
  apply forEach_keeps; intros acc. apply forEach_keeps; intros d. keeps_auto.
Qed.

(** ** What createTransaction computes *)

Lemma reopen_step date accId st :
  match dailyBalances st !! (date, accId) with
  | Some e => if isClosed e then dailyBalance_reopen date accId else ret tt
  | None => ret tt
  end st
  = Ok tt (mkStore (bankAccounts st) (transactions st)
             (reopenDay date accId (dailyBalances st)) (nextId st)).
Proof.
  unfold reopenDay, dailyBalance_reopen, ret.
  destruct (dailyBalances st !! (date, accId)) as [e|] eqn:E;
    [destruct (isClosed e)|]; rewrite ?E; destruct st; reflexivity.
Qed.

Lemma createTransaction_run today input st a :
  bankAccounts st !! in_bankAccountId input = Some a ->
  let date := in_transactionDate input in
  let src := in_bankAccountId input in
  let n := nextId st in
  let main := mainRow input a n in
  let accs1 := writeBalance today date src (newBalanceOf input a) (bankAccounts st) in
  let dbs1 := reopenDay date src (dailyBalances st) in
  let flag := isClosedDay src date st in
  createTransaction today input st =
  match in_type input, truthy (in_transferToBankAccountId input) with
  | TRANSFER, Some transferTo =>
      match accs1 !! transferTo with
      | None => Err TARGET_ACCOUNT_NOT_FOUND
      | Some target =>
          let rel := pairedRow input a target transferTo (Pos.succ n) n in
          Ok (mkCreateResult main (Some rel) flag)
             (mkStore
                (writeBalance today date transferTo
                   (currentBalance target + in_amount input) accs1)
                (map (fun t => if Pos.eqb (id t) n
                               then withRelated (Some (Pos.succ n)) t else t)
                     ((transactions st ++ [main]) ++ [rel]))
                dbs1 (Pos.succ (Pos.succ n)))
      end
  | _, _ =>
      Ok (mkCreateResult main None flag)
         (mkStore accs1 (transactions st ++ [main]) dbs1 (Pos.succ n))
  end.
Proof.
  intros Ha. cbv zeta.
  unfold createTransaction.
  unfold bind at 1, bankAccount_findUnique at 1, gets at 1. rewrite Ha.
  unfold bind at 1, dailyBalance_findUnique at 1, gets at 1.
  unfold bind at 1. rewrite reopen_step.
  unfold bind at 1, transaction_create at 1. cbn [nextId transactions bankAccounts dailyBalances].
  fold (newBalanceOf input a). fold (mainRow input a (nextId st)).
  unfold isClosedDay.
  unfold writeBalance.
  destruct (in_transactionDate input =? today) eqn:Et.
  - unfold bind at 1, bankAccount_update at 1. cbn [bankAccounts]. rewrite Ha.
    unfold setBankAccounts at 1.
    cbn [bankAccounts transactions dailyBalances nextId].
    destruct (in_type input); try reflexivity.
    destruct (truthy (in_transferToBankAccountId input)) as [to|]; [|reflexivity].
    unfold bind at 1, bind at 1, bankAccount_findUnique, gets.
    cbn [bankAccounts].
    destruct (<[in_bankAccountId input:=_]> (bankAccounts st) !! to)
      as [target|] eqn:Eto; [|reflexivity].
    unfold bind, transaction_create, transaction_setRelated, modify,
      bankAccount_update, ret.
    cbn [bankAccounts transactions dailyBalances nextId setTransactions
         setBankAccounts id].
    rewrite Eto. reflexivity.
  - unfold bind at 1, ret at 1.
    destruct (in_type input); try reflexivity.
    destruct (truthy (in_transferToBankAccountId input)) as [to|]; [|reflexivity].
    unfold bind at 1, bind at 1, bankAccount_findUnique, gets.
    cbn [bankAccounts].
    destruct (bankAccounts st !! to) as [target|] eqn:Eto; [|reflexivity].
    unfold bind, transaction_create, transaction_setRelated, modify, ret.
    reflexivity.
Qed.

(** ** Balance propagation *)

(** C7: a create, update or delete of a transaction dated on any day other
    than the current processing date (so, in particular, before it) leaves
    every account row, hence every Account.currentBalance, as it was; a
    same-day create writes the balance: with currentBalance = 1000,
    create(DEPOSIT, 500, today) sets currentBalance = 1500 and records
    balanceAfter = 1500 on the transaction. *)
Theorem past_dated_frame :
  (forall today input st res st',
     in_transactionDate input <> today ->
     createTransaction today input st = Ok res st' ->
     bankAccounts st' = bankAccounts st) /\
  (forall toDecimal today i updates userId st e res st',
     findRow i (transactions st) = Some e ->
     transactionDate e <> today ->
     updateTransaction toDecimal today i updates userId st = Ok res st' ->
     bankAccounts st' = bankAccounts st) /\
  (forall today i userId st e res st',
     findRow i (transactions st) = Some e ->
     transactionDate e <> today ->
     deleteTransaction today i userId st = Ok res st' ->
     bankAccounts st' = bankAccounts st) /\
  (forall today input st a,
     bankAccounts st !! in_bankAccountId input = Some a ->
     in_type input = DEPOSIT ->
     in_transactionDate input = today ->
     exists res st',
       createTransaction today input st = Ok res st' /\
       balanceOf (in_bankAccountId input) st' =
         Some (currentBalance a + in_amount input) /\
       balanceAfter (res_transaction res) = currentBalance a + in_amount input) /\
  (exists res st',
     balanceOf "A" twoAccounts = Some 100000 /\
     createTransaction 10 (request 10 DEPOSIT 50000 None) twoAccounts = Ok res st' /\
     balanceOf "A" st' = Some 150000 /\
     balanceAfter (res_transaction res) = 150000).
Proof.
  split; [|split; [|split; [|split]]].
  - intros today input st res st' Hd H.
    exact (create_keeps_accounts today input Hd _ _ _ H).
  - intros. eapply update_keeps_accounts; eassumption.
  - intros. eapply delete_keeps_accounts; eassumption.
  - intros today input st a Ha Hty Hd.
    pose proof (createTransaction_run today input st a Ha) as R.
    cbv zeta in R. rewrite Hty in R. rewrite R.
    eexists _, _. split; [reflexivity|].
    unfold balanceOf, writeBalance, newBalanceOf.
    cbn [bankAccounts res_transaction mainRow balanceAfter].
    rewrite Hty, Hd, Z.eqb_refl, Ha, lookup_insert_eq.
    unfold newBalanceOf. rewrite Hty. split; reflexivity.
  - eexists _, _. repeat split; vm_compute; reflexivity.
Qed.

(** Scenario C: day 9 is closed; create(WITHDRAWAL, 200, day 9) on day 10
    reports the reopening, leaves the balance alone and opens the day. *)
Lemma past_dated_frame_scenarioC :
  exists res st',
    createTransaction 10 (request 9 WITHDRAWAL 20000 None) twoAccounts = Ok res st' /\
    res_reopenedDailyBalance res = true /\
    isClosedDay "A" 9 st' = false /\
    bankAccounts st' = bankAccounts twoAccounts.
Proof.
  eexists _, _. split; [vm_compute; reflexivity|].
  split; [reflexivity|]. split; [vm_compute; reflexivity|].
  refine (proj1 past_dated_frame 10 (request 9 WITHDRAWAL 20000 None)
            twoAccounts _ _ _ eq_refl).
  cbv; discriminate.
Defined.

(** ** The missing balance guard on the create path *)

Lemma createTransaction_no_account today input st :
  bankAccounts st !! in_bankAccountId input = None ->
  createTransaction today input st = Err ACCOUNT_NOT_FOUND.
Proof.
  intros Ha. unfold createTransaction, bind at 1, bankAccount_findUnique, gets.
  rewrite Ha. reflexivity.
Qed.

(** C10 (as amended): [createTransaction] never fails INSUFFICIENT_BALANCE.
    For a WITHDRAWAL, an EXPENSE, or a TRANSFER that names no destination or
    names an existing account other than the source, dated today, with an
    amount greater than the account's currentBalance, the create succeeds
    and both Account.currentBalance and the transaction's balanceAfter are
    the negative difference. The delete and update paths do refuse a
    same-day change that would make the balance negative. *)
Theorem create_overdraws :
  (forall today input st,
     failsWith (createTransaction today input) st INSUFFICIENT_BALANCE = false) /\
  (forall today input st a,
     bankAccounts st !! in_bankAccountId input = Some a ->
     in_type input <> DEPOSIT ->
     in_transactionDate input = today ->
     currentBalance a < in_amount input ->
     (forall transferTo,
        in_type input = TRANSFER ->
        truthy (in_transferToBankAccountId input) = Some transferTo ->
        transferTo <> in_bankAccountId input /\
        is_Some (bankAccounts st !! transferTo)) ->
     exists res st',
       createTransaction today input st = Ok res st' /\
       balanceOf (in_bankAccountId input) st' =
         Some (currentBalance a - in_amount input) /\
       balanceAfter (res_transaction res) = currentBalance a - in_amount input /\
       currentBalance a - in_amount input < 0) /\
  (forall today i userId st t a,
     findRow i (transactions st) = Some t ->
     transactionDate t = today ->
     bankAccounts st !! bankAccountId t = Some a ->
     match type t with
     | DEPOSIT => currentBalance a - amount t
     | _ => currentBalance a + amount t
     end < 0 ->
     deleteTransaction today i userId st = Err INSUFFICIENT_BALANCE) /\
  (forall toDecimal today i newAmount n c userId st t a,
     findRow i (transactions st) = Some t ->
     transactionDate t = today ->
     bankAccounts st !! bankAccountId t = Some a ->
     let amountDifference := (Number newAmount - Number (amount t))%float in
     match type t with
     | DEPOSIT => currentBalance a + toDecimal amountDifference
     | _ => currentBalance a - toDecimal amountDifference
     end < 0 ->
     updateTransaction toDecimal today i
       (mkUpdateTransactionInput (Some newAmount) n c) userId st
     = Err INSUFFICIENT_BALANCE).
Proof.
  split; [|split; [|split]].
  - intros today input st. unfold failsWith.
    destruct (bankAccounts st !! in_bankAccountId input) as [a|] eqn:Ha.
    + rewrite (createTransaction_run today input st a Ha).
      destruct (in_type input); try reflexivity.
      destruct (truthy (in_transferToBankAccountId input)); [|reflexivity].
      destruct (_ !! s); reflexivity.
    + rewrite createTransaction_no_account by exact Ha. reflexivity.
  - intros today input st a Ha Hty Hd Hlt Hto.
    assert (Hnb : newBalanceOf input a = currentBalance a - in_amount input).
    { unfold newBalanceOf. destruct (in_type input); congruence. }
    assert (Hw : forall accs, accs !! in_bankAccountId input = Some a ->
      writeBalance today (in_transactionDate input) (in_bankAccountId input)
        (newBalanceOf input a) accs
      = <[in_bankAccountId input :=
            mkBankAccount (accountNumber a) (currentBalance a - in_amount input)]> accs).
    { intros accs E. unfold writeBalance.
      rewrite Hd, Z.eqb_refl, E, Hnb. reflexivity. }
    rewrite (createTransaction_run today input st a Ha). cbv zeta.
    rewrite (Hw _ Ha).
    assert (Hsimple :
      exists res st',
        Ok (mkCreateResult (mainRow input a (nextId st)) None
              (isClosedDay (in_bankAccountId input) (in_transactionDate input) st))
           (mkStore
              (<[in_bankAccountId input :=
                   mkBankAccount (accountNumber a)
                     (currentBalance a - in_amount input)]> (bankAccounts st))
              (transactions st ++ [mainRow input a (nextId st)])
              (reopenDay (in_transactionDate input) (in_bankAccountId input)
                 (dailyBalances st))
              (Pos.succ (nextId st)))
        = Ok res st' /\
        balanceOf (in_bankAccountId input) st' =
          Some (currentBalance a - in_amount input) /\
        balanceAfter (res_transaction res) = currentBalance a - in_amount input /\
        currentBalance a - in_amount input < 0).
    { eexists _, _. split; [reflexivity|].
      unfold balanceOf. cbn. rewrite lookup_insert_eq.
      repeat split; [exact Hnb | lia]. }
    destruct (in_type input) eqn:Ety; try exact Hsimple.
    destruct (truthy (in_transferToBankAccountId input)) as [to|] eqn:Eto;
      [|exact Hsimple].
    destruct (Hto to eq_refl eq_refl) as (Hne & b & Hb).
    rewrite lookup_insert_ne by congruence. rewrite Hb.
    eexists _, _. split; [reflexivity|].
    unfold balanceOf, writeBalance. cbn.
    rewrite Hd, Z.eqb_refl, lookup_insert_ne, Hb by congruence.
    rewrite lookup_insert_ne, lookup_insert_eq by congruence.
    repeat split; [exact Hnb | lia].
  - intros today i userId st t a Ht Hd Ha Hneg.
    apply Z.ltb_lt in Hneg.
    unfold deleteTransaction, bind at 1, transaction_findUnique at 1, gets at 1.
    rewrite Ht. cbv zeta. rewrite Hd, Z.ltb_irrefl, Z.eqb_refl.
    unfold bankAccount_findUnique, bind, gets, ret, throw. cbv beta iota.
    rewrite Ha. destruct (type t); rewrite Hneg; reflexivity.
  - intros toDecimal today i newAmount n c userId st t a Ht Hd Ha diff Hneg.
    apply Z.ltb_lt in Hneg. subst diff.
    unfold updateTransaction, bind at 1, transaction_findUnique at 1, gets at 1.
    rewrite Ht. cbv zeta. rewrite Hd, Z.ltb_irrefl, Z.eqb_refl.
    unfold bankAccount_findUnique, bind, gets, ret, throw.
    cbn [upd_amount]. cbv beta iota.
    rewrite Ha. destruct (type t); rewrite Hneg; reflexivity.
Qed.

(** C10, counterexample: a TRANSFER of 1500.00 dated today from account A
    (balance 1000.00) to account A itself succeeds and records balanceAfter
    = -500.00, yet leaves Account.currentBalance at 1000.00; the same
    TRANSFER to an unknown account does not succeed at all. *)
Lemma create_overdraws_self_transfer :
  balanceOf "A" twoAccounts = Some 100000 /\
  (exists res st',
     createTransaction 10 (request 10 TRANSFER 150000 (Some "A"%string)) twoAccounts
       = Ok res st' /\
     balanceAfter (res_transaction res) = -50000 /\
     balanceOf "A" st' = Some 100000) /\
  createTransaction 10 (request 10 TRANSFER 150000 (Some "C"%string)) twoAccounts
    = Err TARGET_ACCOUNT_NOT_FOUND.
Proof.
  split; [reflexivity|]. split; [|vm_compute; reflexivity].
  eexists _, _. repeat split; vm_compute; reflexivity.
Qed.

(** An EXPENSE of 1500.00 against a balance of 1000.00, today. *)
Lemma create_overdraws_expense :
  exists res st',
    createTransaction 10 (request 10 EXPENSE 150000 None) twoAccounts = Ok res st' /\
    balanceOf "A" st' = Some (-50000) /\
    balanceAfter (res_transaction res) = -50000.
Proof.
  destruct (proj1 (proj2 create_overdraws) 10 (request 10 EXPENSE 150000 None)
              twoAccounts (mkBankAccount "001" 100000) eq_refl)
    as (res & st' & H & Hb & Ha & _).
  - discriminate.
  - reflexivity.
  - reflexivity.
  - intros transferTo [=].
  - exists res, st'. split; [exact H|]. split; [exact Hb|exact Ha].
Defined.

(** ** Transfer pairs *)

Lemma findRow_None (i : positive) (rows : list Transaction) :
  findRow i rows = None <-> Forall (fun t => id t <> i) rows.
Proof.
  unfold findRow. induction rows as [|t rows IH]; cbn.
  - split; [constructor | reflexivity].
  - destruct (Pos.eqb_spec (id t) i) as [E|E].
    + split; [discriminate|]. intros H. inversion H; contradiction.
    + rewrite IH. split.
      * intros H. constructor; assumption.
      * intros H. inversion H; assumption.
Qed.

Lemma findRow_Some_id (i : positive) (rows : list Transaction) (t : Transaction) :
  findRow i rows = Some t -> id t = i.
Proof.
  unfold findRow. intros H. apply find_some in H as [_ H].
  apply Pos.eqb_eq. exact H.
Qed.

Lemma findRow_deleted (i : positive) (rows : list Transaction) :
  findRow i (map (clearRelated i)
               (List.filter (fun t => negb (Pos.eqb (id t) i)) rows)) = None.
Proof.
  apply findRow_None. induction rows as [|t rows IH]; cbn; [constructor|].
  destruct (Pos.eqb_spec (id t) i) as [E|E]; cbn; [exact IH|].
  constructor; [|exact IH].
  unfold clearRelated. destruct (relatedTransactionId t) as [r|]; [|exact E].
  destruct (Pos.eqb r i); exact E.
Qed.

Lemma findRow_stays_deleted (i j : positive) (rows : list Transaction) :
  findRow j rows = None ->
  findRow j (map (clearRelated i)
               (List.filter (fun t => negb (Pos.eqb (id t) i)) rows)) = None.
Proof.
  rewrite !findRow_None. induction 1 as [|t rows Ht _ IH]; cbn; [constructor|].
  destruct (Pos.eqb (id t) i); cbn; [exact IH|].
  constructor; [|exact IH].
  unfold clearRelated. destruct (relatedTransactionId t) as [r|]; [|exact Ht].
  destruct (Pos.eqb r i); exact Ht.
Qed.

Lemma setRelated_fresh (n m : positive) (rows : list Transaction) :
  Forall (fun t => (id t < n)%positive) rows ->
  map (fun t => if Pos.eqb (id t) n then withRelated (Some m) t else t) rows = rows.
Proof.
  induction 1 as [|t rows Ht _ IH]; cbn; [reflexivity|].
  rewrite IH. destruct (Pos.eqb_spec (id t) n) as [E|E]; [lia|reflexivity].
Qed.

Lemma bind_Ok {A B} (m : Tx A) (k : A -> Tx B) st b st' :
  bind m k st = Ok b st' ->
  exists a st1, m st = Ok a st1 /\ k a st1 = Ok b st'.
Proof.
  unfold bind. destruct (m st) as [a st1|e]; [eauto|discriminate].
Qed.

Lemma keeps_transactions_reopenIfClosed date accId :
  keeps transactions (reopenIfClosed date accId).
Proof.
  intros st a st' H. unfold reopenIfClosed, bind, dailyBalance_findUnique, gets in H.
  pose proof (reopen_step date accId st) as R. rewrite R in H.
  injection H as _ <-. reflexivity.
Qed.

Lemma keeps_transactions_balance accId balance :
  keeps transactions (bankAccount_update accId balance).
Proof.
  intros st a st' H. unfold bankAccount_update in H.
  destruct (bankAccounts st !! accId); [|discriminate].
  injection H as _ <-. reflexivity.
Qed.

(** The rows left by a successful [deleteTransaction]: the row's related
    row, when it has one, is deleted first, then the row itself. *)
Lemma deleteTransaction_rows today i userId st t res st' :
  findRow i (transactions st) = Some t ->
  deleteTransaction today i userId st = Ok res st' ->
  transactions st' =
  map (clearRelated i)
    (List.filter (fun x => negb (Pos.eqb (id x) i))
       (match relatedTransactionId t with
        | Some j =>
            match findRow j (transactions st) with
            | Some _ =>
                map (clearRelated j)
                  (List.filter (fun x => negb (Pos.eqb (id x) j)) (transactions st))
            | None => transactions st
            end
        | None => transactions st
        end)).
Proof.
  intros Ht.
  unfold deleteTransaction, bind at 1, transaction_findUnique at 1, gets at 1.
  rewrite Ht. unfold bind at 1, gets at 1. cbv zeta. intros H.
  apply bind_Ok in H as (? & st1 & H1 & H).
  apply bind_Ok in H as (? & st2 & H2 & H).
  apply bind_Ok in H as (? & st3 & H3 & H).
  apply bind_Ok in H as (? & st4 & H4 & H).
  injection H as _ <-.
  assert (E1 : transactions st1 = transactions st).
  { destruct (transactionDate t <? today).
    - exact (keeps_transactions_reopenIfClosed _ _ _ _ _ H1).
    - injection H1 as _ <-. reflexivity. }
  assert (E2 : transactions st2 = transactions st1).
  { destruct (transactionDate t =? today).
    - apply bind_Ok in H2 as (acc & st1' & G & H2).
      injection G as <- <-.
      destruct (bankAccounts st1 !! bankAccountId t); [|discriminate].
      destruct (_ <? 0); [discriminate|].
      exact (keeps_transactions_balance _ _ _ _ _ H2).
    - injection H2 as _ <-. reflexivity. }
  injection H4 as _ <-. cbn [setTransactions transactions]. f_equal. f_equal.
  destruct (relatedTransactionId t) as [j|].
  - destruct (findRow j (transactions st)) as [r|] eqn:Er.
    + apply findRow_Some_id in Er. subst j.
      injection H3 as _ <-. cbn. rewrite E2, E1. reflexivity.
    + injection H3 as _ <-. rewrite E2, E1. reflexivity.
  - injection H3 as _ <-. rewrite E2, E1. reflexivity.
Qed.

(** C6 (as amended): a TRANSFER created with a destination that names an
    existing account succeeds and adds exactly two rows: the TRANSFER on
    the source account and a DEPOSIT on the destination account, with the
    same amount and date, each holding the other's id; a create that fails
    adds no row; a successful delete of a row that has a related row
    removes both. (A TRANSFER created without a destination has no paired
    row.) *)
Theorem transfer_pair :
  (forall today input st a b transferTo,
     in_type input = TRANSFER ->
     truthy (in_transferToBankAccountId input) = Some transferTo ->
     bankAccounts st !! in_bankAccountId input = Some a ->
     bankAccounts st !! transferTo = Some b ->
     Forall (fun t => (id t < nextId st)%positive) (transactions st) ->
     exists res st' main paired,
       createTransaction today input st = Ok res st' /\
       transactions st' = transactions st ++ [main; paired] /\
       type main = TRANSFER /\
       bankAccountId main = in_bankAccountId input /\
       type paired = DEPOSIT /\
       bankAccountId paired = transferTo /\
       amount main = in_amount input /\
       amount paired = in_amount input /\
       transactionDate main = in_transactionDate input /\
       transactionDate paired = in_transactionDate input /\
       relatedTransactionId main = Some (id paired) /\
       relatedTransactionId paired = Some (id main) /\
       id main <> id paired) /\
  (forall today input st e,
     createTransaction today input st = Err e ->
     transactions (commit (createTransaction today input) st) = transactions st) /\
  (forall today i j userId st t r res st',
     findRow i (transactions st) = Some t ->
     relatedTransactionId t = Some j ->
     findRow j (transactions st) = Some r ->
     deleteTransaction today i userId st = Ok res st' ->
     findRow i (transactions st') = None /\
     findRow j (transactions st') = None).
Proof.
  split; [|split].
  - intros today input st a b transferTo Hty Hto Ha Hb Hfresh.
    rewrite (createTransaction_run today input st a Ha). cbv zeta.
    rewrite Hty, Hto.
    set (accs1 := writeBalance _ _ _ _ _).
    assert (Htarget : is_Some (accs1 !! transferTo)).
    { subst accs1. unfold writeBalance.
      destruct (_ =? _); [|eauto]. rewrite Ha.
      destruct (decide (in_bankAccountId input = transferTo)) as [<-|Hne].
      - rewrite lookup_insert_eq. eauto.
      - rewrite lookup_insert_ne by exact Hne. eauto. }
    destruct Htarget as [target Htarget]. rewrite Htarget.
    eexists _, _, _, _. split; [reflexivity|].
    cbn [transactions]. rewrite !map_app, (setRelated_fresh _ _ _ Hfresh).
    cbn [map mainRow pairedRow id]. rewrite Pos.eqb_refl.
    replace (Pos.eqb (Pos.succ (nextId st)) (nextId st)) with false
      by (symmetry; apply Pos.eqb_neq; lia).
    rewrite <- app_assoc. split; [reflexivity|].
    cbn. rewrite Hty. repeat split. lia.
  - intros today input st e H. unfold commit. rewrite H. reflexivity.
  - intros today i j userId st t r res st' Ht Hrel Hr H.
    rewrite (deleteTransaction_rows today i userId st t res st' Ht H).
    rewrite Hrel, Hr. split.
    + apply findRow_deleted.
    + apply findRow_stays_deleted, findRow_deleted.
Qed.

(** C6, counterexample: a TRANSFER created without a destination account
    succeeds and leaves a single TRANSFER row with no related row: there is
    no paired DEPOSIT. *)
Lemma transfer_without_destination :
  exists res st' t,
    createTransaction 10 (request 10 TRANSFER 50000 None) twoAccounts = Ok res st' /\
    transactions st' = [t] /\
    type t = TRANSFER /\ relatedTransactionId t = None /\
    res_relatedTransaction res = None.
Proof.
  eexists _, _, _. split; [vm_compute; reflexivity|]. repeat split.
Qed.

(** A transfer of 500.00 from A to B, today. *)
Lemma transfer_pair_A_to_B :
  exists res st' main paired,
    createTransaction 10 (request 10 TRANSFER 50000 (Some "B"%string)) twoAccounts
      = Ok res st' /\
    transactions st' = [main; paired] /\
    relatedTransactionId main = Some (id paired) /\
    relatedTransactionId paired = Some (id main).
Proof.
  destruct (proj1 transfer_pair 10 (request 10 TRANSFER 50000 (Some "B"%string))
              twoAccounts (mkBankAccount "001" 100000) (mkBankAccount "002" 10000)
              "B"%string eq_refl eq_refl eq_refl eq_refl (Forall_nil_2 _))
    as (res & st' & main & paired & H & Hrows & _ & _ & _ & _ & _ & _ & _ & _
        & H1 & H2 & _).
  exists res, st', main, paired. repeat split; assumption.
Defined.

(** Deleting either leg of that pair, today, leaves no row. *)
Example delete_either_leg :
  let create := createTransaction 10 (request 10 TRANSFER 50000 (Some "B"%string)) in
  transactions (commit (create ;;; deleteTransaction 10 1 "u1")%tx twoAccounts) = [] /\
  transactions (commit (create ;;; deleteTransaction 10 2 "u1")%tx twoAccounts) = [].
Proof. split; vm_compute; reflexivity. Qed.

(** ** Bulk correction *)

(** C9, evaluated: the bulk update never touches an account row; but on a
    store where account A has a transaction on day 8 only and account B on
    day 9 only, correcting those two transactions also reopens the closed
    day (9, A), to which no transaction belongs, before or after. *)
Theorem bulkUpdate_reopens_cross_product :
  (forall updates userId st res st',
     bulkUpdateHistoricalTransactions updates userId st = Ok res st' ->
     bankAccounts st' = bankAccounts st) /\
  (exists res st',
     bulkUpdateHistoricalTransactions corrections "u1" crossed = Ok res st' /\
     affectedDates res = [8; 9] /\
     affectedBankAccounts res = ["A"; "B"]%string /\
     List.filter (onDay "A" 9) (transactions crossed) = [] /\
     List.filter (onDay "A" 9) (transactions st') = [] /\
     isClosedDay "A" 9 crossed = true /\
     isClosedDay "A" 9 st' = false /\
     isClosedDay "A" 8 st' = false /\
     isClosedDay "B" 9 st' = false).
Proof.
  split.
  - intros updates userId st res st' H.
    exact (bulk_keeps_accounts updates userId _ _ _ H).
  - eexists _, _. split; [vm_compute; reflexivity|].
    repeat split; vm_compute; reflexivity.
Qed.

(** * Further properties *)

(** ** Recalculation window *)

Lemma daysLoop_spec (n : nat) (d today : Z) :
  (Z.to_nat (today - d + 1) <= n)%nat ->
  length (daysLoop n d today) = Z.to_nat (today - d + 1) /\
  forall x, x ∈ daysLoop n d today <-> d <= x <= today.
Proof.
  revert d. induction n as [|n IH]; intros d Hn; cbn.
  - split; [lia|]. intros x. rewrite elem_of_nil. lia.
  - destruct (Z.leb_spec d today) as [Hle|Hgt].
    + destruct (IH (d + 1)) as [Hlen Hin]; [lia|].
      split; [cbn; rewrite Hlen; lia|].
      intros x. rewrite elem_of_cons, Hin. lia.
    + split; [cbn; lia|]. intros x. rewrite elem_of_nil. lia.
Qed.

Lemma daysToRecalculate_length fromDate today :
  length (daysToRecalculate fromDate today) = Z.to_nat (today - fromDate + 1).
Proof. apply daysLoop_spec. reflexivity. Qed.

Lemma daysToRecalculate_elem fromDate today x :
  x ∈ daysToRecalculate fromDate today <-> fromDate <= x <= today.
Proof. apply daysLoop_spec. reflexivity. Qed.

Lemma reopenDay_lookup date accId dbs k :
  reopenDay date accId dbs !! k =
  if decide (k = (date, accId)) then openedRow <$> dbs !! k else dbs !! k.
Proof.
  unfold reopenDay, openedRow.
  destruct (decide (k = (date, accId))) as [->|Hne].
  - destruct (dbs !! (date, accId)) as [r|] eqn:E; cbn.
    + destruct (isClosed r); [apply lookup_insert_eq | exact E].
    + exact E.
  - destruct (dbs !! (date, accId)) as [r|]; [destruct (isClosed r)|];
      try reflexivity.
    apply lookup_insert_ne. congruence.
Qed.

Lemma openedRow_idemp r : openedRow (openedRow r) = openedRow r.
Proof. unfold openedRow. destruct (isClosed r) eqn:E; cbn; rewrite ?E; reflexivity. Qed.

Lemma reopenDays_lookup accId days dbs k :
  fold_left (fun m d => reopenDay d accId m) days dbs !! k =
  if decide (snd k = accId /\ fst k ∈ days)
  then openedRow <$> dbs !! k else dbs !! k.
Proof.
  revert dbs. induction days as [|d days IH]; intros dbs; cbn [fold_left].
  - destruct (decide _) as [[_ H]|_]; [|reflexivity].
    apply elem_of_nil in H. contradiction.
  - rewrite IH, reopenDay_lookup. destruct k as [kd ka]. cbn [fst snd].
    destruct (decide ((kd, ka) = (d, accId))) as [Heq|Hne].
    + injection Heq as -> ->.
      rewrite (decide_True (P := accId = accId /\ d ∈ d :: days))
        by (split; [reflexivity | left]).
      destruct (decide _); [|reflexivity].
      destruct (dbs !! (d, accId)); cbn; [rewrite openedRow_idemp|]; reflexivity.
    + destruct (decide (ka = accId /\ kd ∈ days)) as [[Ha Hin]|Hn].
      * rewrite decide_True by (split; [exact Ha | right; exact Hin]). reflexivity.
      * rewrite decide_False; [reflexivity|].
        intros [Ha Hin]. apply elem_of_cons in Hin as [->|Hin]; [congruence|tauto].
Qed.

Lemma forEach_reopen_run accId days st :
  forEach days (fun date => reopenIfClosed date accId) st =
  Ok tt (mkStore (bankAccounts st) (transactions st)
           (fold_left (fun m d => reopenDay d accId m) days (dailyBalances st))
           (nextId st)).
Proof.
  revert st. induction days as [|d days IH]; intros st; cbn [forEach fold_left].
  - destruct st; reflexivity.
  - unfold bind at 1, reopenIfClosed at 1, bind at 1, dailyBalance_findUnique, gets.
    rewrite reopen_step, IH. reflexivity.
Qed.

Lemma recalculate_run today accId fromDate userId st :
  recalculateDailyBalancesFromDate today accId fromDate userId st =
  Ok (mkRecalculateResult (Z.to_nat (today - fromDate + 1)))
     (mkStore (bankAccounts st) (transactions st)
        (fold_left (fun m d => reopenDay d accId m)
           (daysToRecalculate fromDate today) (dailyBalances st))
        (nextId st)).
Proof.
  unfold recalculateDailyBalancesFromDate, bind. rewrite forEach_reopen_run.
  unfold ret. rewrite daysToRecalculate_length. reflexivity.
Qed.

(** The calculator reads of the previous day's record its actualBalance only. *)
Lemma calculationOf_frame_actual accId date st1 st2 :
  actualBalance <$> dailyBalances st1 !! (date - 1, accId)
    = actualBalance <$> dailyBalances st2 !! (date - 1, accId) ->
  transactions st1 = transactions st2 ->
  calculationOf accId date st1 = calculationOf accId date st2.
Proof.
  intros Hd Ht.
  unfold calculationOf, calculateDailyBalance, bind, dailyBalance_findUnique,
    transaction_findMany, gets, ret.
  cbn beta iota. rewrite Ht.
  destruct (dailyBalances st1 !! (date - 1, accId)) as [p1|],
           (dailyBalances st2 !! (date - 1, accId)) as [p2|];
    cbn in Hd; try discriminate; [injection Hd as ->|]; reflexivity.
Qed.

Lemma openedRow_actual r : actualBalance (openedRow r) = actualBalance r.
Proof. unfold openedRow. destruct (isClosed r); reflexivity. Qed.

(** X1: [recalculateDailyBalancesFromDate] never fails. It reports as
    affectedDays the number of days from [fromDate] to today inclusive (0
    when [fromDate] is after today, and then the store is unchanged),
    whether or not any of them had a record, and it leaves the accounts and
    the transactions as they were. *)
Theorem recalculate_counts_days today accId fromDate userId st :
  exists st',
    recalculateDailyBalancesFromDate today accId fromDate userId st =
      Ok (mkRecalculateResult (Z.to_nat (today - fromDate + 1))) st' /\
    (today < fromDate -> st' = st) /\
    bankAccounts st' = bankAccounts st /\
    transactions st' = transactions st.
Proof.
  rewrite recalculate_run. eexists. split; [reflexivity|].
  split; [|split; reflexivity].
  intros Hlt. unfold daysToRecalculate.
  replace (Z.to_nat (today - fromDate + 1)) with O by lia. destruct st; reflexivity.
Qed.

(** X2: after [recalculateDailyBalancesFromDate] no day of the account
    from [fromDate] to today is closed; the records of other accounts and
    of days outside the window are untouched; and every record keeps its
    stored figures: at most isClosed and closedBy change. *)
Theorem recalculate_opens_window today accId fromDate userId st :
  let st' := commit (recalculateDailyBalancesFromDate today accId fromDate userId) st in
  (forall date, fromDate <= date <= today -> isClosedDay accId date st' = false) /\
  (forall date acc, acc <> accId \/ date < fromDate \/ today < date ->
     dailyBalances st' !! (date, acc) = dailyBalances st !! (date, acc)) /\
  (forall date acc,
     reopened <$> dailyBalances st' !! (date, acc)
     = reopened <$> dailyBalances st !! (date, acc)).
Proof.
  cbv zeta. unfold commit. rewrite recalculate_run. cbn [dailyBalances].
  split; [|split].
  - intros date Hin. unfold isClosedDay. cbn [dailyBalances].
    rewrite reopenDays_lookup. cbn [fst snd].
    rewrite decide_True by (split; [reflexivity | apply daysToRecalculate_elem, Hin]).
    destruct (dailyBalances st !! (date, accId)) as [r|]; [|reflexivity].
    cbn. unfold openedRow. destruct (isClosed r) eqn:E; [reflexivity|exact E].
  - intros date acc Hout. rewrite reopenDays_lookup. cbn [fst snd].
    rewrite decide_False; [reflexivity|].
    rewrite daysToRecalculate_elem. intros [Ha H].
    destruct Hout as [Hout|Hout]; [congruence|lia].
  - intros date acc. rewrite reopenDays_lookup.
    destruct (decide _); [|reflexivity].
    destruct (dailyBalances st !! (date, acc)) as [r|]; [|reflexivity].
    cbn. unfold openedRow. destruct (isClosed r); reflexivity.
Qed.

(** X3: despite its name, [recalculateDailyBalancesFromDate] changes no
    calculation: [calculateDailyBalance] returns for every account and day
    what it returned before. *)
Theorem recalculate_keeps_calculations today accId fromDate userId st acc date :
  calculationOf acc date
    (commit (recalculateDailyBalancesFromDate today accId fromDate userId) st)
  = calculationOf acc date st.
Proof.
  unfold commit. rewrite recalculate_run.
  apply calculationOf_frame_actual; [|reflexivity]. cbn [dailyBalances].
  rewrite reopenDays_lookup. destruct (decide _); [|reflexivity].
  destruct (dailyBalances st !! (date - 1, acc)) as [r|]; [|reflexivity].
  cbn. rewrite openedRow_actual. reflexivity.
Qed.

(** X4: running [recalculateDailyBalancesFromDate] a second time with the
    same arguments changes nothing. *)
Theorem recalculate_idempotent today accId fromDate userId st :
  commit (recalculateDailyBalancesFromDate today accId fromDate userId)
    (commit (recalculateDailyBalancesFromDate today accId fromDate userId) st)
  = commit (recalculateDailyBalancesFromDate today accId fromDate userId) st.
Proof.
  unfold commit. rewrite !recalculate_run. cbn [bankAccounts transactions dailyBalances nextId].
  f_equal. apply map_eq. intros k. rewrite !reopenDays_lookup.
  destruct (decide _); [|reflexivity].
  destruct (dailyBalances st !! k); cbn; [rewrite openedRow_idemp|]; reflexivity.
Qed.

#[local] Instance byBalanceDate_trans : Transitive byBalanceDate.
Proof. intros x y z. unfold byBalanceDate. lia. Qed.

#[local] Instance byBalanceDate_total : Total byBalanceDate.
Proof. intros x y. unfold byBalanceDate. lia. Qed.

Lemma isUnclosed_spec accId cutoff d a r :
  isUnclosed accId cutoff (d, a, r) = true <->
  a = accId /\ isClosed r = false /\ d < cutoff.
Proof.
  unfold isUnclosed. cbn [fst snd].
  rewrite !andb_true_iff, String.eqb_eq, negb_true_iff, Z.ltb_lt. tauto.
Qed.

Lemma StronglySorted_strict {A} (key : A -> Z) (l : list A) :
  StronglySorted (fun x y => key x <= key y) l ->
  List.NoDup (map key l) ->
  StronglySorted (fun x y => key x < key y) l.
Proof.
  induction 1 as [|x l Hl IH Hx]; intros Hnd; constructor.
  - apply IH. cbn in Hnd. inversion Hnd; assumption.
  - cbn in Hnd. inversion Hnd as [|? ? Hnotin _]; subst.
    rewrite Forall_forall in Hx |- *. intros y Hy.
    specialize (Hx y Hy). cbn in Hx.
    assert (key x <> key y); [|lia].
    intros E. apply Hnotin. rewrite E. apply in_map, list_elem_of_In. exact Hy.
Qed.

(** X5: [getUnclosedDailyBalances] changes nothing and returns exactly the
    records of the account that are not closed and dated before the cutoff,
    each once, by strictly ascending date. *)
Theorem getUnclosedDailyBalances_spec cutoff accId st :
  exists l,
    getUnclosedDailyBalances cutoff accId st = Ok l st /\
    (forall d a r,
       (d, a, r) ∈ l <->
       a = accId /\ dailyBalances st !! (d, accId) = Some r /\
       isClosed r = false /\ d < cutoff) /\
    StronglySorted (fun x y => fst (fst x) < fst (fst y)) l.
Proof.
  eexists. split; [reflexivity|].
  set (l0 := List.filter _ _).
  assert (Hel : forall d a r, (d, a, r) ∈ l0 <->
    a = accId /\ dailyBalances st !! (d, accId) = Some r /\
    isClosed r = false /\ d < cutoff).
  { intros d a r. subst l0. rewrite list_elem_of_In, filter_In.
    rewrite <- list_elem_of_In, elem_of_map_to_list, isUnclosed_spec.
    split.
    - intros (H & -> & H2 & H3). auto.
    - intros (-> & H & H2 & H3). auto. }
  split.
  - intros d a r. rewrite merge_sort_Permutation. apply Hel.
  - apply (StronglySorted_strict (fun x => fst (fst x))).
    + apply (StronglySorted_merge_sort byBalanceDate).
    + apply NoDup_ListNoDup. rewrite merge_sort_Permutation.
      apply NoDup_fmap_2_strong.
      * intros [[d1 a1] r1] [[d2 a2] r2] H1 H2 E. cbn in E. subst d2.
        apply Hel in H1 as (-> & H1 & _). apply Hel in H2 as (-> & H2 & _).
        congruence.
      * subst l0. apply NoDup_ListNoDup, List.NoDup_filter, NoDup_ListNoDup.
        apply NoDup_map_to_list.
Qed.

(** ** Recalculation, then the list of days to close again *)

Lemma getUnclosed_elem cutoff accId st d a r :
  (d, a, r) ∈ merge_sort byBalanceDate
                (List.filter (isUnclosed accId cutoff)
                   (map_to_list (dailyBalances st))) <->
  a = accId /\ dailyBalances st !! (d, accId) = Some r /\
  isClosed r = false /\ d < cutoff.
Proof.
  rewrite merge_sort_Permutation, list_elem_of_In, filter_In.
  rewrite <- list_elem_of_In, elem_of_map_to_list, isUnclosed_spec.
  split.
  - intros (H & -> & H2 & H3). auto.
  - intros (-> & H & H2 & H3). auto.
Qed.

(** X6: after [recalculateDailyBalancesFromDate], every day of the window
    dated before the cutoff that has a record is listed by
    [getUnclosedDailyBalances], opened and otherwise as stored; outside the
    window only records that were open already are listed; and no listed
    record differs from the stored one in more than isClosed and
    closedBy. *)
Theorem recalculate_then_unclosed today cutoff accId fromDate userId st :
  let st' := commit (recalculateDailyBalancesFromDate today accId fromDate userId) st in
  exists l,
    getUnclosedDailyBalances cutoff accId st' = Ok l st' /\
    (forall d r,
       dailyBalances st !! (d, accId) = Some r ->
       fromDate <= d <= today -> d < cutoff ->
       (d, accId, openedRow r) ∈ l) /\
    (forall d a r,
       (d, a, r) ∈ l -> d < fromDate \/ today < d ->
       dailyBalances st !! (d, accId) = Some r /\ isClosed r = false) /\
    (forall d a r,
       (d, a, r) ∈ l ->
       exists r0, dailyBalances st !! (d, accId) = Some r0 /\ r = openedRow r0).
Proof.
  cbv zeta. unfold commit. rewrite recalculate_run.
  eexists. split; [reflexivity|].
  split; [|split].
  - intros d r Hr Hin Hc. apply getUnclosed_elem. cbn [dailyBalances].
    rewrite reopenDays_lookup. cbn [fst snd].
    rewrite decide_True by (split; [reflexivity|apply daysToRecalculate_elem, Hin]).
    rewrite Hr. cbn. repeat split; [|exact Hc].
    unfold openedRow. destruct (isClosed r) eqn:E; [reflexivity|exact E].
  - intros d a r Hl Hout. apply getUnclosed_elem in Hl as (-> & Hl & Hc & _).
    cbn [dailyBalances] in Hl. rewrite reopenDays_lookup in Hl. cbn [fst snd] in Hl.
    rewrite decide_False in Hl; [split; assumption|].
    rewrite daysToRecalculate_elem. intros [_ H]. lia.
  - intros d a r Hl. apply getUnclosed_elem in Hl as (-> & Hl & Hc & _).
    cbn [dailyBalances] in Hl. rewrite reopenDays_lookup in Hl. cbn [fst snd] in Hl.
    destruct (decide _) as [_|_].
    + destruct (dailyBalances st !! (d, accId)) as [r0|]; [|discriminate].
      cbn in Hl. injection Hl as <-. eauto.
    + exists r. split; [exact Hl|]. unfold openedRow. rewrite Hc. reflexivity.
Qed.

(** ** Outcomes of createTransaction *)

Lemma writeBalance_lookup_None today date accId balance accs k :
  writeBalance today date accId balance accs !! k = None <-> accs !! k = None.
Proof.
  unfold writeBalance. destruct (date =? today); [|reflexivity].
  destruct (accs !! accId) as [a|] eqn:E; [|reflexivity].
  destruct (decide (accId = k)) as [<-|Hne].
  - rewrite lookup_insert_eq, E. split; discriminate.
  - rewrite lookup_insert_ne by exact Hne. reflexivity.
Qed.

(** X7: [createTransaction] fails ACCOUNT_NOT_FOUND when the source account
    does not exist, whatever else the request holds, and only then; it
    fails TARGET_ACCOUNT_NOT_FOUND only for a TRANSFER from an existing
    account that names a (non-empty) destination that does not exist; and
    it succeeds only when the source exists and, for a TRANSFER naming a
    destination, the destination exists too. *)
Theorem createTransaction_outcome today input st :
  (bankAccounts st !! in_bankAccountId input = None ->
   createTransaction today input st = Err ACCOUNT_NOT_FOUND) /\
  (createTransaction today input st = Err ACCOUNT_NOT_FOUND ->
   bankAccounts st !! in_bankAccountId input = None) /\
  (createTransaction today input st = Err TARGET_ACCOUNT_NOT_FOUND ->
   is_Some (bankAccounts st !! in_bankAccountId input) /\
   in_type input = TRANSFER /\
   exists transferTo,
     truthy (in_transferToBankAccountId input) = Some transferTo /\
     bankAccounts st !! transferTo = None) /\
  (forall res st',
     createTransaction today input st = Ok res st' ->
     is_Some (bankAccounts st !! in_bankAccountId input) /\
     forall transferTo,
       in_type input = TRANSFER ->
       truthy (in_transferToBankAccountId input) = Some transferTo ->
       is_Some (bankAccounts st !! transferTo)).
Proof.
  destruct (bankAccounts st !! in_bankAccountId input) as [a|] eqn:Ha.
  - rewrite (createTransaction_run today input st a Ha). cbv zeta.
    split; [discriminate|].
    destruct (in_type input) eqn:Ety;
      try (split; [discriminate|]; split; [discriminate|];
           intros res st' _; split; [eauto|]; intros to [=]).
    destruct (truthy (in_transferToBankAccountId input)) as [to|] eqn:Eto.
    + destruct (writeBalance _ _ _ _ _ !! to) as [target|] eqn:Et.
      * assert (Hsome : is_Some (bankAccounts st !! to)).
        { destruct (bankAccounts st !! to) eqn:E; [eauto|].
          eapply writeBalance_lookup_None in E. rewrite E in Et. discriminate. }
        split; [discriminate|]. split; [discriminate|].
        intros res st' _. split; [eauto|]. intros to' _ [= <-]. exact Hsome.
      * apply writeBalance_lookup_None in Et.
        split; [discriminate|].
        split; [intros _; split; [eauto|]; split; [reflexivity|]; eauto|].
        discriminate.
    + split; [discriminate|]. split; [discriminate|].
      intros res st' _. split; [eauto|]. intros to' _ [=].
  - rewrite createTransaction_no_account by exact Ha.
    split; [reflexivity|]. split; [reflexivity|].
    split; [discriminate|discriminate].
Qed.

(** ** What updateTransaction and deleteTransaction compute *)

Lemma reopenIfClosed_run date accId st :
  reopenIfClosed date accId st =
  Ok tt (mkStore (bankAccounts st) (transactions st)
           (reopenDay date accId (dailyBalances st)) (nextId st)).
Proof.
  unfold reopenIfClosed, bind, dailyBalance_findUnique, gets.
  apply reopen_step.
Qed.

Lemma updateTransaction_run toDecimal today i updates userId st e :
  findRow i (transactions st) = Some e ->
  let date := transactionDate e in
  let acc := bankAccountId e in
  let rows' :=
    map (fun t => if Pos.eqb (id t) i then applyUpdates updates t else t)
        (transactions st) in
  let dbs' :=
    if date <? today then reopenDay date acc (dailyBalances st)
    else dailyBalances st in
  let done accs :=
    Ok (mkUpdateResult (findRow i rows') (date <? today) (date <? today))
       (mkStore accs rows' dbs' (nextId st)) in
  updateTransaction toDecimal today i updates userId st =
  match upd_amount updates with
  | Some newAmount =>
      if date =? today
      then match bankAccounts st !! acc with
           | None => Err RECORD_NOT_FOUND
           | Some a =>
               if updatedBalance toDecimal e newAmount a <? 0
               then Err INSUFFICIENT_BALANCE
               else done (<[acc := mkBankAccount (accountNumber a)
                                     (updatedBalance toDecimal e newAmount a)]>
                            (bankAccounts st))
           end
      else done (bankAccounts st)
  | None => done (bankAccounts st)
  end.
Proof.
  intros He. cbv zeta.
  unfold updateTransaction, bind at 1, transaction_findUnique at 1, gets at 1.
  rewrite He. cbv zeta. unfold bind at 1.
  assert (H1 :
    (if transactionDate e <? today
     then reopenIfClosed (transactionDate e) (bankAccountId e) else ret tt) st
    = Ok tt (mkStore (bankAccounts st) (transactions st)
               (if transactionDate e <? today
                then reopenDay (transactionDate e) (bankAccountId e) (dailyBalances st)
                else dailyBalances st) (nextId st))).
  { destruct (transactionDate e <? today); [apply reopenIfClosed_run|].
    destruct st; reflexivity. }
  rewrite H1. clear H1.
  unfold updatedBalance.
  destruct (upd_amount updates) as [newAmount|].
  - destruct (transactionDate e =? today).
    + unfold bind at 1, bind at 1, bankAccount_findUnique, gets.
      cbn [bankAccounts].
      destruct (bankAccounts st !! bankAccountId e) as [a|] eqn:Ea; [|reflexivity].
      destruct (_ <? 0); [reflexivity|].
      unfold bankAccount_update. cbn [bankAccounts]. rewrite Ea. reflexivity.
    + reflexivity.
  - reflexivity.
Qed.

Lemma deleteTransaction_run today i userId st t :
  findRow i (transactions st) = Some t ->
  let date := transactionDate t in
  let acc := bankAccountId t in
  let rows' := rowsAfterDelete i t (transactions st) in
  let dbs' :=
    if date <? today then reopenDay date acc (dailyBalances st)
    else dailyBalances st in
  let done accs :=
    Ok (mkDeleteResult true (date <? today) (date <? today))
       (mkStore accs rows' dbs' (nextId st)) in
  deleteTransaction today i userId st =
  if date =? today
  then match bankAccounts st !! acc with
       | None => Err RECORD_NOT_FOUND
       | Some a =>
           if reversedBalance t a <? 0
           then Err INSUFFICIENT_BALANCE
           else done (<[acc := mkBankAccount (accountNumber a) (reversedBalance t a)]>
                        (bankAccounts st))
       end
  else done (bankAccounts st).
Proof.
  intros Ht. cbv zeta.
  unfold deleteTransaction, bind at 1, transaction_findUnique at 1, gets at 1.
  rewrite Ht. unfold bind at 1, gets at 1. cbv zeta. unfold bind at 1.
  assert (H1 :
    (if transactionDate t <? today
     then reopenIfClosed (transactionDate t) (bankAccountId t) else ret tt) st
    = Ok tt (mkStore (bankAccounts st) (transactions st)
               (if transactionDate t <? today
                then reopenDay (transactionDate t) (bankAccountId t) (dailyBalances st)
                else dailyBalances st) (nextId st))).
  { destruct (transactionDate t <? today); [apply reopenIfClosed_run|].
    destruct st; reflexivity. }
  rewrite H1. clear H1.
  unfold reversedBalance, rowsAfterDelete.
  assert (Hdel : forall st1 : Store,
    (match match relatedTransactionId t with
           | Some r => findRow r (transactions st)
           | None => None
           end with
     | Some r => transaction_delete (id r)
     | None => ret tt
     end ;;; transaction_delete i ;;;
     ret (mkDeleteResult true (transactionDate t <? today)
            (transactionDate t <? today)))%tx st1
    = Ok (mkDeleteResult true (transactionDate t <? today)
            (transactionDate t <? today))
         (mkStore (bankAccounts st1)
            (map (clearRelated i)
               (List.filter (fun x => negb (Pos.eqb (id x) i))
                  (match relatedTransactionId t with
                   | Some j =>
                       match findRow j (transactions st) with
                       | Some _ =>
                           map (clearRelated j)
                             (List.filter (fun x => negb (Pos.eqb (id x) j))
                                (transactions st1))
                       | None => transactions st1
                       end
                   | None => transactions st1
                   end)))
            (dailyBalances st1) (nextId st1))).
  { intros st1. unfold bind, transaction_delete, modify, ret.
    destruct (relatedTransactionId t) as [j|].
    - destruct (findRow j (transactions st)) as [r|] eqn:Er.
      + apply findRow_Some_id in Er. subst j. reflexivity.
      + reflexivity.
    - reflexivity. }
  destruct (transactionDate t =? today).
  - unfold bind at 1, bind at 1, bankAccount_findUnique, gets. cbn [bankAccounts].
    destruct (bankAccounts st !! bankAccountId t) as [a|] eqn:Ea; [|reflexivity].
    destruct (_ <? 0); [reflexivity|].
    unfold bankAccount_update. cbn [bankAccounts]. rewrite Ea.
    rewrite Hdel. reflexivity.
  - unfold bind at 1, ret at 1. rewrite Hdel. reflexivity.
Qed.

(** ** createTransaction and the daily balances *)

Lemma reopenDay_open date accId dbs :
  match dbs !! (date, accId) with Some r => isClosed r | None => false end = false ->
  reopenDay date accId dbs = dbs.
Proof.
  unfold reopenDay. destruct (dbs !! (date, accId)) as [r|]; [|reflexivity].
  intros ->. reflexivity.
Qed.

Lemma reopenDay_isClosed date accId dbs :
  match reopenDay date accId dbs !! (date, accId) with
  | Some r => isClosed r
  | None => false
  end = false.
Proof.
  rewrite reopenDay_lookup, decide_True by reflexivity.
  destruct (dbs !! (date, accId)) as [r|]; [|reflexivity].
  cbn. unfold openedRow. destruct (isClosed r) eqn:E; [reflexivity|exact E].
Qed.

(** The store a successful create leaves, component by component. *)
Lemma createTransaction_Ok today input st res st' :
  createTransaction today input st = Ok res st' ->
  exists a,
    bankAccounts st !! in_bankAccountId input = Some a /\
    res_transaction res = mainRow input a (nextId st) /\
    res_reopenedDailyBalance res =
      isClosedDay (in_bankAccountId input) (in_transactionDate input) st /\
    dailyBalances st' =
      reopenDay (in_transactionDate input) (in_bankAccountId input)
        (dailyBalances st) /\
    ((res_relatedTransaction res = None /\
      (in_type input <> TRANSFER \/
       truthy (in_transferToBankAccountId input) = None) /\
      transactions st' = transactions st ++ [mainRow input a (nextId st)] /\
      nextId st' = Pos.succ (nextId st))
     \/
     (exists transferTo target,
        in_type input = TRANSFER /\
        truthy (in_transferToBankAccountId input) = Some transferTo /\
        res_relatedTransaction res =
          Some (pairedRow input a target transferTo (Pos.succ (nextId st)) (nextId st)) /\
        transactions st' =
          map (fun t => if Pos.eqb (id t) (nextId st)
                        then withRelated (Some (Pos.succ (nextId st))) t else t)
              ((transactions st ++ [mainRow input a (nextId st)])
               ++ [pairedRow input a target transferTo (Pos.succ (nextId st)) (nextId st)]) /\
        nextId st' = Pos.succ (Pos.succ (nextId st)))).
Proof.
  intros H.
  destruct (bankAccounts st !! in_bankAccountId input) as [a|] eqn:Ha;
    [|rewrite createTransaction_no_account in H by exact Ha; discriminate].
  rewrite (createTransaction_run today input st a Ha) in H. cbv zeta in H.
  exists a. split; [reflexivity|].
  destruct (in_type input) eqn:Ety;
    try (injection H as <- <-; repeat split; left; repeat split; left; discriminate).
  destruct (truthy (in_transferToBankAccountId input)) as [to|] eqn:Eto.
  - destruct (writeBalance _ _ _ _ _ !! to) as [target|]; [|discriminate].
    injection H as <- <-. repeat split. right. exists to, target. repeat split.
  - injection H as <- <-. repeat split. left. repeat split. right. reflexivity.
Qed.

(** X8: a successful [createTransaction] reports reopenedDailyBalance =
    whether the day of the transaction was closed on the source account,
    leaves that day open, touches no other daily-balance record, and changes
    of that record at most isClosed and closedBy. *)
Theorem create_reopens_own_day_only today input st res st' :
  createTransaction today input st = Ok res st' ->
  let date := in_transactionDate input in
  let src := in_bankAccountId input in
  res_reopenedDailyBalance res = isClosedDay src date st /\
  isClosedDay src date st' = false /\
  (forall k, k <> (date, src) ->
     dailyBalances st' !! k = dailyBalances st !! k) /\
  reopened <$> dailyBalances st' !! (date, src)
    = reopened <$> dailyBalances st !! (date, src).
Proof.
  intros H. apply createTransaction_Ok in H as (a & _ & _ & Hflag & Hd & _).
  cbv zeta. split; [exact Hflag|]. unfold isClosedDay. rewrite Hd.
  split; [apply reopenDay_isClosed|]. split.
  - intros k Hk. rewrite reopenDay_lookup, decide_False by exact Hk. reflexivity.
  - rewrite reopenDay_lookup, decide_True by reflexivity.
    destruct (dailyBalances st !! _) as [r|]; [|reflexivity].
    cbn. unfold openedRow. destruct (isClosed r); reflexivity.
Qed.

(** ** createTransaction and the calculator *)

Lemma fold_addTransaction_ext (l1 l2 : list Transaction) (acc : Totals) :
  map (fun t => (type t, amount t)) l1 = map (fun t => (type t, amount t)) l2 ->
  fold_left addTransaction l1 acc = fold_left addTransaction l2 acc.
Proof.
  revert l2 acc. induction l1 as [|t1 l1 IH]; intros [|t2 l2] acc E;
    try discriminate; [reflexivity|].
  cbn in E. injection E as Ety Eam E. cbn [fold_left].
  replace (addTransaction acc t2) with (addTransaction acc t1)
    by (unfold addTransaction; rewrite Ety, Eam; reflexivity).
  apply IH, E.
Qed.

Lemma filter_setRelated p n m (rows : list Transaction) :
  (forall t, p (withRelated (Some m) t) = p t) ->
  List.filter p (map (fun t => if Pos.eqb (id t) n
                               then withRelated (Some m) t else t) rows)
  = map (fun t => if Pos.eqb (id t) n then withRelated (Some m) t else t)
        (List.filter p rows).
Proof.
  intros Hp. induction rows as [|t rows IH]; [reflexivity|]. cbn.
  destruct (Pos.eqb (id t) n) eqn:E.
  - rewrite Hp. destruct (p t); cbn; rewrite ?E, IH; reflexivity.
  - destruct (p t); cbn; rewrite ?E, IH; reflexivity.
Qed.

Lemma essence_setRelated n m (rows : list Transaction) :
  map (fun t => (type t, amount t))
      (map (fun t => if Pos.eqb (id t) n then withRelated (Some m) t else t) rows)
  = map (fun t => (type t, amount t)) rows.
Proof.
  rewrite map_map. apply map_ext. intros t. destruct (Pos.eqb (id t) n); reflexivity.
Qed.

Lemma calculationOf_snoc accId date st st' rows t :
  actualBalance <$> dailyBalances st' !! (date - 1, accId)
    = actualBalance <$> dailyBalances st !! (date - 1, accId) ->
  length (List.filter (onDay accId date) (transactions st')) = length rows ->
  map (fun t => (type t, amount t)) (List.filter (onDay accId date) (transactions st'))
    = map (fun t => (type t, amount t)) rows ->
  rows = List.filter (onDay accId date) (transactions st) ++ [t] ->
  calculationOf accId date st' = withRow (calculationOf accId date st) t.
Proof.
  intros Hd Hlen Hrows ->.
  unfold calculationOf, calculateDailyBalance, bind, dailyBalance_findUnique,
    transaction_findMany, gets, ret. cbn beta iota.
  rewrite Hlen, (fold_addTransaction_ext _ _ _ Hrows).
  rewrite fold_left_app, length_app. cbn [fold_left length].
  replace (length (List.filter (onDay accId date) (transactions st)) + 1)%nat
    with (S (length (List.filter (onDay accId date) (transactions st)))) by lia.
  unfold withRow.
  cbn [calc_totalDeposits calc_totalWithdrawals calc_totalExpenses
       calc_totalTransfers calc_openingBalance transactionCount].
  set (tot := fold_left addTransaction _ _).
  replace (mkTotals (acc_totalDeposits tot) (acc_totalWithdrawals tot)
             (acc_totalExpenses tot) (acc_totalTransfers tot)) with tot
    by (destruct tot; reflexivity).
  destruct (dailyBalances st' !! (date - 1, accId)) as [p1|],
           (dailyBalances st !! (date - 1, accId)) as [p2|];
    cbn in Hd; try discriminate; [injection Hd as ->|]; reflexivity.
Qed.

Lemma onDay_mainRow input a n :
  onDay (in_bankAccountId input) (in_transactionDate input) (mainRow input a n) = true.
Proof. unfold onDay, mainRow. cbn. rewrite String.eqb_refl, Z.eqb_refl. reflexivity. Qed.

Lemma onDay_other accId date t :
  bankAccountId t <> accId -> onDay accId date t = false.
Proof.
  intros H. unfold onDay. apply String.eqb_neq in H. rewrite H. reflexivity.
Qed.

Lemma onDay_withRelated accId date m t :
  onDay accId date (withRelated m t) = onDay accId date t.
Proof. reflexivity. Qed.

(** X9: after a successful [createTransaction] (other than a transfer of
    an account to itself) the calculator of the source account on the day of
    the transaction counts one more row: the earlier totals with the new row
    added to the total of its type, the same opening balance. *)
Theorem create_counts_on_source today input st res st' :
  createTransaction today input st = Ok res st' ->
  truthy (in_transferToBankAccountId input) <> Some (in_bankAccountId input)
    \/ in_type input <> TRANSFER ->
  let c := calculationOf (in_bankAccountId input) (in_transactionDate input) st in
  let c' := calculationOf (in_bankAccountId input) (in_transactionDate input) st' in
  c' = withRow c (res_transaction res) /\
  transactionCount c' = S (transactionCount c) /\
  calc_openingBalance c' = calc_openingBalance c.
Proof.
  intros H Hself. cbv zeta.
  apply createTransaction_Ok in H as (a & Ha & Hres & _ & Hd & Hrows).
  assert (Hc : calculationOf (in_bankAccountId input) (in_transactionDate input) st'
               = withRow (calculationOf (in_bankAccountId input)
                            (in_transactionDate input) st) (res_transaction res)).
  { rewrite Hres.
    assert (Hprev : actualBalance <$> dailyBalances st' !!
                      (in_transactionDate input - 1, in_bankAccountId input)
                    = actualBalance <$> dailyBalances st !!
                      (in_transactionDate input - 1, in_bankAccountId input)).
    { rewrite Hd, reopenDay_lookup, decide_False; [reflexivity|].
      intros [= E]. lia. }
    destruct Hrows as [(_ & _ & Ht & _)|(to & target & Hty & Hto & _ & Ht & _)].
    - eapply calculationOf_snoc; [exact Hprev| | |reflexivity];
        rewrite Ht, List.filter_app; cbn [List.filter]; rewrite onDay_mainRow; reflexivity.
    - assert (Hne : to <> in_bankAccountId input).
      { destruct Hself as [Hs|Hs]; congruence. }
      assert (Hf : List.filter (onDay (in_bankAccountId input) (in_transactionDate input))
                     (transactions st')
                   = map (fun t => if Pos.eqb (id t) (nextId st)
                                   then withRelated (Some (Pos.succ (nextId st))) t else t)
                       (List.filter (onDay (in_bankAccountId input)
                                       (in_transactionDate input)) (transactions st)
                        ++ [mainRow input a (nextId st)])).
      { rewrite Ht, filter_setRelated by (intros; apply onDay_withRelated).
        rewrite !List.filter_app. cbn [List.filter].
        rewrite onDay_mainRow, onDay_other by exact Hne.
        rewrite app_nil_r. reflexivity. }
      eapply calculationOf_snoc; [exact Hprev| | |reflexivity]; rewrite Hf.
      + apply length_map.
      + apply essence_setRelated. }
  split; [exact Hc|]. rewrite Hc. split; reflexivity.
Qed.

(** X10: the paired DEPOSIT of a transfer is counted by the calculator of
    the destination account on that day (its totalDeposits grow by the
    amount), but the destination's daily-balance record is left as it is: a
    closed day of the destination stays closed. *)
Theorem transfer_lands_without_reopening today input st res st' transferTo paired :
  createTransaction today input st = Ok res st' ->
  in_type input = TRANSFER ->
  truthy (in_transferToBankAccountId input) = Some transferTo ->
  transferTo <> in_bankAccountId input ->
  res_relatedTransaction res = Some paired ->
  let date := in_transactionDate input in
  type paired = DEPOSIT /\ amount paired = in_amount input /\
  calculationOf transferTo date st' = withRow (calculationOf transferTo date st) paired /\
  calc_totalDeposits (calculationOf transferTo date st')
    = (calc_totalDeposits (calculationOf transferTo date st)
       + Number (in_amount input))%float /\
  dailyBalances st' !! (date, transferTo) = dailyBalances st !! (date, transferTo).
Proof.
  intros H Hty Hto Hne Hrel. cbv zeta.
  apply createTransaction_Ok in H as (a & Ha & _ & _ & Hd & Hrows).
  destruct Hrows as [(Hnone & _)|(to & target & _ & Hto' & Hrel' & Ht & _)];
    [congruence|].
  rewrite Hto in Hto'. injection Hto' as <-.
  rewrite Hrel in Hrel'. injection Hrel' as ->.
  assert (Hkey : dailyBalances st' !! (in_transactionDate input, transferTo)
                 = dailyBalances st !! (in_transactionDate input, transferTo)).
  { rewrite Hd, reopenDay_lookup, decide_False by congruence. reflexivity. }
  assert (Hc : calculationOf transferTo (in_transactionDate input) st'
               = withRow (calculationOf transferTo (in_transactionDate input) st)
                   (pairedRow input a target transferTo (Pos.succ (nextId st)) (nextId st))).
  { assert (Hf : List.filter (onDay transferTo (in_transactionDate input))
                   (transactions st')
                 = map (fun t => if Pos.eqb (id t) (nextId st)
                                 then withRelated (Some (Pos.succ (nextId st))) t else t)
                     (List.filter (onDay transferTo (in_transactionDate input))
                        (transactions st)
                      ++ [pairedRow input a target transferTo
                            (Pos.succ (nextId st)) (nextId st)])).
    { rewrite Ht, filter_setRelated by (intros; apply onDay_withRelated).
      rewrite !List.filter_app. cbn [List.filter].
      rewrite (onDay_other transferTo _ (mainRow input a (nextId st)))
        by (cbn; congruence).
      assert (Hp : onDay transferTo (in_transactionDate input)
                     (pairedRow input a target transferTo
                        (Pos.succ (nextId st)) (nextId st)) = true).
      { unfold onDay, pairedRow. cbn.
        rewrite String.eqb_refl, Z.eqb_refl. reflexivity. }
      rewrite Hp, app_nil_r. reflexivity. }
    eapply calculationOf_snoc; [| | |reflexivity].
    - rewrite Hd, reopenDay_lookup, decide_False by congruence. reflexivity.
    - rewrite Hf. apply length_map.
    - rewrite Hf. apply essence_setRelated. }
  split; [reflexivity|]. split; [reflexivity|]. split; [exact Hc|].
  split; [rewrite Hc; reflexivity|exact Hkey].
Qed.

Lemma wfRows_weaken n m rows :
  (n <= m)%positive -> wfRows n rows -> wfRows m rows.
Proof.
  intros Hnm (H1 & H2 & H3). split; [|split; [exact H2|]].
  - eapply Forall_impl; [exact H1|]. cbn. intros; lia.
  - eapply Forall_impl; [exact H3|]. cbn. intros t H r Hr. specialize (H r Hr). lia.
Qed.

Lemma wfRows_snoc n rows t :
  wfRows n rows -> id t = n ->
  (forall r, relatedTransactionId t = Some r -> (r <= n)%positive) ->
  wfRows (Pos.succ n) (rows ++ [t]).
Proof.
  intros (H1 & H2 & H3) Hid Hrel. split; [|split].
  - apply Forall_app. split.
    + eapply Forall_impl; [exact H1|]. cbn. intros; lia.
    + constructor; [lia|constructor].
  - rewrite map_app. cbn. apply NoDup_app. split; [exact H2|]. split.
    + intros x Hx Hx'. apply list_elem_of_singleton in Hx'. subst x.
      apply list_elem_of_fmap in Hx as (t' & E & Ht').
      rewrite Forall_forall in H1. specialize (H1 _ Ht'). lia.
    + apply NoDup_singleton.
  - apply Forall_app. split.
    + eapply Forall_impl; [exact H3|]. cbn. intros t' H r Hr. specialize (H r Hr). lia.
    + constructor; [|constructor]. intros r Hr. specialize (Hrel r Hr). lia.
Qed.

Lemma wfRows_map n rows (f : Transaction -> Transaction) :
  (forall t, id (f t) = id t) ->
  (forall t r, relatedTransactionId (f t) = Some r ->
               relatedTransactionId t = Some r \/ (r < n)%positive) ->
  wfRows n rows -> wfRows n (map f rows).
Proof.
  intros Hid Hrel (H1 & H2 & H3). split; [|split].
  - apply Forall_fmap. eapply Forall_impl; [exact H1|]. cbn. intros t. rewrite Hid. auto.
  - rewrite map_map. erewrite map_ext; [exact H2|]. intros t. apply Hid.
  - apply Forall_fmap. eapply Forall_impl; [exact H3|]. cbn.
    intros t H r Hr. destruct (Hrel t r Hr) as [E|E]; auto.
Qed.

Lemma wfRows_filter n rows p :
  wfRows n rows -> wfRows n (List.filter p rows).
Proof.
  intros (H1 & H2 & H3).
  assert (Hsub : forall x, x ∈ List.filter p rows -> x ∈ rows).
  { intros x. rewrite !list_elem_of_In, filter_In. tauto. }
  split; [|split].
  - apply Forall_forall. intros x Hx. rewrite Forall_forall in H1.
    apply H1, Hsub, Hx.
  - clear H1 H3 Hsub. induction rows as [|t rows IH]; cbn; [constructor|].
    cbn in H2. apply NoDup_cons in H2 as [Hn H2]. specialize (IH H2).
    destruct (p t); cbn; [|exact IH].
    apply NoDup_cons. split; [|exact IH].
    intros Hin. apply Hn.
    apply list_elem_of_fmap in Hin as (t' & E & Ht').
    apply list_elem_of_fmap. exists t'. split; [exact E|].
    revert Ht'. rewrite !list_elem_of_In, filter_In. tauto.
  - apply Forall_forall. intros x Hx. rewrite Forall_forall in H3.
    apply H3, Hsub, Hx.
Qed.

Lemma clearRelated_id i t : id (clearRelated i t) = id t.
Proof.
  unfold clearRelated. destruct (relatedTransactionId t) as [r|]; [|reflexivity].
  destruct (Pos.eqb r i); reflexivity.
Qed.

Lemma clearRelated_related i t r :
  relatedTransactionId (clearRelated i t) = Some r -> relatedTransactionId t = Some r.
Proof.
  unfold clearRelated. destruct (relatedTransactionId t) as [r'|] eqn:E; [|congruence].
  destruct (Pos.eqb r' i); cbn; congruence.
Qed.

Lemma wfRows_delete n i rows :
  wfRows n rows ->
  wfRows n (map (clearRelated i)
              (List.filter (fun x => negb (Pos.eqb (id x) i)) rows)).
Proof.
  intros H. apply wfRows_map.
  - apply clearRelated_id.
  - intros t r Hr. left. eapply clearRelated_related, Hr.
  - apply wfRows_filter, H.
Qed.

Lemma wfStore_rows st : wfStore st <-> wfRows (nextId st) (transactions st).
Proof. reflexivity. Qed.

Lemma create_maintains_wf today input : maintains wfStore (createTransaction today input).
Proof.
  intros st res st' Hwf H. apply wfStore_rows in Hwf. apply wfStore_rows.
  apply createTransaction_Ok in H as (a & _ & _ & _ & _ & Hrows).
  destruct Hrows as [(_ & _ & -> & ->)|(to & target & _ & _ & _ & -> & ->)].
  - apply wfRows_snoc; [exact Hwf|reflexivity|discriminate].
  - apply wfRows_map.
    + intros t. destruct (Pos.eqb (id t) (nextId st)); reflexivity.
    + intros t r. destruct (Pos.eqb (id t) (nextId st)); cbn.
      * intros [= <-]. right. lia.
      * auto.
    + apply wfRows_snoc; [apply wfRows_snoc| |].
      * exact Hwf.
      * reflexivity.
      * discriminate.
      * reflexivity.
      * cbn. intros r [= <-]. lia.
Qed.

Lemma applyUpdates_id u t : id (applyUpdates u t) = id t.
Proof. reflexivity. Qed.

Lemma wfRows_update n i u rows :
  wfRows n rows ->
  wfRows n (map (fun t => if Pos.eqb (id t) i then applyUpdates u t else t) rows).
Proof.
  apply wfRows_map.
  - intros t. destruct (Pos.eqb (id t) i); reflexivity.
  - intros t r. destruct (Pos.eqb (id t) i); cbn; auto.
Qed.

Lemma update_maintains_wf toDecimal today i updates userId :
  maintains wfStore (updateTransaction toDecimal today i updates userId).
Proof.
  intros st res st' Hwf H. apply wfStore_rows in Hwf. apply wfStore_rows.
  destruct (findRow i (transactions st)) as [e|] eqn:He.
  - rewrite (updateTransaction_run toDecimal today i updates userId st e He) in H.
    cbv zeta in H.
    assert (Hgoal : forall accs r,
      Ok r (mkStore accs
              (map (fun t => if Pos.eqb (id t) i then applyUpdates updates t else t)
                   (transactions st))
              (if transactionDate e <? today
               then reopenDay (transactionDate e) (bankAccountId e) (dailyBalances st)
               else dailyBalances st) (nextId st)) = Ok res st' ->
      wfRows (nextId st') (transactions st')).
    { intros accs r [= _ <-]. cbn. apply wfRows_update, Hwf. }
    destruct (upd_amount updates); [|eapply Hgoal, H].
    destruct (transactionDate e =? today); [|eapply Hgoal, H].
    destruct (bankAccounts st !! bankAccountId e); [|discriminate].
    destruct (_ <? 0); [discriminate|eapply Hgoal, H].
  - unfold updateTransaction, bind, transaction_findUnique, gets in H.
    rewrite He in H. discriminate.
Qed.

Lemma delete_maintains_wf today i userId :
  maintains wfStore (deleteTransaction today i userId).
Proof.
  intros st res st' Hwf H. apply wfStore_rows in Hwf. apply wfStore_rows.
  destruct (findRow i (transactions st)) as [t|] eqn:Ht.
  - rewrite (deleteTransaction_run today i userId st t Ht) in H. cbv zeta in H.
    assert (Hrows : wfRows (nextId st) (rowsAfterDelete i t (transactions st))).
    { unfold rowsAfterDelete. apply wfRows_delete.
      destruct (relatedTransactionId t) as [j|]; [|exact Hwf].
      destruct (findRow j (transactions st)); [|exact Hwf].
      apply wfRows_delete, Hwf. }
    destruct (transactionDate t =? today).
    + destruct (bankAccounts st !! bankAccountId t); [|discriminate].
      destruct (_ <? 0); [discriminate|]. injection H as _ <-. exact Hrows.
    + injection H as _ <-. exact Hrows.
  - unfold deleteTransaction, bind, transaction_findUnique, gets in H.
    rewrite Ht in H. discriminate.
Qed.

Lemma findRow_keys i rows1 rows2 t :
  map rowKey rows1 = map rowKey rows2 ->
  findRow i rows1 = Some t ->
  exists t', findRow i rows2 = Some t' /\ rowKey t' = rowKey t.
Proof.
  revert rows2. induction rows1 as [|x rows1 IH]; intros [|y rows2] E H;
    try discriminate.
  cbn [map] in E. apply (f_equal (fun l => (head l, tail l))) in E.
  cbn in E. injection E as Ek Ed Ea E.
  assert (Hid : id y = id x) by congruence.
  unfold findRow in *. cbn [find] in *.
  rewrite Hid. destruct (Pos.eqb (id x) i).
  - injection H as <-. exists y. split; [reflexivity|unfold rowKey; congruence].
  - apply IH; assumption.
Qed.

Lemma findRow_keys_None i rows1 rows2 :
  map rowKey rows1 = map rowKey rows2 ->
  findRow i rows1 = None -> findRow i rows2 = None.
Proof.
  intros E H. destruct (findRow i rows2) as [t|] eqn:E2; [|reflexivity].
  destruct (findRow_keys i rows2 rows1 t (eq_sym E) E2) as (t' & H' & _). congruence.
Qed.

Lemma rowKey_update i u rows :
  map rowKey (map (fun t => if Pos.eqb (id t) i then applyUpdates u t else t) rows)
  = map rowKey rows.
Proof.
  rewrite map_map. apply map_ext. intros t. destruct (Pos.eqb (id t) i); reflexivity.
Qed.

Lemma setAdd_elem {A} (eqb : A -> A -> bool) (x y : A) (s : list A) :
  (forall a b, eqb a b = true <-> a = b) ->
  x ∈ setAdd eqb y s <-> x = y \/ x ∈ s.
Proof.
  intros Heq. unfold setAdd. destruct (existsb (eqb y) s) eqn:E.
  - split; [auto|]. intros [->|H]; [|exact H].
    apply existsb_exists in E as (z & Hz & Ez). apply Heq in Ez. subst z.
    apply list_elem_of_In, Hz.
  - rewrite elem_of_app, list_elem_of_singleton. tauto.
Qed.

Lemma bulkApply_run updates :
  forall ds accs st,
  exists ds' accs' rows',
    bulkApply updates ds accs st =
      Ok (ds', accs')
         (mkStore (bankAccounts st) rows' (dailyBalances st) (nextId st)) /\
    map rowKey rows' = map rowKey (transactions st) /\
    (wfRows (nextId st) (transactions st) -> wfRows (nextId st) rows') /\
    (forall d, d ∈ ds' <->
       d ∈ ds \/ exists i u t, (i, u) ∈ updates /\
                  findRow i (transactions st) = Some t /\ transactionDate t = d) /\
    (forall a, a ∈ accs' <->
       a ∈ accs \/ exists i u t, (i, u) ∈ updates /\
                  findRow i (transactions st) = Some t /\ bankAccountId t = a) /\
    (Forall (fun iu => findRow (fst iu) (transactions st) = None) updates ->
     ds' = ds /\ accs' = accs /\ rows' = transactions st).
Proof.
  induction updates as [|[i u] rest IH]; intros ds accs st; cbn [bulkApply].
  - exists ds, accs, (transactions st). split; [destruct st; reflexivity|].
    split; [reflexivity|]. split; [auto|].
    split; [|split; [|auto]].
    + intros d. split; [auto|]. intros [H|(i & u & t & H & _)]; [exact H|].
      apply elem_of_nil in H. contradiction.
    + intros a. split; [auto|]. intros [H|(i & u & t & H & _)]; [exact H|].
      apply elem_of_nil in H. contradiction.
  - unfold bind at 1, transaction_findUnique at 1, gets at 1.
    destruct (findRow i (transactions st)) as [t|] eqn:Ht.
    + unfold bind at 1, transaction_update, bind, modify, transaction_findUnique, gets.
      set (st1 := setTransactions _ st).
      destruct (IH (setAdd Z.eqb (transactionDate t) ds)
                  (setAdd String.eqb (bankAccountId t) accs) st1)
        as (ds' & accs' & rows' & Hrun & Hkeys & Hwf & Hds & Haccs & _).
      exists ds', accs', rows'. split; [exact Hrun|].
      assert (Hk1 : map rowKey (transactions st1) = map rowKey (transactions st))
        by apply rowKey_update.
      split; [congruence|]. split.
      { intros H. apply Hwf. apply wfRows_update, H. }
      assert (Hfind : forall j x,
        (exists t', findRow j (transactions st1) = Some t' /\ rowKey t' = x) <->
        (exists t', findRow j (transactions st) = Some t' /\ rowKey t' = x)).
      { intros j x. split; intros (t' & Hf & <-).
        - destruct (findRow_keys j _ _ t' Hk1 Hf) as (t2 & H2 & E2). eauto.
        - destruct (findRow_keys j _ _ t' (eq_sym Hk1) Hf) as (t2 & H2 & E2). eauto. }
      split; [|split].
      * intros d. rewrite Hds, (setAdd_elem Z.eqb) by apply Z.eqb_eq. split.
        -- intros [[->|H]|(j & v & t' & Hin & Hf & <-)].
           ++ right. exists i, u, t. split; [left|]. auto.
           ++ auto.
           ++ destruct (proj1 (Hfind j (rowKey t')) (ex_intro _ t' (conj Hf eq_refl)))
                as (t2 & H2 & E2).
              right. exists j, v, t2. split; [right; exact Hin|].
              split; [exact H2|]. unfold rowKey in E2. congruence.
        -- intros [H|(j & v & t' & Hin & Hf & <-)]; [auto|].
           apply elem_of_cons in Hin as [[= -> ->]|Hin].
           ++ left. left. congruence.
           ++ destruct (proj2 (Hfind j (rowKey t')) (ex_intro _ t' (conj Hf eq_refl)))
                as (t2 & H2 & E2).
              right. exists j, v, t2. split; [exact Hin|].
              split; [exact H2|]. unfold rowKey in E2. congruence.
      * intros a. rewrite Haccs, (setAdd_elem String.eqb) by apply String.eqb_eq. split.
        -- intros [[->|H]|(j & v & t' & Hin & Hf & <-)].
           ++ right. exists i, u, t. split; [left|]. auto.
           ++ auto.
           ++ destruct (proj1 (Hfind j (rowKey t')) (ex_intro _ t' (conj Hf eq_refl)))
                as (t2 & H2 & E2).
              right. exists j, v, t2. split; [right; exact Hin|].
              split; [exact H2|]. unfold rowKey in E2. congruence.
        -- intros [H|(j & v & t' & Hin & Hf & <-)]; [auto|].
           apply elem_of_cons in Hin as [[= -> ->]|Hin].
           ++ left. left. congruence.
           ++ destruct (proj2 (Hfind j (rowKey t')) (ex_intro _ t' (conj Hf eq_refl)))
                as (t2 & H2 & E2).
              right. exists j, v, t2. split; [exact Hin|].
              split; [exact H2|]. unfold rowKey in E2. congruence.
      * intros Hall. inversion Hall as [|? ? Hi _]; subst. cbn in Hi. congruence.
    + destruct (IH ds accs st)
        as (ds' & accs' & rows' & Hrun & Hkeys & Hwf & Hds & Haccs & Hnone).
      exists ds', accs', rows'. split; [exact Hrun|]. split; [exact Hkeys|].
      split; [exact Hwf|]. split; [|split].
      * intros d. rewrite Hds. split.
        -- intros [H|(j & v & t' & Hin & Hf)]; [auto|].
           right. exists j, v, t'. split; [right; exact Hin|exact Hf].
        -- intros [H|(j & v & t' & Hin & Hf & Hd)]; [auto|].
           apply elem_of_cons in Hin as [[= -> ->]|Hin]; [congruence|].
           right. exists j, v, t'. auto.
      * intros a. rewrite Haccs. split.
        -- intros [H|(j & v & t' & Hin & Hf)]; [auto|].
           right. exists j, v, t'. split; [right; exact Hin|exact Hf].
        -- intros [H|(j & v & t' & Hin & Hf & Hd)]; [auto|].
           apply elem_of_cons in Hin as [[= -> ->]|Hin]; [congruence|].
           right. exists j, v, t'. auto.
      * intros Hall. inversion Hall; subst. auto.
Qed.

(** The nested reopening loops. *)
Lemma reopenProduct_run accs ds st :
  forEach accs (fun acc => forEach ds (fun date => reopenIfClosed date acc)) st =
  Ok tt (mkStore (bankAccounts st) (transactions st)
           (fold_left (fun m acc => fold_left (fun m d => reopenDay d acc m) ds m)
              accs (dailyBalances st))
           (nextId st)).
Proof.
  revert st. induction accs as [|acc accs IH]; intros st; cbn [forEach fold_left].
  - destruct st; reflexivity.
  - unfold bind at 1. rewrite forEach_reopen_run, IH. reflexivity.
Qed.

Lemma reopenProduct_lookup accs ds dbs k :
  fold_left (fun m acc => fold_left (fun m d => reopenDay d acc m) ds m) accs dbs !! k =
  if decide (snd k ∈ accs /\ fst k ∈ ds) then openedRow <$> dbs !! k else dbs !! k.
Proof.
  revert dbs. induction accs as [|acc accs IH]; intros dbs; cbn [fold_left].
  - destruct (decide _) as [[H _]|_]; [|reflexivity].
    apply elem_of_nil in H. contradiction.
  - rewrite IH, reopenDays_lookup.
    destruct (decide (snd k = acc /\ fst k ∈ ds)) as [[Ha Hd]|Hn].
    + rewrite (decide_True (P := snd k ∈ acc :: accs /\ fst k ∈ ds))
        by (split; [rewrite Ha; left | exact Hd]).
      destruct (decide _); [|reflexivity].
      destruct (dbs !! k); cbn; [rewrite openedRow_idemp|]; reflexivity.
    + destruct (decide (snd k ∈ accs /\ fst k ∈ ds)) as [[Ha Hd]|Hn'].
      * rewrite decide_True by (split; [right; exact Ha | exact Hd]). reflexivity.
      * rewrite decide_False; [reflexivity|].
        intros [Ha Hd]. apply elem_of_cons in Ha as [Ha|Ha]; tauto.
Qed.

Lemma bulkUpdate_run updates userId st :
  exists ds accs rows',
    bulkUpdateHistoricalTransactions updates userId st =
      Ok (mkBulkResult (length updates) ds accs)
         (mkStore (bankAccounts st) rows'
            (fold_left (fun m acc => fold_left (fun m d => reopenDay d acc m) ds m)
               accs (dailyBalances st))
            (nextId st)) /\
    map rowKey rows' = map rowKey (transactions st) /\
    (wfRows (nextId st) (transactions st) -> wfRows (nextId st) rows') /\
    (forall d, d ∈ ds <->
       exists i u t, (i, u) ∈ updates /\
         findRow i (transactions st) = Some t /\ transactionDate t = d) /\
    (forall a, a ∈ accs <->
       exists i u t, (i, u) ∈ updates /\
         findRow i (transactions st) = Some t /\ bankAccountId t = a) /\
    (Forall (fun iu => findRow (fst iu) (transactions st) = None) updates ->
     ds = [] /\ accs = [] /\ rows' = transactions st).
Proof.
  destruct (bulkApply_run updates [] [] st)
    as (ds & accs & rows' & Hrun & Hkeys & Hwf & Hds & Haccs & Hnone).
  exists ds, accs, rows'. split.
  - unfold bulkUpdateHistoricalTransactions, bind at 1. rewrite Hrun.
    cbn [fst snd]. unfold bind. rewrite reopenProduct_run. reflexivity.
  - split; [exact Hkeys|]. split; [exact Hwf|]. split; [|split; [|exact Hnone]].
    + intros d. rewrite Hds. split; [|auto].
      intros [H|H]; [apply elem_of_nil in H; contradiction|exact H].
    + intros a. rewrite Haccs. split; [|auto].
      intros [H|H]; [apply elem_of_nil in H; contradiction|exact H].
Qed.

(** X11: [bulkUpdateHistoricalTransactions] skips the ids that match no row:
    when none of them matches it succeeds, leaves the store as it was and
    returns two empty lists. Whenever it succeeds, updatedTransactions is
    the length of the request, skipped entries included, the rows are as
    many as before, and no account balance has changed, also when it
    changed the amount of a row dated today. *)
Theorem bulkUpdate_skips_unknown_ids updates userId st :
  (Forall (fun iu => findRow (fst iu) (transactions st) = None) updates ->
   bulkUpdateHistoricalTransactions updates userId st
   = Ok (mkBulkResult (length updates) [] []) st) /\
  (forall res st',
     bulkUpdateHistoricalTransactions updates userId st = Ok res st' ->
     updatedTransactions res = length updates /\
     length (transactions st') = length (transactions st) /\
     bankAccounts st' = bankAccounts st).
Proof.
  destruct (bulkUpdate_run updates userId st)
    as (ds & accs & rows' & Hrun & Hkeys & _ & _ & _ & Hnone).
  split.
  - intros Hall. destruct (Hnone Hall) as (-> & -> & ->).
    rewrite Hrun. cbn. destruct st; reflexivity.
  - intros res st' H.
    split; [|split].
    + rewrite Hrun in H. injection H as <- _. reflexivity.
    + rewrite Hrun in H. injection H as _ <-. cbn.
      apply (f_equal (@length _)) in Hkeys. rewrite !length_map in Hkeys. exact Hkeys.
    + exact (bulk_keeps_accounts updates userId st res st' H).
Qed.

(** X12: the affected dates and accounts that
    [bulkUpdateHistoricalTransactions] returns are exactly those of the rows
    its ids match; afterwards every (affected date, affected account) pair is
    open, every other daily-balance record is untouched, and no record's
    stored figures change. *)
Theorem bulkUpdate_reopens_product updates userId st :
  exists res st',
    bulkUpdateHistoricalTransactions updates userId st = Ok res st' /\
    (forall d, d ∈ affectedDates res <->
       exists i u t, (i, u) ∈ updates /\
         findRow i (transactions st) = Some t /\ transactionDate t = d) /\
    (forall a, a ∈ affectedBankAccounts res <->
       exists i u t, (i, u) ∈ updates /\
         findRow i (transactions st) = Some t /\ bankAccountId t = a) /\
    (forall d a, d ∈ affectedDates res -> a ∈ affectedBankAccounts res ->
       isClosedDay a d st' = false) /\
    (forall d a, d ∉ affectedDates res \/ a ∉ affectedBankAccounts res ->
       dailyBalances st' !! (d, a) = dailyBalances st !! (d, a)) /\
    (forall k, reopened <$> dailyBalances st' !! k = reopened <$> dailyBalances st !! k).
Proof.
  destruct (bulkUpdate_run updates userId st)
    as (ds & accs & rows' & Hrun & _ & _ & Hds & Haccs & _).
  eexists _, _. split; [exact Hrun|]. cbn [affectedDates affectedBankAccounts].
  split; [exact Hds|]. split; [exact Haccs|]. split; [|split].
  - intros d a Hd Ha. unfold isClosedDay. cbn [dailyBalances].
    rewrite reopenProduct_lookup. cbn [fst snd].
    rewrite decide_True by (split; assumption).
    destruct (dailyBalances st !! (d, a)) as [r|]; [|reflexivity].
    cbn. unfold openedRow. destruct (isClosed r) eqn:E; [reflexivity|exact E].
  - intros d a Hout. cbn [dailyBalances]. rewrite reopenProduct_lookup. cbn [fst snd].
    rewrite decide_False; [reflexivity|]. tauto.
  - intros k. cbn [dailyBalances]. rewrite reopenProduct_lookup.
    destruct (decide _); [|reflexivity].
    destruct (dailyBalances st !! k) as [r|]; [|reflexivity].
    cbn. unfold openedRow. destruct (isClosed r); reflexivity.
Qed.

Lemma bulk_maintains_wf updates userId :
  maintains wfStore (bulkUpdateHistoricalTransactions updates userId).
Proof.
  intros st res st' Hwf H. apply wfStore_rows in Hwf. apply wfStore_rows.
  destruct (bulkUpdate_run updates userId st)
    as (ds & accs & rows' & Hrun & _ & Hw & _).
  rewrite Hrun in H. injection H as _ <-. cbn. apply Hw, Hwf.
Qed.

(** X13: the four mutating services keep the primary keys in order: ids
    stay pairwise distinct, and every id and every relatedTransactionId
    stays below the id generator. *)
Theorem primary_keys_maintained :
  (forall today input, maintains wfStore (createTransaction today input)) /\
  (forall toDecimal today i updates userId,
     maintains wfStore (updateTransaction toDecimal today i updates userId)) /\
  (forall today i userId, maintains wfStore (deleteTransaction today i userId)) /\
  (forall updates userId,
     maintains wfStore (bulkUpdateHistoricalTransactions updates userId)).
Proof.
  split; [exact create_maintains_wf|].
  split; [exact update_maintains_wf|].
  split; [exact delete_maintains_wf|exact bulk_maintains_wf].
Qed.

(** ** Edits of existing rows *)

Lemma findRow_updated i u rows :
  findRow i (map (fun t => if Pos.eqb (id t) i then applyUpdates u t else t) rows)
  = applyUpdates u <$> findRow i rows.
Proof.
  unfold findRow. induction rows as [|t rows IH]; [reflexivity|]. cbn.
  destruct (Pos.eqb (id t) i) eqn:E; cbn; rewrite E; [reflexivity|exact IH].
Qed.

Lemma findRow_not_updated i j u rows :
  j <> i ->
  findRow j (map (fun t => if Pos.eqb (id t) i then applyUpdates u t else t) rows)
  = findRow j rows.
Proof.
  intros Hne. unfold findRow. induction rows as [|t rows IH]; [reflexivity|]. cbn.
  destruct (Pos.eqb_spec (id t) i) as [E|E]; cbn.
  - destruct (Pos.eqb_spec (id t) j) as [E'|E']; [congruence|exact IH].
  - destruct (Pos.eqb (id t) j); [reflexivity|exact IH].
Qed.

(** X14: a successful [updateTransaction] returns the row with the given
    fields overwritten, stores it under the same id, and changes no other
    row: the rows are as many as before and no id is handed out. *)
Theorem update_touches_one_row toDecimal today i updates userId st e res st' :
  findRow i (transactions st) = Some e ->
  updateTransaction toDecimal today i updates userId st = Ok res st' ->
  upd_transaction res = Some (applyUpdates updates e) /\
  findRow i (transactions st') = Some (applyUpdates updates e) /\
  (forall j, j <> i -> findRow j (transactions st') = findRow j (transactions st)) /\
  length (transactions st') = length (transactions st) /\
  nextId st' = nextId st.
Proof.
  intros He H.
  rewrite (updateTransaction_run toDecimal today i updates userId st e He) in H.
  cbv zeta in H.
  assert (Hgoal : forall accs,
    Ok (mkUpdateResult
          (findRow i (map (fun t => if Pos.eqb (id t) i
                                    then applyUpdates updates t else t)
                        (transactions st)))
          (transactionDate e <? today) (transactionDate e <? today))
       (mkStore accs
          (map (fun t => if Pos.eqb (id t) i then applyUpdates updates t else t)
               (transactions st))
          (if transactionDate e <? today
           then reopenDay (transactionDate e) (bankAccountId e) (dailyBalances st)
           else dailyBalances st) (nextId st)) = Ok res st' ->
    upd_transaction res = Some (applyUpdates updates e) /\
    findRow i (transactions st') = Some (applyUpdates updates e) /\
    (forall j, j <> i -> findRow j (transactions st') = findRow j (transactions st)) /\
    length (transactions st') = length (transactions st) /\
    nextId st' = nextId st).
  { intros accs [= <- <-]. cbn [transactions upd_transaction nextId].
    rewrite findRow_updated, He. cbn [fmap option_fmap option_map].
    split; [reflexivity|]. split; [reflexivity|].
    split; [intros j Hj; apply findRow_not_updated, Hj|].
    split; [apply length_map|reflexivity]. }
  destruct (upd_amount updates); [|eapply Hgoal, H].
  destruct (transactionDate e =? today); [|eapply Hgoal, H].
  destruct (bankAccounts st !! bankAccountId e); [|discriminate].
  destruct (_ <? 0); [discriminate|eapply Hgoal, H].
Qed.

Lemma update_dailyBalances toDecimal today i updates userId st e res st' :
  findRow i (transactions st) = Some e ->
  updateTransaction toDecimal today i updates userId st = Ok res st' ->
  dailyBalances st' = afterEdit today (transactionDate e) (bankAccountId e) (dailyBalances st) /\
  isHistoricalUpdate res = (transactionDate e <? today) /\
  upd_reopenedDailyBalance res = (transactionDate e <? today).
Proof.
  intros He H.
  rewrite (updateTransaction_run toDecimal today i updates userId st e He) in H.
  cbv zeta in H. unfold afterEdit.
  destruct (upd_amount updates); [|injection H as <- <-; auto].
  destruct (transactionDate e =? today); [|injection H as <- <-; auto].
  destruct (bankAccounts st !! bankAccountId e); [|discriminate].
  destruct (_ <? 0); [discriminate|injection H as <- <-; auto].
Qed.

Lemma delete_dailyBalances today i userId st t res st' :
  findRow i (transactions st) = Some t ->
  deleteTransaction today i userId st = Ok res st' ->
  dailyBalances st' = afterEdit today (transactionDate t) (bankAccountId t) (dailyBalances st) /\
  isHistoricalDeletion res = (transactionDate t <? today) /\
  del_reopenedDailyBalance res = (transactionDate t <? today).
Proof.
  intros Ht H.
  rewrite (deleteTransaction_run today i userId st t Ht) in H. cbv zeta in H.
  unfold afterEdit.
  destruct (transactionDate t =? today); [|injection H as <- <-; auto].
  destruct (bankAccounts st !! bankAccountId t); [|discriminate].
  destruct (_ <? 0); [discriminate|injection H as <- <-; auto].
Qed.

Lemma afterEdit_frame today date acc dbs :
  (today <= date -> afterEdit today date acc dbs = dbs) /\
  ((forall d, match dbs !! (d, acc) with Some r => isClosed r | None => false end
              = false) ->
   afterEdit today date acc dbs = dbs) /\
  (forall d other, other <> acc ->
     afterEdit today date acc dbs !! (d, other) = dbs !! (d, other)) /\
  (forall k, reopened <$> afterEdit today date acc dbs !! k = reopened <$> dbs !! k).
Proof.
  unfold afterEdit. split; [|split; [|split]].
  - intros Hle. apply Z.ltb_ge in Hle. rewrite Hle. reflexivity.
  - intros Hopen. destruct (date <? today)%Z; [|reflexivity].
    apply reopenDay_open, Hopen.
  - intros d other Hne. destruct (date <? today)%Z; [|reflexivity].
    rewrite reopenDay_lookup. rewrite decide_False; [reflexivity|congruence].
  - intros k. destruct (date <? today)%Z; [|reflexivity].
    rewrite reopenDay_lookup. destruct (decide _); [|reflexivity].
    destruct (dbs !! k) as [r|]; [|reflexivity].
    cbn. unfold openedRow. destruct (isClosed r); reflexivity.
Qed.

(** X15: [updateTransaction] and [deleteTransaction] report
    reopenedDailyBalance = isHistorical = (the row is dated before today),
    whether or not any record was closed: when no day of the row's account
    is closed the daily balances are unchanged and the flag is still true.
    For a row dated today or later they leave the daily balances alone, so
    a closed record of today stays closed. In every case the records of
    other accounts are untouched and no record changes in more than
    isClosed and closedBy. *)
Theorem edit_reports_reopening :
  (forall toDecimal today i updates userId st e res st',
     findRow i (transactions st) = Some e ->
     updateTransaction toDecimal today i updates userId st = Ok res st' ->
     let date := transactionDate e in
     let acc := bankAccountId e in
     upd_reopenedDailyBalance res = (date <? today) /\
     isHistoricalUpdate res = (date <? today) /\
     (today <= date -> dailyBalances st' = dailyBalances st) /\
     ((forall d, isClosedDay acc d st = false) ->
      dailyBalances st' = dailyBalances st) /\
     (forall d other, other <> acc ->
        dailyBalances st' !! (d, other) = dailyBalances st !! (d, other)) /\
     (forall k, reopened <$> dailyBalances st' !! k
                = reopened <$> dailyBalances st !! k)) /\
  (forall today i userId st t res st',
     findRow i (transactions st) = Some t ->
     deleteTransaction today i userId st = Ok res st' ->
     let date := transactionDate t in
     let acc := bankAccountId t in
     del_reopenedDailyBalance res = (date <? today) /\
     isHistoricalDeletion res = (date <? today) /\
     (today <= date -> dailyBalances st' = dailyBalances st) /\
     ((forall d, isClosedDay acc d st = false) ->
      dailyBalances st' = dailyBalances st) /\
     (forall d other, other <> acc ->
        dailyBalances st' !! (d, other) = dailyBalances st !! (d, other)) /\
     (forall k, reopened <$> dailyBalances st' !! k
                = reopened <$> dailyBalances st !! k)).
Proof.
  split.
  - intros toDecimal today i updates userId st e res st' He H. cbv zeta.
    destruct (update_dailyBalances toDecimal today i updates userId st e res st' He H)
      as (Hd & Hh & Hr).
    destruct (afterEdit_frame today (transactionDate e) (bankAccountId e)
                (dailyBalances st)) as (F1 & F2 & F3 & F4).
    rewrite Hd. repeat split; assumption.
  - intros today i userId st t res st' Ht H. cbv zeta.
    destruct (delete_dailyBalances today i userId st t res st' Ht H)
      as (Hd & Hh & Hr).
    destruct (afterEdit_frame today (transactionDate t) (bankAccountId t)
                (dailyBalances st)) as (F1 & F2 & F3 & F4).
    rewrite Hd. repeat split; assumption.
Qed.

(** ** Outcomes of deleteTransaction *)

(** X16: [deleteTransaction] fails with "Transaction not found" exactly
    when the id matches no row; for a row whose account exists it fails
    INSUFFICIENT_BALANCE exactly when the row is dated today and reversing it
    would leave the balance negative, and succeeds otherwise; a successful
    delete changes the balance of no account other than the row's own. *)
Theorem deleteTransaction_outcome today i userId st :
  (deleteTransaction today i userId st = Err TRANSACTION_NOT_FOUND <->
   findRow i (transactions st) = None) /\
  (forall t a,
     findRow i (transactions st) = Some t ->
     bankAccounts st !! bankAccountId t = Some a ->
     (deleteTransaction today i userId st = Err INSUFFICIENT_BALANCE <->
      transactionDate t = today /\ reversedBalance t a < 0) /\
     ((exists res st', deleteTransaction today i userId st = Ok res st') <->
      transactionDate t <> today \/ 0 <= reversedBalance t a)) /\
  (forall t res st' other,
     findRow i (transactions st) = Some t ->
     deleteTransaction today i userId st = Ok res st' ->
     other <> bankAccountId t ->
     bankAccounts st' !! other = bankAccounts st !! other).
Proof.
  split; [|split].
  - destruct (findRow i (transactions st)) as [t|] eqn:Ht.
    + rewrite (deleteTransaction_run today i userId st t Ht). cbv zeta.
      split; [|discriminate].
      destruct (_ =? _); [|discriminate].
      destruct (bankAccounts st !! _); [|discriminate].
      destruct (_ <? 0); discriminate.
    + unfold deleteTransaction, bind, transaction_findUnique, gets. rewrite Ht.
      split; reflexivity.
  - intros t a Ht Ha.
    rewrite (deleteTransaction_run today i userId st t Ht). cbv zeta. rewrite Ha.
    destruct (Z.eqb_spec (transactionDate t) today) as [Ed|Ed].
    + destruct (Z.ltb_spec (reversedBalance t a) 0) as [Hn|Hn].
      * split; [split; [auto|intros; reflexivity]|].
        split; [intros (? & ? & [=])|intros [?|?]; [contradiction|lia]].
      * split; [split; [discriminate|intros [_ ?]; lia]|].
        split; [auto|eauto].
    + split; [split; [discriminate|intros [? _]; contradiction]|].
      split; [auto|eauto].
  - intros t res st' other Ht H Hne.
    rewrite (deleteTransaction_run today i userId st t Ht) in H. cbv zeta in H.
    destruct (_ =? _); [|injection H as _ <-; reflexivity].
    destruct (bankAccounts st !! bankAccountId t); [|discriminate].
    destruct (_ <? 0); [discriminate|]. injection H as _ <-. cbn.
    apply lookup_insert_ne. congruence.
Qed.

(** ** Undoing a create *)

Lemma filter_other_ids n m (rows : list Transaction) :
  Forall (fun t => (id t < n)%positive) rows -> (n <= m)%positive ->
  List.filter (fun x => negb (Pos.eqb (id x) m)) rows = rows.
Proof.
  intros H Hnm. induction H as [|t rows Ht _ IH]; [reflexivity|]. cbn.
  destruct (Pos.eqb_spec (id t) m) as [E|E]; [lia|]. cbn. rewrite IH. reflexivity.
Qed.

Lemma clearRelated_other n m (rows : list Transaction) :
  Forall (fun t => forall r, relatedTransactionId t = Some r -> (r < n)%positive) rows ->
  (n <= m)%positive ->
  map (clearRelated m) rows = rows.
Proof.
  intros H Hnm. induction H as [|t rows Ht _ IH]; [reflexivity|]. cbn.
  rewrite IH. f_equal. unfold clearRelated.
  destruct (relatedTransactionId t) as [r|] eqn:E; [|reflexivity].
  specialize (Ht r eq_refl). destruct (Pos.eqb_spec r m); [lia|reflexivity].
Qed.

Lemma findRow_app_fresh n m (rows rest : list Transaction) :
  Forall (fun t => (id t < n)%positive) rows -> (n <= m)%positive ->
  findRow m (rows ++ rest) = findRow m rest.
Proof.
  intros H Hnm. induction H as [|t rows Ht _ IH]; [reflexivity|].
  unfold findRow in *. cbn. destruct (Pos.eqb_spec (id t) m); [lia|exact IH].
Qed.

Lemma insert_back (accs : gmap string BankAccount) k a x :
  accs !! k = Some a ->
  <[k := mkBankAccount (accountNumber a) (currentBalance a)]> (<[k := x]> accs) = accs.
Proof.
  intros H. rewrite insert_insert_eq. apply insert_id. rewrite H. destruct a; reflexivity.
Qed.

(** X17: creating a transaction dated today (not a transfer with a
    destination) and deleting it again restores the accounts and the
    transactions, provided the balance was not negative to begin with; if it
    was, the create succeeds and the delete is refused with
    INSUFFICIENT_BALANCE. *)
Theorem create_then_delete today input userId st a :
  wfStore st ->
  bankAccounts st !! in_bankAccountId input = Some a ->
  in_transactionDate input = today ->
  in_type input <> TRANSFER \/ truthy (in_transferToBankAccountId input) = None ->
  exists res st1,
    createTransaction today input st = Ok res st1 /\
    (0 <= currentBalance a ->
     exists res2 st2,
       deleteTransaction today (id (res_transaction res)) userId st1 = Ok res2 st2 /\
       bankAccounts st2 = bankAccounts st /\
       transactions st2 = transactions st) /\
    (currentBalance a < 0 ->
     deleteTransaction today (id (res_transaction res)) userId st1
       = Err INSUFFICIENT_BALANCE).
Proof.
  intros (Hids & _ & Hrel) Ha Hd Hplain.
  pose proof (createTransaction_run today input st a Ha) as R. cbv zeta in R.
  assert (R' : createTransaction today input st =
    Ok (mkCreateResult (mainRow input a (nextId st)) None
          (isClosedDay (in_bankAccountId input) (in_transactionDate input) st))
       (mkStore
          (<[in_bankAccountId input :=
               mkBankAccount (accountNumber a) (newBalanceOf input a)]>
             (bankAccounts st))
          (transactions st ++ [mainRow input a (nextId st)])
          (reopenDay (in_transactionDate input) (in_bankAccountId input)
             (dailyBalances st))
          (Pos.succ (nextId st)))).
  { rewrite R. unfold writeBalance. rewrite Hd, Z.eqb_refl, Ha.
    destruct (in_type input); try reflexivity.
    destruct Hplain as [H|H]; [congruence|]. rewrite H. reflexivity. }
  clear R. eexists _, _. split; [exact R'|].
  cbn [res_transaction mainRow id].
  set (main := mainRow input a (nextId st)).
  set (st1 := mkStore _ _ _ _).
  assert (Hfind : findRow (nextId st) (transactions st1) = Some main).
  { subst st1. cbn [transactions].
    rewrite (findRow_app_fresh (nextId st)) by (assumption || lia).
    unfold findRow. cbn. rewrite Pos.eqb_refl. reflexivity. }
  pose proof (deleteTransaction_run today (nextId st) userId st1 main Hfind) as D.
  cbv zeta in D.
  assert (Hdate : transactionDate main = today) by exact Hd.
  assert (Hacc : bankAccounts st1 !! bankAccountId main
                 = Some (mkBankAccount (accountNumber a) (newBalanceOf input a))).
  { subst st1. cbn. apply lookup_insert_eq. }
  assert (Hrev : reversedBalance main
                   (mkBankAccount (accountNumber a) (newBalanceOf input a))
                 = currentBalance a).
  { unfold reversedBalance, newBalanceOf. subst main. cbn.
    destruct (in_type input); cbn; lia. }
  rewrite Hdate, Z.eqb_refl, Hacc, Hrev in D. cbn [accountNumber] in D.
  split.
  - intros Hpos. apply Z.ltb_ge in Hpos. rewrite Hpos in D.
    eexists _, _. split; [exact D|]. cbn [bankAccounts transactions].
    split.
    + subst st1. cbn. apply insert_back, Ha.
    + unfold rowsAfterDelete. subst main st1. cbn [mainRow relatedTransactionId transactions].
      rewrite List.filter_app, (filter_other_ids (nextId st)) by (assumption || lia).
      cbn. rewrite Pos.eqb_refl. cbn. rewrite app_nil_r.
      apply (clearRelated_other (nextId st)); [assumption|lia].
  - intros Hneg. apply Z.ltb_lt in Hneg. rewrite Hneg in D. exact D.
Qed.

(** ** Deleting a same-day transfer *)

(** X18: deleting the main row of a transfer made today removes both rows
    and gives the source its amount back, but does not take it from the
    destination: the destination keeps the transferred amount. *)
Theorem transfer_then_delete today input userId st a b transferTo :
  wfStore st ->
  bankAccounts st !! in_bankAccountId input = Some a ->
  bankAccounts st !! transferTo = Some b ->
  transferTo <> in_bankAccountId input ->
  in_type input = TRANSFER ->
  truthy (in_transferToBankAccountId input) = Some transferTo ->
  in_transactionDate input = today ->
  0 <= currentBalance a ->
  exists res st1 res2 st2,
    createTransaction today input st = Ok res st1 /\
    balanceOf transferTo st1 = Some (currentBalance b + in_amount input) /\
    deleteTransaction today (id (res_transaction res)) userId st1 = Ok res2 st2 /\
    transactions st2 = transactions st /\
    balanceOf (in_bankAccountId input) st2 = Some (currentBalance a) /\
    balanceOf transferTo st2 = Some (currentBalance b + in_amount input).
Proof.
  intros (Hids & _ & Hrel) Ha Hb Hne Hty Hto Hd Hpos. subst today.
  pose proof (createTransaction_run (in_transactionDate input) input st a Ha) as R. cbv zeta in R.
  rewrite Hty, Hto in R. unfold writeBalance in R.
  rewrite !Z.eqb_refl, !Ha in R.
  rewrite !(lookup_insert_ne (bankAccounts st) (in_bankAccountId input) transferTo)
    in R by congruence.
  rewrite !Hb in R.
  cbn [transactions] in R.
  rewrite !map_app, (setRelated_fresh _ _ _ Hids) in R.
  cbn [map] in R.
  replace (id (mainRow input a (nextId st))) with (nextId st) in R by reflexivity.
  replace (id (pairedRow input a b transferTo (Pos.succ (nextId st)) (nextId st)))
    with (Pos.succ (nextId st)) in R by reflexivity.
  rewrite Pos.eqb_refl in R.
  replace (Pos.eqb (Pos.succ (nextId st)) (nextId st)) with false in R
    by (symmetry; apply Pos.eqb_neq; lia).
  rewrite <- app_assoc in R. cbn [app] in R.
  match type of R with _ = Ok ?r ?s => set (res := r) in *; set (st1 := s) in * end.
  exists res, st1.
  set (n := nextId st) in *.
  set (main := withRelated (Some (Pos.succ n)) (mainRow input a n)) in *.
  assert (Hbal1 : balanceOf transferTo st1 = Some (currentBalance b + in_amount input)).
  { subst st1. unfold balanceOf. cbn. rewrite lookup_insert_eq. reflexivity. }
  assert (Hnb : newBalanceOf input a = currentBalance a - in_amount input).
  { unfold newBalanceOf. rewrite Hty. reflexivity. }
  assert (Hfind : findRow n (transactions st1) = Some main).
  { subst st1. cbn [transactions].
    rewrite (findRow_app_fresh n) by (assumption || lia).
    unfold findRow. cbn. rewrite Pos.eqb_refl. reflexivity. }
  pose proof (deleteTransaction_run (in_transactionDate input) n userId st1 main Hfind) as D.
  cbv zeta in D.
  assert (Hacc : bankAccounts st1 !! bankAccountId main
                 = Some (mkBankAccount (accountNumber a) (newBalanceOf input a))).
  { subst st1 main. cbn. rewrite lookup_insert_ne by congruence.
    apply lookup_insert_eq. }
  assert (Hrev : reversedBalance main
                   (mkBankAccount (accountNumber a) (newBalanceOf input a))
                 = currentBalance a).
  { unfold reversedBalance. subst main. cbn. rewrite Hty, Hnb. lia. }
  assert (Hdate : transactionDate main = in_transactionDate input) by reflexivity.
  rewrite Hdate, Z.eqb_refl, Hacc, Hrev in D.
  apply Z.ltb_ge in Hpos. rewrite Hpos in D. cbn [accountNumber] in D.
  eexists _, _. split; [subst res; exact R|]. split; [exact Hbal1|].
  split; [exact D|]. cbn [transactions bankAccounts].
  split; [|split].
  - unfold rowsAfterDelete. subst st1. cbn [transactions].
    set (paired := pairedRow input a b transferTo (Pos.succ n) n).
    replace (relatedTransactionId main) with (Some (Pos.succ n)) by reflexivity.
    assert (Hm1 : Pos.eqb (id main) (Pos.succ n) = false)
      by (apply Pos.eqb_neq; cbn; lia).
    assert (Hp1 : Pos.eqb (id paired) (Pos.succ n) = true)
      by (apply Pos.eqb_eq; reflexivity).
    assert (Hf : findRow (Pos.succ n) (transactions st ++ [main; paired]) = Some paired).
    { rewrite (findRow_app_fresh n) by (assumption || lia).
      unfold findRow. cbn [find]. rewrite Hm1, Hp1. reflexivity. }
    rewrite Hf.
    rewrite (List.filter_app _ (transactions st)),
      (filter_other_ids n (Pos.succ n) (transactions st)) by (assumption || lia).
    cbn [List.filter]. rewrite Hm1, Hp1. cbn [negb].
    rewrite map_app, (clearRelated_other n (Pos.succ n) (transactions st))
      by (assumption || lia).
    cbn [map].
    assert (Hc : clearRelated (Pos.succ n) main = withRelated None main).
    { unfold clearRelated. subst main. cbn [relatedTransactionId withRelated].
      rewrite Pos.eqb_refl. reflexivity. }
    rewrite Hc.
    rewrite List.filter_app, (filter_other_ids n n (transactions st))
      by (assumption || lia).
    cbn [List.filter].
    replace (Pos.eqb (id (withRelated None main)) n) with true
      by (symmetry; apply Pos.eqb_eq; reflexivity).
    cbn [negb]. rewrite app_nil_r.
    apply (clearRelated_other n); [assumption|lia].
  - unfold balanceOf. subst main. cbn. rewrite lookup_insert_eq. reflexivity.
  - unfold balanceOf. subst main st1. cbn.
    rewrite lookup_insert_ne, lookup_insert_eq by congruence. reflexivity.
Qed.

(** ** Closing again, and the day after *)

Lemma calc_opening_lookup accId date st :
  calc_openingBalance (calculationOf accId date st) =
  Number (match dailyBalances st !! (date - 1, accId) with
          | Some p => actualBalance p
          | None => 0
          end).
Proof. reflexivity. Qed.

Section CloseCycle.

Variable toDecimal : float -> Z.

(** X19: closing a day that has an open record keeps the openingBalance
    and closingBalance that record holds, whatever the calculator returns
    now; only the first close of a day (no record yet) stores the
    calculator's opening and closing balance. *)
Theorem reclose_keeps_opening_closing accId date actual userId st a :
  isClosedDay accId date st = false ->
  bankAccounts st !! accId = Some a ->
  exists d st',
    closeDailyBalance toDecimal accId date actual userId st = Ok d st' /\
    match dailyBalances st !! (date, accId) with
    | Some r =>
        openingBalance d = openingBalance r /\
        closingBalance d = closingBalance r
    | None =>
        openingBalance d =
          toDecimal (calc_openingBalance (calculationOf accId date st)) /\
        closingBalance d =
          toDecimal (calc_closingBalance (calculationOf accId date st))
    end.
Proof.
  intros Hopen Ha. rewrite close_unfold, Hopen, autoClose_unfold, Ha.
  eexists _, _. split; [reflexivity|].
  unfold closedRow, upsertRow.
  destruct (dailyBalances st !! (date, accId)); split; reflexivity.
Qed.

(** X20: after a close or auto close of a day, the calculator's opening
    balance for the next day of that account is the stored actual balance;
    no other calculation changes. *)
Theorem close_feeds_next_day accId date actual userId st d st' :
  closeDailyBalance toDecimal accId date actual userId st = Ok d st' \/
  autoCloseDailyBalance toDecimal accId date actual userId st = Ok d st' ->
  calc_openingBalance (calculationOf accId (date + 1) st') = Number (toDecimal actual) /\
  (forall acc day, acc <> accId \/ day <> date + 1 ->
     calculationOf acc day st' = calculationOf acc day st).
Proof.
  intros H. destruct (close_inv toDecimal _ _ _ _ _ _ _ H) as (a & Ha & -> & ->).
  split.
  - rewrite calc_opening_lookup. unfold closedStore. cbn [dailyBalances].
    replace (date + 1 - 1) with date by lia. rewrite lookup_insert_eq.
    f_equal. apply (closedRow_fields toDecimal accId date actual userId st).
  - intros acc day Hother. apply calculationOf_frame; [|reflexivity].
    unfold closedStore. cbn [dailyBalances]. apply lookup_insert_ne.
    intros [= E1 E2]. destruct Hother; [congruence|lia].
Qed.

(** X21: after a successful close, a second close fails ALREADY_CLOSED; a
    reopen succeeds and a second reopen fails DAILY_BALANCE_NOT_CLOSED; the
    close after the reopen does what an auto close of the closed day would
    have done: it stores the new actual balance, keeps the opening and
    closing balance of the first close, and sets the account balance. *)
Theorem close_reopen_cycle accId date a1 a2 u1 u2 u3 st d1 st1 :
  closeDailyBalance toDecimal accId date a1 u1 st = Ok d1 st1 ->
  closeDailyBalance toDecimal accId date a2 u2 st1 = Err ALREADY_CLOSED /\
  exists st2,
    reopenDailyBalance accId date u3 st1 = Ok true st2 /\
    reopenDailyBalance accId date u3 st2 = Err DAILY_BALANCE_NOT_CLOSED /\
    closeDailyBalance toDecimal accId date a2 u2 st2
      = autoCloseDailyBalance toDecimal accId date a2 u2 st1 /\
    exists d3 st3,
      closeDailyBalance toDecimal accId date a2 u2 st2 = Ok d3 st3 /\
      isClosed d3 = true /\ actualBalance d3 = toDecimal a2 /\
      openingBalance d3 = openingBalance d1 /\
      closingBalance d3 = closingBalance d1 /\
      balanceOf accId st3 = Some (toDecimal a2).
Proof.
  intros H.
  destruct (close_inv toDecimal _ _ _ _ _ _ _ (or_introl H)) as (a & Ha & -> & ->).
  set (d1 := closedRow toDecimal accId date a1 u1 st).
  set (st1 := closedStore toDecimal accId date a1 u1 a st).
  assert (Hd1 : dailyBalances st1 !! (date, accId) = Some d1)
    by (subst st1; unfold closedStore; cbn; apply lookup_insert_eq).
  assert (Hc1 : isClosed d1 = true)
    by apply (closedRow_fields toDecimal accId date a1 u1 st).
  split.
  - rewrite close_unfold. unfold isClosedDay. rewrite Hd1, Hc1. reflexivity.
  - set (st2 := setDailyBalances (insert (date, accId) (reopened d1)) st1).
    exists st2.
    assert (Hre : reopenDailyBalance accId date u3 st1 = Ok true st2).
    { unfold reopenDailyBalance, bind, dailyBalance_findUnique, dailyBalance_reopen,
        gets, ret. cbv beta. rewrite Hd1. cbv beta iota. rewrite Hc1.
      cbv beta iota. rewrite Hd1. reflexivity. }
    assert (Hd2 : dailyBalances st2 !! (date, accId) = Some (reopened d1))
      by (subst st2; cbn; apply lookup_insert_eq).
    split; [exact Hre|]. split.
    { unfold reopenDailyBalance, bind, dailyBalance_findUnique, gets, throw.
      cbv beta. rewrite Hd2. reflexivity. }
    assert (Ha1 : bankAccounts st1 !! accId
                  = Some (mkBankAccount (accountNumber a) (toDecimal a1)))
      by (subst st1; unfold closedStore; cbn; apply lookup_insert_eq).
    assert (Heq : closeDailyBalance toDecimal accId date a2 u2 st2
                  = autoCloseDailyBalance toDecimal accId date a2 u2 st1).
    { rewrite close_unfold. unfold isClosedDay. rewrite Hd2. cbn [isClosed reopened].
      rewrite !autoClose_unfold.
      replace (bankAccounts st2) with (bankAccounts st1) by reflexivity.
      rewrite Ha1.
      assert (Hrow : closedRow toDecimal accId date a2 u2 st2
                     = closedRow toDecimal accId date a2 u2 st1).
      { unfold closedRow.
        rewrite (calculationOf_frame accId date st2 st1).
        - rewrite Hd1, Hd2. reflexivity.
        - subst st2. cbn. apply lookup_insert_ne. intros [= E]. lia.
        - reflexivity. }
      unfold closedStore. rewrite Hrow. subst st2 st1. unfold closedStore. cbn.
      rewrite !insert_insert_eq. reflexivity. }
    split; [exact Heq|].
    rewrite Heq, autoClose_unfold, Ha1.
    eexists _, _. split; [reflexivity|].
    pose proof (closedRow_fields toDecimal accId date a2 u2 st1) as F.
    cbv zeta in F. destruct F as (F1 & _ & F3 & _).
    split; [exact F1|]. split; [exact F3|].
    unfold closedRow at 1 2, upsertRow. rewrite Hd1.
    split; [reflexivity|]. split; [reflexivity|].
    unfold balanceOf, closedStore. cbn. rewrite lookup_insert_eq. reflexivity.
Qed.

End CloseCycle.

Section HandlerProperties.

Variable toDecimal : float -> Z.
Variable prismaMessage : string.
Variable today : Z.

Lemma validateTransactionCategory_answer categories categoryId ty text :
  validateTransactionCategory categories categoryId ty = Some text ->
  includes text "CATEGORY_NOT_FOUND" = true \/
  (includes text "CATEGORY_NOT_FOUND" = false /\
   includes text "CATEGORY_INACTIVE" = true) \/
  (includes text "CATEGORY_NOT_FOUND" = false /\
   includes text "CATEGORY_INACTIVE" = false /\
   includes text "CATEGORY_TYPE_MISMATCH" = true).
Proof.
  unfold validateTransactionCategory.
  destruct (categories !! categoryId) as [c|]; [|intros [= <-]; left; reflexivity].
  destruct (cat_isActive c); cbn [negb];
    [|intros [= <-]; right; left; split; reflexivity].
  destruct (negb _); [|discriminate].
  intros [= <-]. right. right.
  destruct (cat_transactionType c), ty; repeat split; vm_compute; reflexivity.
Qed.

(** X22: the createTransaction handler changes the store only when it
    answers 201. A category that is given is checked before the service is
    called: unknown is answered 404 CATEGORY_NOT_FOUND, inactive 400
    CATEGORY_INACTIVE, of another transaction type 400
    CATEGORY_TYPE_MISMATCH, whatever the accounts are. Past that check, a
    success of the service is answered 201 with the store it produced, its
    ACCOUNT_NOT_FOUND 404 ACCOUNT_NOT_FOUND, and its
    TARGET_ACCOUNT_NOT_FOUND also 404 with the code ACCOUNT_NOT_FOUND, the
    text containing that tag. *)
Theorem createTransaction_handler_answers categories user transaction_date
    transaction_time type amount bank_account_id category_id note
    transfer_to_bank_account_id st :
  let out :=
    Controllers.createTransaction prismaMessage today categories user
      transaction_date transaction_time type amount bank_account_id category_id
      note transfer_to_bank_account_id st in
  (answer (fst out) = (None, 201%nat) \/ snd out = st) /\
  (forall u c,
     user = Some u ->
     truthy category_id = Some c ->
     match categories !! c with
     | None => answer (fst out) = (Some "CATEGORY_NOT_FOUND"%string, 404%nat)
     | Some category =>
         if negb (cat_isActive category)
         then answer (fst out) = (Some "CATEGORY_INACTIVE"%string, 400%nat)
         else if negb (TransactionType_eqb (cat_transactionType category) type)
         then answer (fst out) = (Some "CATEGORY_TYPE_MISMATCH"%string, 400%nat)
         else True
     end) /\
  (forall u,
     user = Some u ->
     match truthy category_id with
     | Some c => validateTransactionCategory categories c type
     | None => None
     end = None ->
     let input :=
       mkCreateTransactionInput transaction_date transaction_time type amount
         bank_account_id category_id note transfer_to_bank_account_id (user_id u) in
     (forall res st',
        createTransaction today input st = Ok res st' ->
        answer (fst out) = (None, 201%nat) /\ snd out = st') /\
     (createTransaction today input st = Err ACCOUNT_NOT_FOUND ->
      out = (sendError "ACCOUNT_NOT_FOUND"
               "ACCOUNT_NOT_FOUND: Bank account not found" 404, st)) /\
     (createTransaction today input st = Err TARGET_ACCOUNT_NOT_FOUND ->
      out = (sendError "ACCOUNT_NOT_FOUND"
               "TARGET_ACCOUNT_NOT_FOUND: Target bank account not found" 404, st))).
Proof.
  cbv zeta. unfold Controllers.createTransaction. split; [|split].
  - destruct user as [u|]; [|right; reflexivity].
    destruct (match truthy category_id with
              | Some c => validateTransactionCategory categories c type
              | None => None
              end) as [text|].
    + right. repeat (destruct (includes text _); [reflexivity|]). reflexivity.
    + destruct (createTransaction today _ st) as [res st'|e].
      * left. reflexivity.
      * right. repeat (destruct (includes _ _); [reflexivity|]). reflexivity.
  - intros u c -> Hc. rewrite Hc.
    destruct (validateTransactionCategory categories c type) as [text|] eqn:Ev.
    + pose proof (validateTransactionCategory_answer categories c type text Ev) as H.
      unfold validateTransactionCategory in Ev.
      destruct (categories !! c) as [category|].
      * destruct (negb (cat_isActive category)).
        -- injection Ev as <-. reflexivity.
        -- destruct (negb (TransactionType_eqb _ _)); [|discriminate].
           destruct H as [H|[(H1 & H)|(H1 & H2 & H)]].
           ++ exfalso. injection Ev as <-. revert H.
              destruct (cat_transactionType category), type; vm_compute; discriminate.
           ++ exfalso. injection Ev as <-. revert H.
              destruct (cat_transactionType category), type; vm_compute; discriminate.
           ++ rewrite H1, H2, H. reflexivity.
      * injection Ev as <-. reflexivity.
    + unfold validateTransactionCategory in Ev.
      destruct (categories !! c) as [category|]; [|discriminate].
      destruct (negb (cat_isActive category)); [discriminate|].
      destruct (negb (TransactionType_eqb _ _)); [discriminate|exact I].
  - intros u -> Hv. rewrite Hv. split; [|split].
    + intros res st' E. rewrite E. split; reflexivity.
    + intros E. rewrite E. reflexivity.
    + intros E. rewrite E. reflexivity.
Qed.

(** X23: the updateTransaction and deleteTransaction handlers answer 500
    INTERNAL_ERROR, with their fixed text and the store unchanged, both for
    an id that matches no row and for an edit of a row dated today that
    would leave the balance negative: the services' "Transaction not found"
    and INSUFFICIENT_BALANCE do not reach the client. *)
Theorem edit_handlers_answer_500 user id st :
  (findRow id (transactions st) = None ->
   Controllers.deleteTransaction today (Some user) id st
   = (sendError "INTERNAL_ERROR" "Failed to delete transaction" 500, st) /\
   forall amount note category_id,
     Controllers.updateTransaction toDecimal today (Some user) id amount
       note category_id st
     = (sendError "INTERNAL_ERROR" "Failed to update transaction" 500, st)) /\
  (forall t a,
     findRow id (transactions st) = Some t ->
     transactionDate t = today ->
     bankAccounts st !! bankAccountId t = Some a ->
     (reversedBalance t a < 0 ->
      Controllers.deleteTransaction today (Some user) id st
      = (sendError "INTERNAL_ERROR" "Failed to delete transaction" 500, st)) /\
     (forall amount note category_id,
        amount <> 0 ->
        updatedBalance toDecimal t amount a < 0 ->
        Controllers.updateTransaction toDecimal today (Some user) id (Some amount)
          note category_id st
        = (sendError "INTERNAL_ERROR" "Failed to update transaction" 500, st))).
Proof.
  split.
  - intros Hn. split.
    + unfold Controllers.deleteTransaction, deleteTransaction, bind,
        transaction_findUnique, gets, throw. rewrite Hn. reflexivity.
    + intros amount note category_id.
      unfold Controllers.updateTransaction, updateTransaction, bind,
        transaction_findUnique, gets, throw. rewrite Hn. reflexivity.
  - intros t a Ht Hd Ha. split.
    + intros Hneg. unfold Controllers.deleteTransaction.
      rewrite (deleteTransaction_run today id (user_id user) st t Ht). cbv zeta.
      apply Z.ltb_lt in Hneg. rewrite Hd, Z.eqb_refl, Ha, Hneg. reflexivity.
    + intros amount note category_id Hnz Hneg. unfold Controllers.updateTransaction.
      rewrite (updateTransaction_run toDecimal today id _ (user_id user) st t Ht).
      cbv zeta. unfold Controllers.truthyAmount. cbn [upd_amount].
      apply Z.eqb_neq in Hnz. rewrite Hnz.
      apply Z.ltb_lt in Hneg. rewrite Hd, Z.eqb_refl, Ha, Hneg. reflexivity.
Qed.

End HandlerProperties.

Section StateHandlers.

Variable toDecimal : float -> Z.
Variable prismaMessage : string.
Variable today : Z.

(** X24: the daily-balance and bulk handlers. Closing a closed day is
    answered 400 DAILY_BALANCE_CLOSED for every role with the store
    unchanged, where the auto-close handler refuses every role but OWNER
    with 403 and answers an OWNER 200 or 500, never 400. Reopening a day
    that is not closed is answered 400 DAILY_BALANCE_NOT_CLOSED, a closed
    one 200 and opened, and a BRANCH_USER is refused 403 either way. The
    recalculation handler answers OWNER and BRANCH_MANAGER 200 and
    BRANCH_USER 403. The bulk handler refuses BRANCH_USER with 403 and an
    empty list with 400 VALIDATION_ERROR, a list the service itself
    accepts. *)
Theorem dailyBalance_handlers_answer user bank_account_id date st :
  (isClosedDay bank_account_id date st = true ->
   forall actual_balance,
     Controllers.closeDailyBalance toDecimal prismaMessage (Some user)
       bank_account_id date actual_balance st
     = (sendError "DAILY_BALANCE_CLOSED"
          "ALREADY_CLOSED: Daily balance for this date is already closed" 400, st)) /\
  (forall actual_balance,
     let out :=
       Controllers.autoCloseDailyBalance toDecimal (Some user) bank_account_id
         date actual_balance st in
     match role user with
     | OWNER =>
         answer (fst out) = (None, 200%nat) \/
         (answer (fst out) = (Some "INTERNAL_ERROR"%string, 500%nat) /\ snd out = st)
     | _ =>
         out = (sendError "FORBIDDEN" "Only admin can use auto close feature" 403, st)
     end) /\
  (isClosedDay bank_account_id date st = false ->
   Controllers.reopenDailyBalance prismaMessage (Some user) bank_account_id date st
   = match role user with
     | BRANCH_USER =>
         (sendError "FORBIDDEN"
            "Insufficient permissions to reopen daily balance" 403, st)
     | _ =>
         (sendError "DAILY_BALANCE_NOT_CLOSED"
            "DAILY_BALANCE_NOT_CLOSED: Daily balance is not closed or does not exist"
            400, st)
     end) /\
  (isClosedDay bank_account_id date st = true ->
   let out :=
     Controllers.reopenDailyBalance prismaMessage (Some user) bank_account_id
       date st in
   match role user with
   | BRANCH_USER => answer (fst out) = (Some "FORBIDDEN"%string, 403%nat) /\ snd out = st
   | _ =>
       answer (fst out) = (None, 200%nat) /\
       isClosedDay bank_account_id date (snd out) = false
   end) /\
  (forall fromDate,
     bank_account_id <> EmptyString ->
     answer (fst (Controllers.recalculateDailyBalances today (Some user)
                    (Some bank_account_id) (Some fromDate) st))
     = match role user with
       | BRANCH_USER => (Some "FORBIDDEN"%string, 403%nat)
       | _ => (None, 200%nat)
       end) /\
  (forall updates,
     let out :=
       Controllers.bulkUpdateHistoricalTransactions (Some user) updates st in
     match role user with
     | BRANCH_USER =>
         out = (sendError "FORBIDDEN" "Insufficient permissions for bulk updates"
                  403, st)
     | _ =>
         updates = [] ->
         out = (sendError "VALIDATION_ERROR"
                  "Updates array is required and cannot be empty" 400, st) /\
         bulkUpdateHistoricalTransactions updates (user_id user) st
         = Ok (mkBulkResult 0 [] []) st
     end).
Proof.
  split; [|split; [|split; [|split; [|split]]]].
  - intros Hc actual_balance. unfold Controllers.closeDailyBalance.
    rewrite close_unfold, Hc. reflexivity.
  - intros actual_balance. cbv zeta. unfold Controllers.autoCloseDailyBalance.
    destruct (role user); try reflexivity.
    destruct (autoCloseDailyBalance _ _ _ _ _ _); [left|right; split]; reflexivity.
  - intros Hc. unfold Controllers.reopenDailyBalance.
    assert (Hr : reopenDailyBalance bank_account_id date (user_id user) st
                 = Err DAILY_BALANCE_NOT_CLOSED).
    { unfold isClosedDay in Hc.
      unfold reopenDailyBalance, bind, dailyBalance_findUnique, gets, throw.
      destruct (dailyBalances st !! (date, bank_account_id)) as [r|];
        [|reflexivity].
      cbn in Hc. rewrite Hc. reflexivity. }
    rewrite Hr. destruct (role user); reflexivity.
  - intros Hc. cbv zeta. unfold Controllers.reopenDailyBalance.
    unfold isClosedDay in Hc.
    destruct (dailyBalances st !! (date, bank_account_id)) as [r|] eqn:E;
      [|discriminate].
    cbn in Hc.
    assert (Hr : reopenDailyBalance bank_account_id date (user_id user) st
                 = Ok true (setDailyBalances
                              (insert (date, bank_account_id) (reopened r)) st)).
    { unfold reopenDailyBalance, bind, dailyBalance_findUnique,
        dailyBalance_reopen, gets, throw, ret.
      rewrite E. cbv beta iota. rewrite Hc. cbv beta iota. rewrite E. reflexivity. }
    rewrite Hr.
    destruct (role user); cbn [fst snd answer]; try (split; reflexivity);
      (split; [reflexivity|]); unfold isClosedDay; destruct st; cbn;
      rewrite lookup_insert_eq; reflexivity.
  - intros fromDate Hne. unfold Controllers.recalculateDailyBalances, truthy.
    apply String.eqb_neq in Hne. rewrite Hne, recalculate_run.
    destruct (role user); reflexivity.
  - intros updates. cbv zeta. unfold Controllers.bulkUpdateHistoricalTransactions.
    destruct (role user); try reflexivity; intros ->; split; try reflexivity;
      destruct st; reflexivity.
Qed.

End StateHandlers.

(** ** Runs on concrete stores, continued *)

(** A withdrawal dated day 9, entered on day 10, opens day 9 of account A. *)
Lemma create_reopens_own_day_only_day9 :
  exists res st',
    createTransaction 10 (request 9 WITHDRAWAL 20000 None) twoAccounts = Ok res st' /\
    res_reopenedDailyBalance res = true /\
    isClosedDay "A" 9 st' = false.
Proof.
  assert (Hrun : exists res st',
             createTransaction 10 (request 9 WITHDRAWAL 20000 None) twoAccounts
             = Ok res st')
    by (eexists _, _; vm_compute; reflexivity).
  destruct Hrun as (res & st' & Hrun). exists res, st'.
  split; [exact Hrun|].
  pose proof (create_reopens_own_day_only 10 (request 9 WITHDRAWAL 20000 None)
                twoAccounts res st' Hrun) as H.
  cbv zeta in H. destruct H as (H1 & H2 & _).
  split; [exact H1|exact H2].
Defined.

(** A fourth row on day 10 of scenario B. *)
Lemma create_counts_on_source_scenarioB :
  exists res st',
    createTransaction 10 (request 10 DEPOSIT 5000 None) scenarioB = Ok res st' /\
    transactionCount (calculationOf "A" 10 st') = 4%nat /\
    calc_openingBalance (calculationOf "A" 10 st') = 1000%float.
Proof.
  assert (Hrun : exists res st',
             createTransaction 10 (request 10 DEPOSIT 5000 None) scenarioB
             = Ok res st')
    by (eexists _, _; vm_compute; reflexivity).
  destruct Hrun as (res & st' & Hrun). exists res, st'.
  split; [exact Hrun|].
  assert (Hty : truthy (in_transferToBankAccountId (request 10 DEPOSIT 5000 None))
                  <> Some (in_bankAccountId (request 10 DEPOSIT 5000 None))
                \/ in_type (request 10 DEPOSIT 5000 None) <> TRANSFER)
    by (right; discriminate).
  pose proof (create_counts_on_source 10 (request 10 DEPOSIT 5000 None)
                scenarioB res st' Hrun Hty) as H.
  cbv zeta in H. destruct H as (_ & H1 & H2).
  split; [exact H1|].
  etransitivity; [exact H2|]. vm_compute. reflexivity.
Defined.

(** A transfer dated day 9 from A to B: the deposit lands on the closed
    day 9 of B, which stays closed. *)
Lemma transfer_lands_on_closed_day :
  exists res st' paired,
    createTransaction 10 (request 9 TRANSFER 5000 (Some "B")) crossed = Ok res st' /\
    res_relatedTransaction res = Some paired /\
    type paired = DEPOSIT /\
    dailyBalances st' !! (9, "B") = dailyBalances crossed !! (9, "B").
Proof.
  assert (Hrun : exists res st' paired,
             createTransaction 10 (request 9 TRANSFER 5000 (Some "B")) crossed
             = Ok res st' /\ res_relatedTransaction res = Some paired)
    by (eexists _, _, _; split; vm_compute; reflexivity).
  destruct Hrun as (res & st' & paired & Hrun & Hp). exists res, st', paired.
  split; [exact Hrun|]. split; [exact Hp|].
  assert (Hne : "B" <> in_bankAccountId (request 9 TRANSFER 5000 (Some "B")))
    by discriminate.
  pose proof (transfer_lands_without_reopening 10
                (request 9 TRANSFER 5000 (Some "B")) crossed res st' "B" paired
                Hrun eq_refl eq_refl Hne Hp) as H.
  cbv zeta in H. destruct H as (H1 & _ & _ & _ & H2).
  split; [exact H1|exact H2].
Defined.

(** Raising the withdrawal of scenario B from 100.00 to 200.00. *)
Lemma update_touches_one_row_scenarioB :
  exists res st',
    updateTransaction round2 10 2 (mkUpdateTransactionInput (Some 20000) None None)
      "u1" scenarioB = Ok res st' /\
    findRow 2 (transactions st')
      = Some (applyUpdates (mkUpdateTransactionInput (Some 20000) None None)
                (row 2 10 WITHDRAWAL 10000 "A")) /\
    findRow 1 (transactions st') = findRow 1 (transactions scenarioB) /\
    length (transactions st') = 4%nat.
Proof.
  assert (Hrun : exists res st',
             updateTransaction round2 10 2
               (mkUpdateTransactionInput (Some 20000) None None) "u1" scenarioB
             = Ok res st')
    by (eexists _, _; vm_compute; reflexivity).
  destruct Hrun as (res & st' & Hrun). exists res, st'.
  split; [exact Hrun|].
  destruct (update_touches_one_row round2 10 2
              (mkUpdateTransactionInput (Some 20000) None None) "u1" scenarioB
              (row 2 10 WITHDRAWAL 10000 "A") res st' eq_refl Hrun)
    as (_ & H1 & H2 & H3 & _).
  split; [exact H1|].
  split; [apply H2; discriminate|exact H3].
Defined.

Lemma wfStore_twoAccounts : wfStore twoAccounts.
Proof. repeat split; constructor. Qed.

(** An expense of 50.00 entered today and deleted again. *)
Lemma create_then_delete_expense :
  exists res st1 res2 st2,
    createTransaction 10 (request 10 EXPENSE 5000 None) twoAccounts = Ok res st1 /\
    deleteTransaction 10 (id (res_transaction res)) "u1" st1 = Ok res2 st2 /\
    bankAccounts st2 = bankAccounts twoAccounts /\
    transactions st2 = [].
Proof.
  destruct (create_then_delete 10 (request 10 EXPENSE 5000 None) "u1" twoAccounts
              (mkBankAccount "001" 100000) wfStore_twoAccounts eq_refl eq_refl
              (or_intror eq_refl))
    as (res & st1 & Hc & Hpos & _).
  destruct (Hpos ltac:(cbn; lia)) as (res2 & st2 & Hd & Ha & Ht).
  exists res, st1, res2, st2. repeat split; assumption.
Defined.

(** A transfer of 500.00 from A to B entered today and deleted again: B
    keeps the 500.00. *)
Lemma transfer_then_delete_A_to_B :
  exists res st1 res2 st2,
    createTransaction 10 (request 10 TRANSFER 50000 (Some "B")) twoAccounts
      = Ok res st1 /\
    deleteTransaction 10 (id (res_transaction res)) "u1" st1 = Ok res2 st2 /\
    transactions st2 = [] /\
    balanceOf "A" st2 = Some 100000 /\
    balanceOf "B" st2 = Some 60000.
Proof.
  assert (Hne : "B" <> in_bankAccountId (request 10 TRANSFER 50000 (Some "B")))
    by discriminate.
  destruct (transfer_then_delete 10 (request 10 TRANSFER 50000 (Some "B")) "u1"
              twoAccounts (mkBankAccount "001" 100000) (mkBankAccount "002" 10000)
              "B" wfStore_twoAccounts eq_refl eq_refl Hne eq_refl eq_refl eq_refl
              ltac:(cbn; lia))
    as (res & st1 & res2 & st2 & Hc & _ & Hd & Ht & Ha & Hb).
  exists res, st1, res2, st2. repeat split; assumption.
Defined.

(** Closing the reopened day 9 again keeps the opening and closing balance
    its record had. *)
Lemma reclose_keeps_opening_closing_day9 :
  exists d st',
    closeDailyBalance round2 "A" 9 700 "u1" reopenedYesterday = Ok d st' /\
    openingBalance d = 0 /\ closingBalance d = 0.
Proof.
  destruct (reclose_keeps_opening_closing round2 "A" 9 700%float "u1"
              reopenedYesterday (mkBankAccount "001" 50000) eq_refl eq_refl)
    as (d & st' & H & Hm).
  exists d, st'. split; [exact H|exact Hm].
Defined.

(** Day 10 of scenario B closed at 2000.00: day 11 opens at 2000.00. *)
Lemma close_feeds_next_day_scenarioB :
  exists d st',
    closeDailyBalance round2 "A" 10 2000 "u1" scenarioB = Ok d st' /\
    calc_openingBalance (calculationOf "A" 11 st') = Number (round2 2000).
Proof.
  assert (Hrun : exists d st',
             closeDailyBalance round2 "A" 10 2000 "u1" scenarioB = Ok d st')
    by (eexists _, _; vm_compute; reflexivity).
  destruct Hrun as (d & st' & Hrun). exists d, st'.
  split; [exact Hrun|].
  exact (proj1 (close_feeds_next_day round2 "A" 10 2000%float "u1" scenarioB d st'
                  (or_introl Hrun))).
Defined.

(** Day 10 of scenario B: close, refused second close, reopen, close. *)
Lemma close_reopen_cycle_scenarioB :
  exists d1 st1 st2 d3 st3,
    closeDailyBalance round2 "A" 10 2000 "u1" scenarioB = Ok d1 st1 /\
    closeDailyBalance round2 "A" 10 1500 "u2" st1 = Err ALREADY_CLOSED /\
    reopenDailyBalance "A" 10 "u3" st1 = Ok true st2 /\
    closeDailyBalance round2 "A" 10 1500 "u2" st2 = Ok d3 st3 /\
    balanceOf "A" st3 = Some (round2 1500).
Proof.
  assert (Hrun : exists d1 st1,
             closeDailyBalance round2 "A" 10 2000 "u1" scenarioB = Ok d1 st1)
    by (eexists _, _; vm_compute; reflexivity).
  destruct Hrun as (d1 & st1 & Hrun).
  destruct (close_reopen_cycle round2 "A" 10 2000%float 1500%float "u1" "u2" "u3"
              scenarioB d1 st1 Hrun)
    as (H1 & st2 & H2 & _ & _ & d3 & st3 & H3 & _ & _ & _ & _ & H4).
  exists d1, st1, st2, d3, st3.
  repeat split; [exact Hrun|exact H1|exact H2|exact H3|exact H4].
Defined.

(** Both legs of a transfer get fresh keys. *)
Lemma primary_keys_after_transfer :
  exists res st',
    createTransaction 10 (request 10 TRANSFER 50000 (Some "B")) twoAccounts
      = Ok res st' /\
    wfStore st'.
Proof.
  assert (Hrun : exists res st',
             createTransaction 10 (request 10 TRANSFER 50000 (Some "B")) twoAccounts
             = Ok res st')
    by (eexists _, _; vm_compute; reflexivity).
  destruct Hrun as (res & st' & Hrun). exists res, st'.
  split; [exact Hrun|].
  exact (proj1 primary_keys_maintained 10 (request 10 TRANSFER 50000 (Some "B"))
           twoAccounts res st' wfStore_twoAccounts Hrun).
Defined.

(** Deleting on day 11 a row of day 10 reports a reopening although no
    record exists. *)
Lemma delete_reports_reopening_dimes :
  exists res st',
    deleteTransaction 11 1 "u1" dimes = Ok res st' /\
    del_reopenedDailyBalance res = true /\
    dailyBalances st' = dailyBalances dimes.
Proof.
  assert (Hrun : exists res st', deleteTransaction 11 1 "u1" dimes = Ok res st')
    by (eexists _, _; vm_compute; reflexivity).
  destruct Hrun as (res & st' & Hrun). exists res, st'.
  split; [exact Hrun|].
  pose proof (proj2 edit_reports_reopening 11 1%positive "u1" dimes
                (row 1 10 DEPOSIT 10 "A") res st' eq_refl Hrun) as H.
  cbv zeta in H. destruct H as (H1 & _ & _ & H2 & _).
  split; [exact H1|]. apply H2. intros d. reflexivity.
Defined.

(** The first deposit of [dimes] cannot be deleted today: the account
    holds 0.00. *)
Lemma delete_refused_dimes :
  deleteTransaction 10 1 "u1" dimes = Err INSUFFICIENT_BALANCE.
Proof.
  apply (proj1 (proj2 (deleteTransaction_outcome 10 1 "u1" dimes))
           (row 1 10 DEPOSIT 10 "A") (mkBankAccount "001" 0) eq_refl eq_refl).
  split; reflexivity.
Defined.

(** ... and the handler answers 500 for it. *)
Lemma delete_handler_dimes :
  Controllers.deleteTransaction 10 (Some (mkAuthUser "u1" OWNER)) 1 dimes
  = (sendError "INTERNAL_ERROR" "Failed to delete transaction" 500, dimes).
Proof.
  apply (proj1 (proj2 (edit_handlers_answer_500 round2 10 (mkAuthUser "u1" OWNER)
                         1 dimes)
                  (row 1 10 DEPOSIT 10 "A") (mkBankAccount "001" 0)
                  eq_refl eq_refl eq_refl)).
  reflexivity.
Defined.

(** A transfer to an account that does not exist is answered 404
    ACCOUNT_NOT_FOUND. *)
Lemma create_handler_missing_target :
  Controllers.createTransaction EmptyString 10 ∅ (Some (mkAuthUser "u1" OWNER))
    10 "1970-01-01T09:00:00.000Z" TRANSFER 5000 "A" None None (Some "Z"%string)
    twoAccounts
  = (sendError "ACCOUNT_NOT_FOUND"
       "TARGET_ACCOUNT_NOT_FOUND: Target bank account not found" 404, twoAccounts).
Proof.
  apply (proj2 (proj2 (proj2 (createTransaction_handler_answers EmptyString 10 ∅
                  (Some (mkAuthUser "u1" OWNER)) 10 "1970-01-01T09:00:00.000Z"
                  TRANSFER 5000 "A" None None (Some "Z"%string) twoAccounts))
           (mkAuthUser "u1" OWNER) eq_refl eq_refl)).
  vm_compute. reflexivity.
Defined.

(** Closing the closed day 9 of scenario B is answered 400. *)
Lemma close_handler_day9 :
  Controllers.closeDailyBalance round2 EmptyString
    (Some (mkAuthUser "u2" BRANCH_USER)) "A" 9 1000 scenarioB
  = (sendError "DAILY_BALANCE_CLOSED"
       "ALREADY_CLOSED: Daily balance for this date is already closed" 400,
     scenarioB).
Proof.
  exact (proj1 (dailyBalance_handlers_answer round2 EmptyString 10
                  (mkAuthUser "u2" BRANCH_USER) "A" 9 scenarioB)
           eq_refl 1000%float).
Defined.

(** An expense on an account that does not exist. *)
Lemma createTransaction_missing_source :
  createTransaction 10
    (mkCreateTransactionInput 10 "1970-01-01T09:00:00.000Z" EXPENSE 5000 "Z"
       None None None "u1") twoAccounts
  = Err ACCOUNT_NOT_FOUND.
Proof.
  apply (proj1 (createTransaction_outcome 10
                  (mkCreateTransactionInput 10 "1970-01-01T09:00:00.000Z" EXPENSE
                     5000 "Z" None None None "u1") twoAccounts)).
  reflexivity.
Defined.

(** Corrections that name no existing row. *)
Lemma bulkUpdate_unknown_ids_twoAccounts :
  bulkUpdateHistoricalTransactions corrections "u1" twoAccounts
  = Ok (mkBulkResult 2 [] []) twoAccounts.
Proof.
  apply (proj1 (bulkUpdate_skips_unknown_ids corrections "u1" twoAccounts)).
  repeat constructor.
Defined.
